(** * Project-Call training stack: a shallow embedding and its properties

    The Python sources embedded here are

    - [training/deployment/production_emotion_service.py]
    - [training/deployment/emotion_service_wrapper.py]
    - [training/emotion_trainer.py]
    - [training/data_processor.py]
    - [training/model_integrator.py]

    Floating point numbers produced by numpy ([np.exp], [np.sum], the
    draws of [np.random.random] and [np.random.randn]) are read as real
    numbers, and accuracies and class weights as exact rationals; what is
    proved of them holds over real arithmetic.  Two computations are
    followed in binary64, operation by operation: the sizes of the data
    splits, which depend on how a float product is rounded, and the text
    scores of the service on one input.  Python strings are read as byte
    strings.  Library code that is not part of the repository (pandas
    sampling, scikit-learn splitting, the regular-expression engine,
    torch layers and optimisers, the string hash) is taken through an
    interface whose laws are stated next to it. *)

From Stdlib Require Import Reals Lra Lia ZArith QArith Qround Qreals String Ascii List Permutation.
From Stdlib Require Floats.
From stdpp Require Import base gmap list strings sorting.

Set Warnings "-register-all".
Local Open Scope string_scope.

(** ** Python values and exceptions *)

Module Py.

(** The values that travel through [json.loads] / [json.dumps] and the
    service's result dictionaries.  A [dict] keeps insertion order. *)
Inductive pyval : Type :=
| PyNone
| PyBool (b : bool)
| PyInt (z : Z)
| PyFloat (r : R)
| PyStr (s : string)
| PyList (l : list pyval)
| PyDict (d : list (string * pyval)).

Definition type_name (v : pyval) : string :=
  match v with
  | PyNone => "NoneType"
  | PyBool _ => "bool"
  | PyInt _ => "int"
  | PyFloat _ => "float"
  | PyStr _ => "str"
  | PyList _ => "list"
  | PyDict _ => "dict"
  end.

(** Exceptions carry the text that [str(e)] returns.  [SystemExit] and
    [KeyboardInterrupt] derive from [BaseException] only. *)
Inductive exn : Type :=
| AttributeError (msg : string)
| TypeError (msg : string)
| ValueError (msg : string)
| IndexError (msg : string)
| KeyError (msg : string)
| ImportError (msg : string)
| JSONDecodeError (msg : string)
| NameError (msg : string)
| FileNotFoundError (msg : string)
| ZeroDivisionError (msg : string)
| RuntimeError (msg : string)
| SystemExit (code : Z)
| KeyboardInterrupt.

Definition is_Exception (e : exn) : bool :=
  match e with
  | SystemExit _ | KeyboardInterrupt => false
  | _ => true
  end.

Definition is_ImportError (e : exn) : bool :=
  match e with
  | ImportError _ => true
  | _ => false
  end.

Definition str_exn (e : exn) : string :=
  match e with
  | AttributeError m | TypeError m | ValueError m | IndexError m
  | KeyError m | ImportError m | JSONDecodeError m | NameError m
  | FileNotFoundError m | ZeroDivisionError m | RuntimeError m => m
  | SystemExit _ => "SystemExit"
  | KeyboardInterrupt => ""
  end.

(** [d[k] = v] on an insertion-ordered dictionary. *)
Fixpoint dict_set (k : string) (v : pyval) (d : list (string * pyval))
  : list (string * pyval) :=
  match d with
  | [] => [(k, v)]
  | (k', v') :: d' =>
      if String.eqb k k' then (k, v) :: d' else (k', v') :: dict_set k v d'
  end.

Fixpoint dict_get (k : string) (d : list (string * pyval)) : option pyval :=
  match d with
  | [] => None
  | (k', v') :: d' => if String.eqb k k' then Some v' else dict_get k d'
  end.

(** [{k: v for k, v in pairs}] *)
Definition dict_of_pairs (kvs : list (string * pyval)) : list (string * pyval) :=
  fold_left (fun d kv => dict_set (fst kv) (snd kv) d) kvs [].

(** [data.get(key, default)]: only a [dict] has the method. *)
Definition py_get (data : pyval) (k : string) (default : pyval) : exn + pyval :=
  match data with
  | PyDict d => inr (match dict_get k d with Some v => v | None => default end)
  | v => inl (AttributeError
                ("'" ++ type_name v ++ "' object has no attribute 'get'"))
  end.

(** [len(v)] *)
Definition py_len (v : pyval) : exn + nat :=
  match v with
  | PyStr s => inr (String.length s)
  | PyList l => inr (length l)
  | PyDict d => inr (length d)
  | v => inl (TypeError ("object of type '" ++ type_name v ++ "' has no len()"))
  end.

(** *** The [str] methods the service uses *)

Definition is_space (c : ascii) : bool :=
  let n := nat_of_ascii c in
  (n =? 32)%nat || ((9 <=? n)%nat && (n <=? 13)%nat)
  || ((28 <=? n)%nat && (n <=? 31)%nat).

Definition lower_ascii (c : ascii) : ascii :=
  let n := nat_of_ascii c in
  if (65 <=? n)%nat && (n <=? 90)%nat then ascii_of_nat (n + 32) else c.

Fixpoint lower (s : string) : string :=
  match s with
  | EmptyString => EmptyString
  | String c s' => String (lower_ascii c) (lower s')
  end.

(** [needle in hay] for two strings. *)
Fixpoint contains (needle hay : string) : bool :=
  String.prefix needle hay
  || match hay with
     | EmptyString => false
     | String _ hay' => contains needle hay'
     end.

(** [s.split()]: maximal runs of non-blank characters. *)
Fixpoint split_ws (cur : string) (s : string) : list string :=
  match s with
  | EmptyString => match cur with EmptyString => [] | _ => [cur] end
  | String c s' =>
      if is_space c
      then match cur with
           | EmptyString => split_ws EmptyString s'
           | _ => cur :: split_ws EmptyString s'
           end
      else split_ws (cur ++ String c EmptyString) s'
  end.

Definition py_split (text : pyval) : exn + list string :=
  match text with
  | PyStr s => inr (split_ws EmptyString s)
  | v => inl (AttributeError
                ("'" ++ type_name v ++ "' object has no attribute 'split'"))
  end.

Definition py_lower (text : pyval) : exn + string :=
  match text with
  | PyStr s => inr (lower s)
  | v => inl (AttributeError
                ("'" ++ type_name v ++ "' object has no attribute 'lower'"))
  end.

(** [s.strip()]: the blanks at both ends removed. *)
Fixpoint lstrip (s : string) : string :=
  match s with
  | EmptyString => EmptyString
  | String c s' => if is_space c then lstrip s' else s
  end.

Fixpoint rstrip (s : string) : string :=
  match s with
  | EmptyString => EmptyString
  | String c s' =>
      match rstrip s' with
      | EmptyString => if is_space c then EmptyString else String c EmptyString
      | r => String c r
      end
  end.

Definition strip (s : string) : string := lstrip (rstrip s).

(** The blanks that every engine takes for one: tab, newline, form feed,
    carriage return and the space. *)
Definition common_blank (c : ascii) : bool :=
  existsb (Nat.eqb (nat_of_ascii c)) [9; 10; 12; 13; 32]%nat.

(** The class [\s] of the regular-expression engine that runs the pattern:
    Python's [re] on a column of Python strings, RE2 on an Arrow-backed
    column.  On ASCII the former is [str.isspace], the latter the five
    common blanks. *)
Class Regex : Type := { re_space : ascii -> bool }.

Class RegexLaws (E : Regex) : Prop := {
  re_space_common : forall c, common_blank c = true -> re_space c = true;
  re_space_blank : forall c, re_space c = true -> is_space c = true
}.

Definition python_re : Regex := {| re_space := is_space |}.
Definition re2 : Regex := {| re_space := common_blank |}.

(** [re.sub(r'\s+', ' ', s)]: every maximal run of characters of the class
    [blank] becomes one space; [in_run] tells that the run at hand was
    replaced already. *)
Fixpoint collapse_ws (blank : ascii -> bool) (in_run : bool) (s : string)
  : string :=
  match s with
  | EmptyString => EmptyString
  | String c s' =>
      if blank c
      then if in_run then collapse_ws blank true s'
           else String " " (collapse_ws blank true s')
      else String c (collapse_ws blank false s')
  end.

Definition sub_ws `{Regex} (s : string) : string := collapse_ws re_space false s.

(** A string of ASCII characters whose blanks are common blanks: the
    strings on which bytes are characters, [lower] is [str.lower], and
    all engines agree on what a blank is. *)
Definition plain_char (c : ascii) : bool :=
  (nat_of_ascii c <? 128)%nat && (negb (is_space c) || common_blank c).

Fixpoint plain (s : string) : bool :=
  match s with
  | EmptyString => true
  | String c s' => plain_char c && plain s'
  end.

(** The entry of a dictionary value under a key, if any. *)
Definition item (v : pyval) (k : string) : option pyval :=
  match v with
  | PyDict d => dict_get k d
  | _ => None
  end.

End Py.

(** ** numpy on one-dimensional arrays of reals *)

Module Np.
Import Py.
Local Open Scope R_scope.

Definition sum (l : list R) : R := fold_right Rplus 0 l.

(** [np.exp(scores) / np.sum(np.exp(scores))] *)
Definition softmax (scores : list R) : list R :=
  let e := map exp scores in
  map (fun x => x / sum e) e.

(** [np.argmax]: the first index holding the largest entry. *)
Fixpoint argmax_from (best_i : nat) (best : R) (i : nat) (l : list R) : nat :=
  match l with
  | [] => best_i
  | x :: l' =>
      if Rlt_dec best x
      then argmax_from i x (S i) l'
      else argmax_from best_i best (S i) l'
  end.

Definition argmax (l : list R) : exn + nat :=
  match l with
  | [] => inl (ValueError "attempt to get argmax of an empty sequence")
  | x :: l' => inr (argmax_from 0 x 1 l')
  end.

(** [scores[i] += d]; numpy raises [IndexError] out of range. *)
Definition add_at (i : nat) (d : R) (scores : list R) : exn + list R :=
  match scores !! i with
  | Some x => inr (<[i := x + d]> scores)
  | None => inl (IndexError "index is out of bounds for axis 0")
  end.

(** [a * x + b * y] on arrays, element by element. *)
Definition axpby (a : R) (x : list R) (b : R) (y : list R) : list R :=
  zip_with (fun u v => a * u + b * v) x y.

(** [k] is the first position of [l] that holds its largest entry [x]:
    what [np.argmax] is documented to return. *)
Definition first_max (l : list R) (k : nat) (x : R) : Prop :=
  l !! k = Some x
  /\ Forall (fun y => y <= x) l
  /\ forall j y, (j < k)%nat -> l !! j = Some y -> y < x.

(** [np.mean], [np.min], [np.max] and [np.std] of a non-empty array. *)
Definition mean (l : list R) : R := sum l / INR (length l).

Definition amin (l : list R) : R :=
  match l with
  | [] => 0
  | x :: l' => fold_left Rmin l' x
  end.

Definition amax (l : list R) : R :=
  match l with
  | [] => 0
  | x :: l' => fold_left Rmax l' x
  end.

Definition std (l : list R) : R :=
  sqrt (mean (map (fun x => (x - mean l) * (x - mean l)) l)).

End Np.

(** ** IEEE 754 binary64 numbers

    Where a count of rows is decided by a float64 computation, the
    computation is done on the kernel's binary64 numbers, operation by
    operation as Python does it. *)

Module Float64.

Definition float : Set := PrimFloat.float.

(** [float(n)] for a count [n]: the nearest float, [n] itself below 2^53 *)
Definition of_nat (n : nat) : float :=
  FloatOps.SF2Prim
    (SpecFloat.binary_normalize FloatOps.prec FloatOps.emax (Z.of_nat n) 0 false).

(** The float nearest to the fraction [a / b]: what a decimal literal
    such as [0.2] denotes. *)
Definition ratio (a b : nat) : float := PrimFloat.div (of_nat a) (of_nat b).

(** The rational number that a finite float denotes. *)
Definition to_Q (x : float) : option Q :=
  match FloatOps.Prim2SF x with
  | SpecFloat.S754_zero _ => Some 0%Q
  | SpecFloat.S754_finite s m e =>
      let v := (inject_Z (Z.pos m) * 2 ^ e)%Q in
      Some (if s then (- v)%Q else v)
  | SpecFloat.S754_infinity _ => None
  | SpecFloat.S754_nan => None
  end.

(** [math.ceil(x)], which refuses infinities and NaN *)
Definition ceil (x : float) : option Z := option_map Qceiling (to_Q x).

(** The real number that a float denotes (0 for infinities and NaN). *)
Definition to_R (x : float) : R :=
  match to_Q x with
  | Some q => Q2R q
  | None => 0%R
  end.

(** The sum of finite floats as the rational number it is, without any
    rounding. *)
Fixpoint exact_sum (l : list float) : option Q :=
  match l with
  | nil => Some 0%Q
  | x :: l' =>
      match to_Q x, exact_sum l' with
      | Some q, Some r => Some (Qred (q + r))
      | _, _ => None
      end
  end.

(** The sum as a loop [total += x] computes it, every addition rounded. *)
Definition running_sum (l : list float) : float :=
  fold_left PrimFloat.add l (of_nat 0).

End Float64.

(** ** training/deployment/production_emotion_service.py *)

Module ProductionEmotionService.
Import Py.
Local Open Scope R_scope.

(** The attributes of a [ProductionEmotionService] object. *)
Record service : Type := Service {
  models_dir : string;
  models : gmap string bool;
  emotion_labels : list string
}.

(** What a method can touch: the object itself, numpy's global generator
    (the stream of uniform draws still to come) and the records handed to
    the module logger. *)
Record world : Type := World {
  self : service;
  np_random : nat -> R;
  logged : list string
}.

(** A generator is well formed when every draw lies in [[0, 1)]. *)
Definition uniform_stream (g : nat -> R) : Prop := forall i, 0 <= g i < 1.

(** Computations that may raise and that thread the world. *)
Definition run (A : Type) : Type := world -> (exn + A) * world.

#[global] Instance run_ret : MRet run :=
  fun A (a : A) w => (inr a, w).

#[global] Instance run_bind : MBind run :=
  fun A B (f : A -> run B) (m : run A) w =>
    match m w with
    | (inl e, w') => (inl e, w')
    | (inr a, w') => f a w'
    end.

Definition lift {A : Type} (r : exn + A) : run A := fun w => (r, w).

Definition get_self : run service := fun w => (inr (self w), w).

(** [try: body except Exception as e: handler(e)] *)
Definition try_except {A : Type} (body : run A) (handler : exn -> run A) : run A :=
  fun w =>
    match body w with
    | (inl e, w') => if is_Exception e then handler e w' else (inl e, w')
    | (inr a, w') => (inr a, w')
    end.

(** [logger.error(msg)] *)
Definition logger_error (msg : string) : run unit :=
  fun w => (inr tt, World (self w) (np_random w) (logged w ++ [msg])).

(** [np.random.random(n)]: the next [n] draws of the global generator. *)
Definition np_random_random (n : nat) : run (list R) :=
  fun w =>
    (inr (map (np_random w) (seq 0 n)),
     World (self w) (fun i => np_random w (i + n)%nat) (logged w)).

Definition configured_labels : list string :=
  [ "happiness"; "sadness"; "neutral"; "anger"; "love"; "fear";
    "disgust"; "confusion"; "surprise"; "shame"; "guilt"; "sarcasm"; "desire" ].

(** [_load_production_models]: [available_models] is the list found in
    [models_config.json], or [None] when the file is absent; a failure
    while reading it is logged and leaves [models] as it is. *)
Definition _load_production_models (config : exn + option (list string))
    (s : service) : service :=
  match config with
  | inr (Some available_models) =>
      Service (models_dir s)
              (foldl (fun m model_name => <[model_name := true]> m)
                     (models s) available_models)
              (emotion_labels s)
  | inr None => s
  | inl _ => s
  end.

(** [__init__] *)
Definition init (dir : string) (config : exn + option (list string)) : service :=
  _load_production_models config (Service dir ∅ configured_labels).

Definition any_in (words : list string) (text : string) : bool :=
  existsb (fun word => contains word text) words.

(** [_simulate_text_inference] *)
Definition _simulate_text_inference (text : pyval) : run (list R) :=
  ws ← lift (py_split text);
  let text_length := length ws in
  s ← get_self;
  scores ← np_random_random (length (emotion_labels s));
  low ← lift (py_lower text);
  scores ← (if any_in ["happy"; "great"; "excellent"; "wonderful"] low
            then lift (Np.add_at 0 0.3 scores)
            else if any_in ["sad"; "terrible"; "awful"; "bad"] low
            then lift (Np.add_at 1 0.3 scores)
            else if any_in ["angry"; "frustrated"; "mad"] low
            then lift (Np.add_at 3 0.3 scores)
            else mret scores);
  mret (Np.softmax scores).

(** [_simulate_audio_inference] *)
Definition _simulate_audio_inference (audio_features : pyval) : run (list R) :=
  s ← get_self;
  scores ← np_random_random (length (emotion_labels s));
  n ← lift (py_len audio_features);
  scores ← (if (20 <? n)%nat
            then scores ← lift (Np.add_at 0 0.2 scores);
                 lift (Np.add_at 3 0.1 scores)
            else mret scores);
  mret (Np.softmax scores).

(** [_simulate_multimodal_inference] *)
Definition _simulate_multimodal_inference (text audio_features : pyval)
  : run (list R) :=
  text_scores ← _simulate_text_inference text;
  audio_scores ← _simulate_audio_inference audio_features;
  mret (Np.axpby 0.6 text_scores 0.4 audio_scores).

(** The dictionary every [detect_*] method builds from the scores. *)
Definition scores_to_result (model_used : string) (emotion_scores : list R)
  : run pyval :=
  s ← get_self;
  predicted_emotion_idx ← lift (Np.argmax emotion_scores);
  predicted_emotion ←
    lift (match emotion_labels s !! predicted_emotion_idx with
          | Some l => inr l
          | None => inl (IndexError "list index out of range")
          end);
  confidence ←
    lift (match emotion_scores !! predicted_emotion_idx with
          | Some c => inr c
          | None => inl (IndexError "index is out of bounds for axis 0")
          end);
  mret (PyDict
          [ ("emotion", PyStr predicted_emotion);
            ("confidence", PyFloat confidence);
            ("all_scores",
              PyDict (dict_of_pairs
                        (zip_with (fun emotion score => (emotion, PyFloat score))
                                  (emotion_labels s) emotion_scores)));
            ("model_used", PyStr model_used) ]).

(** The dictionary of every [except] branch. *)
Definition fallback_result (e : exn) : pyval :=
  PyDict [ ("emotion", PyStr "neutral");
           ("confidence", PyFloat 0.5);
           ("error", PyStr (str_exn e)) ].

Definition on_error (what : string) (e : exn) : run pyval :=
  _ ← logger_error ("Error in " ++ what ++ " emotion detection: " ++ str_exn e);
  mret (fallback_result e).

(** The body of the [try] block of [detect_emotion_from_text]. *)
Definition detect_emotion_from_text_body (text : pyval) : run pyval :=
  emotion_scores ← _simulate_text_inference text;
  scores_to_result "text_emotion_optimized" emotion_scores.

Definition detect_emotion_from_text (text : pyval) : run pyval :=
  try_except (detect_emotion_from_text_body text) (on_error "text").

Definition detect_emotion_from_audio_body (audio_features : pyval) : run pyval :=
  emotion_scores ← _simulate_audio_inference audio_features;
  scores_to_result "audio_emotion_optimized" emotion_scores.

Definition detect_emotion_from_audio (audio_features : pyval) : run pyval :=
  try_except (detect_emotion_from_audio_body audio_features) (on_error "audio").

Definition detect_emotion_multimodal_body (text audio_features : pyval)
  : run pyval :=
  emotion_scores ← _simulate_multimodal_inference text audio_features;
  scores_to_result "multimodal_optimized" emotion_scores.

Definition detect_emotion_multimodal (text audio_features : pyval) : run pyval :=
  try_except (detect_emotion_multimodal_body text audio_features)
             (on_error "multimodal").

(** *** The simulated inference, read off as a function of the draw *)

(** [draws g n] are the next [n] numbers of generator [g], and
    [advance g n] is the generator once they are consumed. *)
Definition draws (g : nat -> R) (n : nat) : list R := map g (seq 0 n).

Definition advance (g : nat -> R) (n : nat) : nat -> R :=
  fun i => g (i + n)%nat.

Definition bump (i : nat) (d : R) (scores : list R) : list R :=
  match scores !! i with
  | Some x => <[i := x + d]> scores
  | None => scores
  end.

(** The keyword heuristic: which score, if any, is raised by 0.3. *)
Definition keyword_index (low : string) : option nat :=
  if any_in ["happy"; "great"; "excellent"; "wonderful"] low then Some 0%nat
  else if any_in ["sad"; "terrible"; "awful"; "bad"] low then Some 1%nat
  else if any_in ["angry"; "frustrated"; "mad"] low then Some 3%nat
  else None.

Definition text_adjust (s : string) (draw : list R) : list R :=
  match keyword_index (lower s) with
  | Some i => bump i 0.3 draw
  | None => draw
  end.

Definition audio_adjust (n : nat) (draw : list R) : list R :=
  if (20 <? n)%nat then bump 3 0.1 (bump 0 0.2 draw) else draw.

(** Calling a method twice in a row on the same input. *)
Definition twice {A : Type} (m : run A) (w : world) : (exn + A) * (exn + A) :=
  let r1 := m w in
  let r2 := m (snd r1) in
  (fst r1, fst r2).

(** A generator that draws 0.9 at the listed positions and 0 elsewhere,
    and the [n] numbers with a single 0.9 at position [k]. *)
Definition spike_stream (ks : list nat) : nat -> R :=
  fun i => if existsb (Nat.eqb i) ks then 0.9 else 0.

Definition spike (k n : nat) : list R :=
  map (fun i => if (i =? k)%nat then 0.9 else 0) (seq 0 n).

(** *** The shape of a successful result *)

(** [d] is a result dictionary over [labels]: one score per label, all
    positive and adding up to one, the confidence the largest of them and
    the emotion the label at the first position holding it. *)
Definition well_formed_result (labels : list string) (d : pyval) : Prop :=
  exists (emotion : string) (confidence : R) (scores : list R)
         (model_used : string) (i : nat),
    d = PyDict [ ("emotion", PyStr emotion);
                 ("confidence", PyFloat confidence);
                 ("all_scores",
                   PyDict (zip_with (fun e s => (e, PyFloat s)) labels scores));
                 ("model_used", PyStr model_used) ]
    /\ length scores = length labels
    /\ Forall (fun x => 0 < x) scores
    /\ Np.sum scores = 1
    /\ Np.first_max scores i confidence
    /\ labels !! i = Some emotion.

(** *** What the inference depends on *)

(** Two worlds [agree] when they have the same labels and the same
    generator; the loaded models and the log may differ.  Two
    computations are [alike] when, started in worlds that agree, they end
    the same way in worlds that agree. *)
Definition agree (w1 w2 : world) : Prop :=
  emotion_labels (self w1) = emotion_labels (self w2)
  /\ np_random w1 = np_random w2.

Definition alike {A : Type} (m1 m2 : run A) : Prop :=
  forall w1 w2, agree w1 w2 ->
    fst (m1 w1) = fst (m2 w2) /\ agree (snd (m1 w1)) (snd (m2 w2)).

(** *** Failure recovery *)

(** A computation is [safe] when it leaves the service object as it found
    it and raises nothing but subclasses of [Exception]. *)
Definition safe {A : Type} (m : run A) : Prop :=
  forall w, self (snd (m w)) = self w
            /\ forall e, fst (m w) = inl e -> is_Exception e = true.

(** [method] recovers from the failures of [body]: it returns what the
    body returns, and when the body raises [e] it returns the fallback
    dictionary, having logged the error and nothing else; either way the
    service object is the one it started with. *)
Definition recovers (what : string) (body method : run pyval) : Prop :=
  forall w,
    match body w with
    | (inr d, w1) => method w = (inr d, w1) /\ self w1 = self w
    | (inl e, w1) =>
        method w
        = (inr (PyDict [ ("emotion", PyStr "neutral");
                         ("confidence", PyFloat 0.5);
                         ("error", PyStr (str_exn e)) ]),
           World (self w) (np_random w1)
                 (logged w1
                  ++ ["Error in " ++ what ++ " emotion detection: " ++ str_exn e]))
    end.

(** *** [get_model_performance_stats] *)


(** The three keyword lists of [_simulate_text_inference]. *)
Definition happy_words : list string := ["happy"; "great"; "excellent"; "wonderful"].
Definition sad_words : list string := ["sad"; "terrible"; "awful"; "bad"].
Definition angry_words : list string := ["angry"; "frustrated"; "mad"].

End ProductionEmotionService.

(** ** The text path of the service in binary64

    The same lines of [_simulate_text_inference], with the numbers as
    numpy holds them: float64, every operation rounded. *)

Module ProductionEmotionService64.
Import Py.
Local Open Scope list_scope.

(** [np.exp] on one float64 and [np.sum] of a float64 array come from
    numpy's compiled loops; they are taken through an interface. *)
Class Numpy64 : Type := {
  np_exp : Float64.float -> Float64.float;
  np_sum : list Float64.float -> Float64.float
}.

(** [scores[i] += d] *)
Definition add_at (i : nat) (d : Float64.float) (scores : list Float64.float)
  : exn + list Float64.float :=
  match scores !! i with
  | Some x => inr (<[i := PrimFloat.add x d]> scores)
  | None => inl (IndexError "index is out of bounds for axis 0")
  end.

Section Text.
Context `{Numpy64}.

(** [np.exp(scores) / np.sum(np.exp(scores))] *)
Definition softmax (scores : list Float64.float) : list Float64.float :=
  let e := map np_exp scores in
  let total := np_sum e in
  map (fun x => PrimFloat.div x total) e.

(** [_simulate_text_inference]; [draw] is the array that
    [np.random.random(len(self.emotion_labels))] returns. *)
Definition _simulate_text_inference (text : pyval) (draw : list Float64.float)
  : exn + list Float64.float :=
  match py_split text with
  | inl e => inl e
  | inr ws =>
      match py_lower text with
      | inl e => inl e
      | inr low =>
          let adjusted :=
            if ProductionEmotionService.any_in
                 ["happy"; "great"; "excellent"; "wonderful"] low
            then add_at 0 (Float64.ratio 3 10) draw
            else if ProductionEmotionService.any_in
                      ["sad"; "terrible"; "awful"; "bad"] low
            then add_at 1 (Float64.ratio 3 10) draw
            else if ProductionEmotionService.any_in
                      ["angry"; "frustrated"; "mad"] low
            then add_at 3 (Float64.ratio 3 10) draw
            else inr draw in
          match adjusted with
          | inl e => inl e
          | inr scores => inr (softmax scores)
          end
      end
  end.

End Text.

(** A stand-in for numpy that is right where the example below needs it:
    [np.exp(0.0)] is exactly 1.0 (other arguments are not followed), and
    a sum of ones is exact in whatever order it is taken, here from
    left to right. *)
Definition numpy_at_zero : Numpy64 :=
  {| np_exp := fun x =>
       if PrimFloat.eqb x (Float64.of_nat 0) then Float64.of_nat 1
       else PrimFloat.nan;
     np_sum := Float64.running_sum |}.

End ProductionEmotionService64.

(** ** training/deployment/emotion_service_wrapper.py *)

(** [json.loads] belongs to the standard library of Python; the bridge only
    needs to know whether it returns a value or raises. *)
Class Json : Type := { json_loads : string -> Py.exn + Py.pyval }.

Module EmotionServiceWrapper.
Import Py.
Local Open Scope R_scope.

(** The module globals set by the import block at the top of the file. *)
Record globals : Type := Globals {
  SERVICE_AVAILABLE : bool;
  service : option ProductionEmotionService.service;
  stderr : list string
}.

(** The import block: [imported] is what importing the service module and
    calling [ProductionEmotionService()] gave. *)
Definition import_block (imported : exn + ProductionEmotionService.service)
  : exn + globals :=
  match imported with
  | inr s =>
      inr (Globals true (Some s) ["Successfully loaded ProductionEmotionService"])
  | inl e =>
      if is_ImportError e
      then inr (Globals false None
                  ["Warning: Production emotion service not available: "
                     ++ str_exn e])
      else if is_Exception e
      then inr (Globals false None
                  ["Error initializing emotion service: " ++ str_exn e])
      else inl e
  end.

(** What a run of [main] leaves behind: the documents given to
    [print(json.dumps(...))], in order, and how the call ended. *)
Record outcome : Type := Outcome {
  stdout : list pyval;
  ended : exn + unit
}.

(** The status the interpreter reports for a script whose [main()] ended
    this way. *)
Definition exit_status (r : exn + unit) : Z :=
  match r with
  | inr _ => 0
  | inl (SystemExit code) => code
  | inl _ => 1
  end.

Definition fallback (mode : string) : pyval :=
  PyDict [ ("emotion", PyStr "neutral");
           ("confidence", PyFloat 0.5);
           ("all_scores",
             PyDict [ ("neutral", PyFloat 0.5);
                      ("happiness", PyFloat 0.2);
                      ("sadness", PyFloat 0.1);
                      ("anger", PyFloat 0.1);
                      ("love", PyFloat 0.1) ]);
           ("model_used", PyStr (mode ++ "_fallback")) ].

Definition status_result : pyval :=
  PyDict [ ("models",
             PyDict [ ("text_emotion",
                        PyDict [("status", PyStr "ready"); ("accuracy", PyStr "64.83%")]);
                      ("audio_emotion",
                        PyDict [("status", PyStr "ready"); ("accuracy", PyStr "72.58%")]);
                      ("multimodal_emotion",
                        PyDict [("status", PyStr "ready"); ("accuracy", PyStr "78.28%")]) ]);
           ("last_updated", PyStr "2025-05-30T00:00:00Z") ].

Definition error_result (mode : string) (e : exn) : pyval :=
  PyDict [ ("error", PyStr (str_exn e));
           ("emotion", PyStr "neutral");
           ("confidence", PyFloat 0.5);
           ("model_used", PyStr (mode ++ "_error")) ].

(** Calling a method of the global [service]; the name is unbound when the
    import block failed. *)
Definition call_service (g : globals) (rng : nat -> R)
    (method : ProductionEmotionService.run pyval) : exn + pyval :=
  match service g with
  | Some s => fst (method (ProductionEmotionService.World s rng []))
  | None => inl (NameError "name 'service' is not defined")
  end.

(** The [try] block of [main]. *)
Definition dispatch (g : globals) (rng : nat -> R) (mode : string) (data : pyval)
  : exn + pyval :=
  if String.eqb mode "text" then
    match py_get data "text" (PyStr "") with
    | inl e => inl e
    | inr text =>
        call_service g rng (ProductionEmotionService.detect_emotion_from_text text)
    end
  else if String.eqb mode "audio" then
    match py_get data "audio_features" (PyDict []) with
    | inl e => inl e
    | inr audio_features =>
        call_service g rng
          (ProductionEmotionService.detect_emotion_from_audio audio_features)
    end
  else if String.eqb mode "multimodal" then
    match py_get data "text" (PyStr "") with
    | inl e => inl e
    | inr text =>
        match py_get data "audio_features" (PyDict []) with
        | inl e => inl e
        | inr audio_features =>
            call_service g rng
              (ProductionEmotionService.detect_emotion_multimodal
                 text audio_features)
        end
    end
  else if String.eqb mode "status" then inr status_result
  else inr (PyDict [("error", PyStr ("Unknown mode: " ++ mode))]).

(** [main()], with [sys.argv] as [argv]. *)
Definition main `{Json} (g : globals) (rng : nat -> R) (argv : list string)
  : outcome :=
  match argv with
  | [_; mode; payload] =>
      match json_loads payload with
      | inl e => Outcome [] (inl e)
      | inr data =>
          if negb (SERVICE_AVAILABLE g)
          then Outcome [fallback mode] (inr tt)
          else
            match dispatch g rng mode data with
            | inr result => Outcome [result] (inr tt)
            | inl e =>
                if is_Exception e
                then Outcome [error_result mode e] (inr tt)
                else Outcome [] (inl e)
            end
      end
  | _ => Outcome [PyDict [("error", PyStr "Invalid arguments")]]
                 (inl (SystemExit 1))
  end.

(** The condition under which a payload counts as valid: if [argv] has a
    payload, [json.loads] accepts it. *)
Definition payload_valid `{Json} (argv : list string) : Prop :=
  forall script mode payload,
    argv = [script; mode; payload] -> exists data, json_loads payload = inr data.

(** A parser that accepts the empty object only, to run [main] on. *)
Definition empty_object_json : Json :=
  {| json_loads := fun s =>
       if String.eqb s "{}" then inr (PyDict [])
       else inl (JSONDecodeError "Expecting value") |}.

End EmotionServiceWrapper.

(** ** training/emotion_trainer.py: the three networks *)

(** The tensor operations of torch that the [forward] methods call. *)
Class TensorOps : Type := {
  Tensor : Type;
  relu : Tensor -> Tensor;
  unsqueeze : Tensor -> nat -> Tensor;
  permute : Tensor -> nat * nat * nat -> Tensor;
  cat : list Tensor -> nat -> Tensor;
  (** [hidden[-1]] *)
  last : Tensor -> Tensor
}.

(** What a Hugging Face encoder returns. *)
Record BertOutput `{TensorOps} : Type := {
  last_hidden_state : Tensor;
  pooler_output : Tensor
}.

Module TextEmotionModel.
Section Net.
Context `{TensorOps}.

Record t : Type := Build {
  bert : Tensor -> Tensor -> BertOutput;
  dropout : Tensor -> Tensor;
  classifier : Tensor -> Tensor
}.

Definition forward (m : t) (input_ids attention_mask : Tensor) : Tensor :=
  let outputs := bert m input_ids attention_mask in
  let pooled_output := pooler_output outputs in
  let pooled_output := dropout m pooled_output in
  let logits := classifier m pooled_output in
  logits.

End Net.
End TextEmotionModel.

Module AudioEmotionModel.
Section Net.
Context `{TensorOps}.

Record t : Type := Build {
  conv1 : Tensor -> Tensor;
  conv2 : Tensor -> Tensor;
  pool : Tensor -> Tensor;
  (** returns [lstm_out, (hidden, cell)] *)
  lstm : Tensor -> Tensor * (Tensor * Tensor);
  dropout : Tensor -> Tensor;
  classifier : Tensor -> Tensor
}.

Definition forward (m : t) (audio_features : Tensor) : Tensor :=
  let x := unsqueeze audio_features 1 in
  let x := relu (conv1 m x) in
  let x := relu (conv2 m x) in
  let x := pool m x in
  let x := permute x (0, 2, 1)%nat in
  let '(lstm_out, (hidden, _)) := lstm m x in
  let output := dropout m (last hidden) in
  let logits := classifier m output in
  logits.

End Net.
End AudioEmotionModel.

Module MultimodalEmotionModel.
Section Net.
Context `{TensorOps}.

Record t : Type := Build {
  text_model : TextEmotionModel.t;
  audio_model : AudioEmotionModel.t;
  fusion : Tensor -> Tensor
}.

(** [__init__]: keeps the two given models and adds a fusion network. *)
Definition init (text_model : TextEmotionModel.t)
    (audio_model : AudioEmotionModel.t) (fusion : Tensor -> Tensor) : t :=
  Build text_model audio_model fusion.

Definition forward (m : t) (input_ids attention_mask audio_features : Tensor)
  : Tensor :=
  let text_outputs :=
    TextEmotionModel.bert (text_model m) input_ids attention_mask in
  let text_features := pooler_output text_outputs in
  let x := unsqueeze audio_features 1 in
  let x := relu (AudioEmotionModel.conv1 (audio_model m) x) in
  let x := relu (AudioEmotionModel.conv2 (audio_model m) x) in
  let x := permute (AudioEmotionModel.pool (audio_model m) x) (0, 2, 1)%nat in
  let '(lstm_out, (hidden, _)) := AudioEmotionModel.lstm (audio_model m) x in
  let audio_features_processed := last hidden in
  let combined_features := cat [text_features; audio_features_processed] 1 in
  let logits := fusion m combined_features in
  logits.

End Net.
End MultimodalEmotionModel.

(** ** training/emotion_trainer.py: the training loops *)

(** What torch provides to a training loop.  A [net] is a module together
    with its optimiser and the shuffling state of its loaders; [weights] is
    a [state_dict].  Accuracies are fractions of correctly labelled
    samples. *)
Class Learner : Type := {
  net : Type;
  weights : Type;
  state_dict : net -> weights;
  load_state_dict : weights -> net -> net;
  (** the training phase of one epoch: the updated net and [avg_train_loss] *)
  train_phase : nat -> net -> net * Q;
  (** [evaluate_model] on the validation loader and on the test loader *)
  val_accuracy : net -> Q;
  test_accuracy : net -> Q
}.

Module EmotionTrainer.
Import Py.
Local Open Scope list_scope.

Inductive mode : Type := text_emotion | audio_emotion | multimodal.

(** The entries of the configuration that the loops read. *)
Record config : Type := Config {
  text_model_epochs : Z;
  audio_model_epochs : Z;
  early_stopping_patience : Z
}.

Section Loops.
Context `{Learner}.

(** The local variables of a training loop and the models directory. *)
Record loop_state : Type := LoopState {
  model : net;
  best_val_acc : Q;
  patience_counter : Z;
  train_losses : list Q;
  val_accuracies : list Q;
  models_dir : gmap string weights
}.

(** [history], written to the JSON file next to the checkpoint. *)
Record history : Type := History {
  h_train_losses : list Q;
  h_val_accuracies : list Q;
  h_best_val_accuracy : Q;
  h_test_accuracy : Q
}.

Definition initial_state (m : net) (dir : gmap string weights) : loop_state :=
  LoopState m 0 0 [] [] dir.

(** One pass through the body of [for epoch in range(...)]; the boolean
    tells whether [break] was reached. *)
Definition epoch_body (checkpoint : string) (patience : Z) (epoch : nat)
    (s : loop_state) : loop_state * bool :=
  let '(m, avg_train_loss) := train_phase epoch (model s) in
  let val_acc := val_accuracy m in
  let losses := train_losses s ++ [avg_train_loss] in
  let accs := val_accuracies s ++ [val_acc] in
  if Qlt_le_dec (best_val_acc s) val_acc
  then (LoopState m val_acc 0 losses accs
          (<[checkpoint := state_dict m]> (models_dir s)), false)
  else
    let counter := (patience_counter s + 1)%Z in
    (LoopState m (best_val_acc s) counter losses accs (models_dir s),
     bool_decide (patience <= counter)%Z).

Fixpoint for_epochs (checkpoint : string) (patience : Z) (epochs : list nat)
    (s : loop_state) : loop_state :=
  match epochs with
  | [] => s
  | epoch :: rest =>
      let '(s', stop) := epoch_body checkpoint patience epoch s in
      if stop then s' else for_epochs checkpoint patience rest s'
  end.

(** [range(n)] for a Python integer [n]. *)
Definition range (n : Z) : list nat := seq 0 (Z.to_nat n).

(** Everything after the loop: reload the checkpoint, evaluate it on the
    test loader, write the history. *)
Definition finish (checkpoint : string) (s : loop_state) : exn + net * history :=
  match models_dir s !! checkpoint with
  | None => inl (FileNotFoundError checkpoint)
  | Some w =>
      let m := load_state_dict w (model s) in
      inr (m, History (train_losses s) (val_accuracies s) (best_val_acc s)
                      (test_accuracy m))
  end.

Definition checkpoint_of (md : mode) : string :=
  match md with
  | text_emotion => "best_text_emotion_model.pth"
  | audio_emotion => "best_audio_emotion_model.pth"
  | multimodal => "best_multimodal_emotion_model.pth"
  end.

(** [config['epochs']] for the text and audio loops, the constant
    [num_epochs = 3] for the multimodal one. *)
Definition epochs_of (md : mode) (cfg : config) : Z :=
  match md with
  | text_emotion => text_model_epochs cfg
  | audio_emotion => audio_model_epochs cfg
  | multimodal => 3
  end.

(** The loop of [train_text_emotion_model], [train_audio_emotion_model] and
    [train_multimodal_model]; the three copies in the source differ in the
    checkpoint name, the number of epochs and the net they start from. *)
Definition training_loop (md : mode) (cfg : config) (m : net)
    (dir : gmap string weights) : loop_state :=
  for_epochs (checkpoint_of md) (early_stopping_patience cfg)
             (range (epochs_of md cfg)) (initial_state m dir).

Definition train_text_emotion_model (cfg : config) (fresh : net)
    (dir : gmap string weights) : exn + net * history :=
  finish (checkpoint_of text_emotion) (training_loop text_emotion cfg fresh dir).

Definition train_audio_emotion_model (cfg : config) (fresh : net)
    (dir : gmap string weights) : exn + net * history :=
  finish (checkpoint_of audio_emotion) (training_loop audio_emotion cfg fresh dir).

(** [train_multimodal_model] first rebuilds the text and the audio model
    from their checkpoints; [assemble] is [MultimodalEmotionModel(...)]
    with its optimiser. *)
Definition train_multimodal_model (cfg : config)
    (assemble : weights -> weights -> net) (dir : gmap string weights)
  : exn + net * history :=
  match dir !! checkpoint_of text_emotion with
  | None => inl (FileNotFoundError (checkpoint_of text_emotion))
  | Some text_weights =>
      match dir !! checkpoint_of audio_emotion with
      | None => inl (FileNotFoundError (checkpoint_of audio_emotion))
      | Some audio_weights =>
          finish (checkpoint_of multimodal)
                 (training_loop multimodal cfg
                    (assemble text_weights audio_weights) dir)
      end
  end.

(** [save_model_artifacts]: the weights file [<model_name>.pth]; the JSON
    configuration and the label encoder written beside it hold no
    weights. *)
Definition artifact_of (md : mode) : string :=
  match md with
  | text_emotion => "text_emotion_model.pth"
  | audio_emotion => "audio_emotion_model.pth"
  | multimodal => "multimodal_emotion_model.pth"
  end.

Definition save_model_artifacts (m : net) (md : mode)
    (dir : gmap string weights) : gmap string weights :=
  <[artifact_of md := state_dict m]> dir.

(** The [--mode] argument of [main]. *)
Inductive cli_mode : Type :=
| Only (md : mode)
| All.

(** [args.mode == "<md>" or args.mode == "all"] *)
Definition selected (arg : cli_mode) (md : mode) : bool :=
  match arg, md with
  | All, _ => true
  | Only text_emotion, text_emotion => true
  | Only audio_emotion, audio_emotion => true
  | Only multimodal, multimodal => true
  | Only _, _ => false
  end.

(** One [if] of the [try] block of [main]: train a model, which leaves its
    checkpoint in the models directory, and save its artifacts. *)
Definition text_stage (cfg : config) (fresh : net) (dir : gmap string weights)
  : exn + gmap string weights :=
  match train_text_emotion_model cfg fresh dir with
  | inl e => inl e
  | inr (m, _) =>
      inr (save_model_artifacts m text_emotion
             (models_dir (training_loop text_emotion cfg fresh dir)))
  end.

Definition audio_stage (cfg : config) (fresh : net) (dir : gmap string weights)
  : exn + gmap string weights :=
  match train_audio_emotion_model cfg fresh dir with
  | inl e => inl e
  | inr (m, _) =>
      inr (save_model_artifacts m audio_emotion
             (models_dir (training_loop audio_emotion cfg fresh dir)))
  end.

Definition multimodal_stage (cfg : config)
    (assemble : weights -> weights -> net) (dir : gmap string weights)
  : exn + gmap string weights :=
  match train_multimodal_model cfg assemble dir with
  | inl e => inl e
  | inr (m, _) =>
      match dir !! checkpoint_of text_emotion,
            dir !! checkpoint_of audio_emotion with
      | Some text_weights, Some audio_weights =>
          inr (save_model_artifacts m multimodal
                 (models_dir (training_loop multimodal cfg
                                (assemble text_weights audio_weights) dir)))
      | _, _ => inr dir
      end
  end.

(** [main] once the configuration is loaded and the trainer is made: the
    models directory afterwards, or the exception that ends the script;
    an [Exception] in the [try] block becomes [sys.exit(1)]. *)
Definition main (arg : cli_mode) (cfg : config) (fresh_text fresh_audio : net)
    (assemble : weights -> weights -> net) (dir : gmap string weights)
  : exn + gmap string weights :=
  let after_text :=
    if selected arg text_emotion then text_stage cfg fresh_text dir
    else inr dir in
  let after_audio :=
    match after_text with
    | inl e => inl e
    | inr dir =>
        if selected arg audio_emotion then audio_stage cfg fresh_audio dir
        else inr dir
    end in
  let after_multimodal :=
    match after_audio with
    | inl e => inl e
    | inr dir =>
        if selected arg multimodal then multimodal_stage cfg assemble dir
        else inr dir
    end in
  match after_multimodal with
  | inl e => if is_Exception e then inl (SystemExit 1) else inl e
  | inr dir => inr dir
  end.

(** The behaviour the specification describes, one rule per sentence:
    an improving epoch saves the checkpoint and resets the counter; any
    other epoch increments the counter; the loop stops when the counter
    reaches the patience, or when the epochs run out. *)
Inductive early_stopping (checkpoint : string) (patience : Z)
  : list nat -> loop_state -> loop_state -> Prop :=
| es_exhausted s :
    early_stopping checkpoint patience [] s s
| es_improved epoch rest s m loss s' :
    train_phase epoch (model s) = (m, loss) ->
    (best_val_acc s < val_accuracy m)%Q ->
    early_stopping checkpoint patience rest
      (LoopState m (val_accuracy m) 0 (train_losses s ++ [loss])
         (val_accuracies s ++ [val_accuracy m])
         (<[checkpoint := state_dict m]> (models_dir s))) s' ->
    early_stopping checkpoint patience (epoch :: rest) s s'
| es_waiting epoch rest s m loss s' :
    train_phase epoch (model s) = (m, loss) ->
    (val_accuracy m <= best_val_acc s)%Q ->
    (patience_counter s + 1 < patience)%Z ->
    early_stopping checkpoint patience rest
      (LoopState m (best_val_acc s) (patience_counter s + 1)
         (train_losses s ++ [loss]) (val_accuracies s ++ [val_accuracy m])
         (models_dir s)) s' ->
    early_stopping checkpoint patience (epoch :: rest) s s'
| es_halted epoch rest s m loss :
    train_phase epoch (model s) = (m, loss) ->
    (val_accuracy m <= best_val_acc s)%Q ->
    (patience <= patience_counter s + 1)%Z ->
    early_stopping checkpoint patience (epoch :: rest) s
      (LoopState m (best_val_acc s) (patience_counter s + 1)
         (train_losses s ++ [loss]) (val_accuracies s ++ [val_accuracy m])
         (models_dir s)).

(** What the loop variables mean between two epochs.  [best_val_acc] bounds
    every recorded accuracy; [patience_counter] is the number of epochs
    since the last improvement; once some epoch improved, the checkpoint
    holds weights whose validation accuracy is [best_val_acc]; before
    that, the models directory is the one the loop started with. *)
Definition best_bounds (s : loop_state) : Prop :=
  (0 <= best_val_acc s)%Q
  /\ Forall (fun a => (a <= best_val_acc s)%Q) (val_accuracies s).

Definition counter_counts (s : loop_state) : Prop :=
  exists pre post,
    val_accuracies s = pre ++ post
    /\ patience_counter s = Z.of_nat (length post)
    /\ (pre = [] \/ exists pre', pre = pre' ++ [best_val_acc s]).

Definition checkpoint_is_best (checkpoint : string) (dir : gmap string weights)
    (s : loop_state) : Prop :=
  ((0 < best_val_acc s)%Q ->
   exists m, models_dir s !! checkpoint = Some (state_dict m)
             /\ val_accuracy m = best_val_acc s
             /\ In (best_val_acc s) (val_accuracies s))
  /\ (~ (0 < best_val_acc s)%Q -> models_dir s = dir).

Definition loop_inv (checkpoint : string) (dir : gmap string weights)
    (s : loop_state) : Prop :=
  best_bounds s /\ counter_counts s /\ checkpoint_is_best checkpoint dir s.

(** At the head of the loop the counter has not reached the patience. *)
Definition still_waiting (patience : Z) (s : loop_state) : Prop :=
  patience_counter s = 0%Z \/ (patience_counter s < patience)%Z.


End Loops.

(** A learner to run the loops on: the net is a counter of training
    phases, and the validation accuracy peaks after the second phase. *)
Definition counting_learner : Learner :=
  {| net := nat;
     weights := nat;
     state_dict := fun n => n;
     load_state_dict := fun w _ => w;
     train_phase := fun _ n => (S n, 1 # 2);
     val_accuracy := fun n => if (n =? 2)%nat then 3 # 4 else 1 # 2;
     test_accuracy := fun n => if (n =? 2)%nat then 7 # 10 else 2 # 5 |}.

(** A learner that gets no validation sample right, whatever it has
    been trained on. *)
Definition flat_learner : Learner :=
  {| net := nat;
     weights := nat;
     state_dict := fun n => n;
     load_state_dict := fun w _ => w;
     train_phase := fun _ n => (S n, 1 # 2);
     val_accuracy := fun _ => 0%Q;
     test_accuracy := fun n => if (n =? 99)%nat then 9 # 10 else 0%Q |}.

End EmotionTrainer.

(** ** training/data_processor.py *)

(** A row of the emotions dataframe: the columns the two functions below
    read or write.  A dataframe is the list of its rows, in index order.
    An emotion may be missing ([None] or NaN in the column). *)
Record row : Type := Row {
  text : string;
  emotion : option string;
  label : option Z
}.

(** The pandas calls of [create_balanced_dataset], all with
    [random_state=42]. *)
Class Pandas : Type := {
  (** [df.sample(n=n)], for [n <= len(df)] *)
  sample : nat -> list row -> list row;
  (** [df.sample(n=n, replace=True)], for a non-empty [df]; on an empty
      [df] and [n > 0] pandas raises, which [balance_class] writes out *)
  sample_replace : nat -> list row -> list row;
  (** [df.sample(frac=1)] *)
  sample_frac_1 : list row -> list row
}.

(** What pandas documents about them: sampling without replacement picks
    [n] distinct positions, sampling with replacement picks [n] positions,
    [frac=1] reorders. *)
Class PandasLaws (P : Pandas) : Prop := {
  sample_sub : forall n df, n <= length df ->
    exists rest, Permutation df (sample n df ++ rest) /\ length (sample n df) = n;
  sample_replace_len : forall n df, df <> [] -> length (sample_replace n df) = n;
  sample_replace_in : forall n df r, In r (sample_replace n df) -> In r df;
  sample_frac_1_perm : forall df, Permutation (sample_frac_1 df) df
}.

(** The scikit-learn calls of [prepare_training_data]. *)
Class Sklearn : Type := {
  (** [LabelEncoder.fit_transform(y)[i]], from [y] and [y[i]] *)
  label_code : list (option string) -> option string -> Z;
  (** [train_test_split(df, test_size=t, stratify=df['label'],
      random_state=42)] for a float [t] *)
  train_test_split : Float64.float -> list row -> Py.exn + (list row * list row)
}.

(** A successful split is a partition of the rows, and for a fractional
    [test_size] the test part has [ceil(test_size * n_samples)] rows,
    the product being taken in float64; a frame of fewer than two rows
    cannot be split and is refused with a [ValueError]. *)
Class SklearnLaws (S : Sklearn) : Prop := {
  split_partition : forall t df tr te,
    train_test_split t df = inr (tr, te) -> Permutation df (tr ++ te);
  split_n_test : forall t df tr te,
    train_test_split t df = inr (tr, te) ->
    Float64.ceil (PrimFloat.mul t (Float64.of_nat (length df)))
    = Some (Z.of_nat (length te));
  (** neither part of a split may be empty *)
  split_too_small : forall t df,
    length df <= 1 -> exists msg, train_test_split t df = inl (Py.ValueError msg)
}.

Module EmotionDataProcessor.
Import Py.
Local Open Scope list_scope.

(** [Series.unique()]: the distinct values in order of first appearance;
    a missing value is one of them. *)
Fixpoint unique_from {A : Type} `{EqDecision A} (seen : list A) (l : list A)
  : list A :=
  match l with
  | [] => []
  | x :: l' =>
      if existsb (fun y => bool_decide (x = y)) seen
      then unique_from seen l'
      else x :: unique_from (x :: seen) l'
  end.

Definition unique {A : Type} `{EqDecision A} (l : list A) : list A :=
  unique_from [] l.

(** [value == emotion] on one entry of the column: a missing value equals
    nothing, not even a missing value. *)
Definition emotion_eqb (value e : option string) : bool :=
  match value, e with
  | Some a, Some b => String.eqb a b
  | _, _ => false
  end.

(** [df[df['emotion'] == emotion]] *)
Definition of_class (e : option string) (df : list row) : list row :=
  List.filter (fun r => emotion_eqb (emotion r) e) df.

(** [len(df[df['emotion'] == e])] *)
Definition class_count (e : option string) (df : list row) : nat :=
  length (of_class e df).

Section Balancing.
Context `{Pandas}.

(** The body of the loop over the classes. *)
Definition balance_class (max_samples_per_class : Z) (emotion_df : list row)
  : exn + list row :=
  if (max_samples_per_class <? Z.of_nat (length emotion_df))%Z
  then
    if (max_samples_per_class <? 0)%Z
    then inl (ValueError "A negative number of rows requested")
    else inr (sample (Z.to_nat max_samples_per_class) emotion_df)
  else
    let additional_needed :=
      (max_samples_per_class - Z.of_nat (length emotion_df))%Z in
    if (0 <? additional_needed)%Z
    then
      match emotion_df with
      | [] =>
          inl (ValueError "a must be greater than 0 unless no samples are taken")
      | _ =>
          let augmented :=
            sample_replace (Z.to_nat additional_needed) emotion_df in
          inr (emotion_df ++ augmented)
      end
    else inr emotion_df.

(** The loop, appending to [balanced_dfs]. *)
Fixpoint balance_classes (max_samples_per_class : Z) (df : list row)
    (emotions : list (option string)) : exn + list (list row) :=
  match emotions with
  | [] => inr []
  | e :: rest =>
      match balance_class max_samples_per_class (of_class e df) with
      | inl err => inl err
      | inr emotion_df =>
          match balance_classes max_samples_per_class df rest with
          | inl err => inl err
          | inr balanced_dfs => inr (emotion_df :: balanced_dfs)
          end
      end
  end.

(** [pd.concat(dfs, ignore_index=True)] refuses an empty list. *)
Definition pd_concat (dfs : list (list row)) : exn + list row :=
  match dfs with
  | [] => inl (ValueError "No objects to concatenate")
  | _ => inr (concat dfs)
  end.

Definition create_balanced_dataset (df : list row) (max_samples_per_class : Z)
  : exn + list row :=
  match balance_classes max_samples_per_class df (unique (map emotion df)) with
  | inl err => inl err
  | inr balanced_dfs =>
      match pd_concat balanced_dfs with
      | inl err => inl err
      | inr balanced_df => inr (sample_frac_1 balanced_df)
      end
  end.

End Balancing.

Section Splitting.
Context `{Sklearn}.

(** The entries of [data_splits] that depend on the dataframe. *)
Record data_splits : Type := DataSplits {
  train : list row;
  val : list row;
  test : list row;
  class_weights : list Q
}.

(** [df['label'] = self.label_encoder.fit_transform(df['emotion'])] *)
Definition with_labels (df : list row) : list row :=
  let y := map emotion df in
  map (fun r => Row (text r) (emotion r) (Some (label_code y (emotion r)))) df.

Definition label_or_0 (r : row) : Z :=
  match label r with Some c => c | None => 0%Z end.

(** [compute_class_weight('balanced', classes=np.unique(y), y=y)]:
    [n_samples / (n_classes * bincount(y))], read over the exact
    rationals (float64 stores the rounded quotients). *)
Definition compute_class_weight (y : list Z) : list Q :=
  let classes := remove_dups (merge_sort Z.le y) in
  map (fun c =>
         (inject_Z (Z.of_nat (length y))
          / (inject_Z (Z.of_nat (length classes))
             * inject_Z (Z.of_nat (length (List.filter (Z.eqb c) y)))))%Q)
      classes.

Definition prepare_training_data (df : list row)
    (test_size val_size : Float64.float)
  : exn + data_splits :=
  let df := with_labels df in
  match train_test_split test_size df with
  | inl err => inl err
  | inr (train_val_df, test_df) =>
      if PrimFloat.eqb (PrimFloat.sub (Float64.of_nat 1) test_size)
                       (Float64.of_nat 0)
      then inl (ZeroDivisionError "float division by zero")
      else
        let val_size_adjusted :=
          PrimFloat.div val_size (PrimFloat.sub (Float64.of_nat 1) test_size) in
        match train_test_split val_size_adjusted train_val_df with
        | inl err => inl err
        | inr (train_df, val_df) =>
            inr (DataSplits train_df val_df test_df
                   (compute_class_weight (map label_or_0 train_df)))
        end
  end.

End Splitting.
(** *** [preprocess_text_data] *)

(** A row of the dataframe that [preprocess_text_data] returns; the
    'sales_emotion' of an emotion outside the mapping is missing (NaN). *)
Record text_row : Type := TextRow {
  t_text : string;
  t_emotion : string;
  sales_emotion : option string;
  text_length : nat;
  word_count : nat
}.

Definition sales_emotion_mapping : list (string * string) :=
  [ ("happiness", "positive"); ("love", "positive"); ("surprise", "positive");
    ("neutral", "neutral"); ("confusion", "neutral");
    ("sadness", "negative"); ("anger", "negative"); ("fear", "negative");
    ("disgust", "negative"); ("shame", "negative"); ("guilt", "negative");
    ("sarcasm", "negative"); ("desire", "interested") ].

(** [Series.map(mapping)] on one value *)
Fixpoint map_value (mapping : list (string * string)) (k : string)
  : option string :=
  match mapping with
  | [] => None
  | (k', v) :: rest => if String.eqb k k' then Some v else map_value rest k
  end.

(** [df.drop_duplicates(subset=['text'])]: the first row of every text. *)
Fixpoint drop_duplicates (seen : list string) (df : list (string * string))
  : list (string * string) :=
  match df with
  | [] => []
  | (t, e) :: rest =>
      if existsb (String.eqb t) seen
      then drop_duplicates seen rest
      else (t, e) :: drop_duplicates (t :: seen) rest
  end.

(** [len(s.split())] *)
Definition count_words (s : string) : nat := length (split_ws EmptyString s).

(** [preprocess_text_data] on the rows ('Sentence', 'Label') of the train
    split, both columns holding strings. *)
Definition preprocess_text_data `{Regex} (train : list (string * string))
  : list text_row :=
  let df := map (fun r => (fst r, lower (snd r))) train in
  let df := drop_duplicates [] df in
  let df := map (fun r => (strip (fst r), snd r)) df in
  let df := map (fun r => (sub_ws (fst r), snd r)) df in
  let df := List.filter (fun r => (3 <=? count_words (fst r))%nat) df in
  map (fun r => TextRow (fst r) (snd r)
                        (map_value sales_emotion_mapping (snd r))
                        (String.length (fst r))
                        (count_words (fst r)))
      df.

(** The train splits whose sentences and labels are plain strings. *)
Definition plain_rows (train : list (string * string)) : Prop :=
  forall s l, In (s, l) train -> plain s = true /\ plain l = true.

(** *** [generate_synthetic_audio_features] and [create_training_config] *)

Definition emotion_adjustments : list (string * list R) :=
  [ ("happiness", [0.5; 0.3; 0.2]%R);
    ("sadness", [-0.5; -0.3; -0.2]%R);
    ("anger", [0.8; 0.6; 0.4]%R);
    ("fear", [-0.3; -0.5; -0.4]%R);
    ("neutral", [0; 0; 0]%R) ].

(** [emotion == name] for one value of the column and a string *)
Definition is_emotion (value : option string) (name : string) : bool :=
  emotion_eqb value (Some name).

(** [emotion_adjustments.get(emotion, [0.0, 0.0, 0.0])] *)
Fixpoint adjustment_of (table : list (string * list R))
    (emotion : option string) : list R :=
  match table with
  | [] => [0; 0; 0]%R
  | (e, a) :: rest =>
      if is_emotion emotion e then a else adjustment_of rest emotion
  end.

(** [a[:3] += adjustment] *)
Definition add_to_first_3 (a adjustment : list R) : list R :=
  zip_with Rplus (firstn 3 a) adjustment ++ skipn 3 a.

(** The body of the loop over the rows; [g] is the stream of standard
    normal draws that [np.random.randn] takes its numbers from. *)
Definition row_features (emotion : option string) (g : nat -> R) : list R :=
  let mfcc_features :=
    add_to_first_3 (ProductionEmotionService.draws g 13)
                   (adjustment_of emotion_adjustments emotion) in
  let g := ProductionEmotionService.advance g 13 in
  let pitch_features :=
    map (fun x => (x * (if existsb (is_emotion emotion) ["happiness"; "anger"]
                        then 0.5 else 0.3))%R)
        (ProductionEmotionService.draws g 5) in
  let g := ProductionEmotionService.advance g 5 in
  let energy_features :=
    map (fun x => (x * (if is_emotion emotion "anger" then 0.8 else 0.5))%R)
        (ProductionEmotionService.draws g 3) in
  let g := ProductionEmotionService.advance g 3 in
  let rhythm_features :=
    map (fun x => (x * (if is_emotion emotion "happiness" then 0.6 else 0.4))%R)
        (ProductionEmotionService.draws g 4) in
  mfcc_features ++ pitch_features ++ energy_features ++ rhythm_features.

(** [generate_synthetic_audio_features]: the rows of the array and the
    generator afterwards. *)
Fixpoint generate_synthetic_audio_features (df : list row) (g : nat -> R)
  : list (list R) * (nat -> R) :=
  match df with
  | [] => ([], g)
  | r :: rest =>
      let combined_features := row_features (emotion r) g in
      let '(features, g') :=
        generate_synthetic_audio_features
          rest (ProductionEmotionService.advance g 25) in
      (combined_features :: features, g')
  end.

(** What entry [j] of a row's vector is expected to be, from the row's
    emotion and the draw [x] made for it: the thirteen MFCC values are
    the draws, the first three shifted by the emotion's adjustment; the
    five pitch, three energy and four rhythm values are the draws scaled
    by a factor that depends on the emotion. *)
Definition expected_feature (e : option string) (j : nat) (x : R) : R :=
  let happiness := is_emotion e "happiness" in
  let sadness := is_emotion e "sadness" in
  let anger := is_emotion e "anger" in
  let fear := is_emotion e "fear" in
  if (j <? 13)%nat
  then match j with
       | 0%nat => x + (if happiness then 0.5 else if sadness then -0.5
                       else if anger then 0.8 else if fear then -0.3 else 0)
       | 1%nat => x + (if happiness then 0.3 else if sadness then -0.3
                       else if anger then 0.6 else if fear then -0.5 else 0)
       | 2%nat => x + (if happiness then 0.2 else if sadness then -0.2
                       else if anger then 0.4 else if fear then -0.4 else 0)
       | _ => x
       end%R
  else if (j <? 18)%nat
  then (x * (if happiness || anger then 0.5 else 0.3))%R
  else if (j <? 21)%nat
  then (x * (if anger then 0.8 else 0.5))%R
  else (x * (if happiness then 0.6 else 0.4))%R.

(** The dictionary that [create_training_config] writes and returns. *)
Definition create_training_config : pyval :=
  PyDict
    [ ("text_model",
        PyDict [ ("model_name", PyStr "bert-base-uncased");
                 ("max_length", PyInt 128);
                 ("batch_size", PyInt 16);
                 ("learning_rate", PyFloat (2 / 100000));
                 ("epochs", PyInt 5);
                 ("warmup_steps", PyInt 500);
                 ("weight_decay", PyFloat 0.01) ]);
      ("audio_model",
        PyDict [ ("model_type", PyStr "cnn_lstm");
                 ("input_features", PyInt 25);
                 ("hidden_size", PyInt 128);
                 ("num_layers", PyInt 2);
                 ("dropout", PyFloat 0.3);
                 ("batch_size", PyInt 32);
                 ("learning_rate", PyFloat (1 / 1000));
                 ("epochs", PyInt 20) ]);
      ("multimodal_model",
        PyDict [ ("fusion_method", PyStr "late_fusion");
                 ("text_weight", PyFloat 0.7);
                 ("audio_weight", PyFloat 0.3);
                 ("fusion_hidden_size", PyInt 64);
                 ("dropout", PyFloat 0.2) ]);
      ("training",
        PyDict [ ("early_stopping_patience", PyInt 3);
                 ("save_best_model", PyBool true);
                 ("evaluation_steps", PyInt 100);
                 ("logging_steps", PyInt 50);
                 ("gradient_accumulation_steps", PyInt 1);
                 ("fp16", PyBool true) ]) ].

(** What the specification says of one class: [b] has [n] rows, all of
    them rows of the class [cls]; a class above [n] is thinned out, a class
    of at most [n] rows is kept whole and padded with copies. *)
Definition rebalanced (n : Z) (cls b : list row) : Prop :=
  length b = Z.to_nat n
  /\ (forall r, In r b -> In r cls)
  /\ ((n < Z.of_nat (length cls))%Z -> exists rest, Permutation cls (b ++ rest))
  /\ ((Z.of_nat (length cls) <= n)%Z ->
      exists extra, b = cls ++ extra /\ forall r, In r extra -> In r cls).

(** Deterministic stand-ins for pandas and scikit-learn that obey the
    laws above, to run the two functions on: sampling takes the first rows
    (cycling through them when sampling with replacement), [frac=1] keeps
    the order, and a split cuts the test rows off the end. *)
Fixpoint cycle (n : nat) (cur df : list row) : list row :=
  match n with
  | O => []
  | S n' =>
      match cur with
      | [] => match df with
              | [] => []
              | r :: rest => r :: cycle n' rest df
              end
      | r :: rest => r :: cycle n' rest df
      end
  end.

Definition head_pandas : Pandas :=
  {| sample := fun n df => firstn n df;
     sample_replace := fun n df => cycle n df df;
     sample_frac_1 := fun df => df |}.

Definition tail_split (t : Float64.float) (df : list row)
  : exn + (list row * list row) :=
  let n := length df in
  match Float64.ceil (PrimFloat.mul t (Float64.of_nat n)) with
  | Some (Z.pos p) =>
      let n_test := Pos.to_nat p in
      if (n_test <? n)%nat
      then inr (firstn (n - n_test) df, skipn (n - n_test) df)
      else inl (ValueError "the resulting train set will be empty")
  | _ => inl (ValueError "test_size should be in the (0, 1) range")
  end.

(** Codes in the order of the sorted labels, a missing label last. *)
Definition label_before (a b : option string) : bool :=
  match a, b with
  | Some x, Some y => String.ltb x y
  | Some _, None => true
  | None, _ => false
  end.

Definition tail_sklearn : Sklearn :=
  {| label_code := fun y e =>
       Z.of_nat (length (List.filter (fun e' => label_before e' e) (unique y)));
     train_test_split := tail_split |}.

(** Rows of one class. *)
Definition some_rows (n : nat) : list row :=
  map (fun i => Row ("sample text number " ++ String (ascii_of_nat (48 + i)) "")
                    (Some "happiness") None)
      (seq 0 n).

Definition seven_rows : list row := some_rows 7.

End EmotionDataProcessor.

(** ** training/model_integrator.py *)

(** The library calls of [ProductionModelWrapper]: each may raise. *)
Class Runtime : Type := {
  nn_module : Type;
  script_module : Type;
  quantized_module : Type;
  inference_session : Type;
  (** [torch.jit.script(model)] *)
  jit_script : nn_module -> Py.exn + script_module;
  (** [quantization.quantize_dynamic(model, {nn.Linear, nn.LSTM, nn.Conv1d},
      dtype=torch.qint8)] *)
  quantize_dynamic : nn_module -> Py.exn + quantized_module;
  (** [torch.onnx.export(model, dummy_input, onnx_path, ...)] for the dummy
      input of the given model type *)
  onnx_export : nn_module -> string -> string -> Py.exn + unit;
  (** [ort.InferenceSession(onnx_path)] *)
  InferenceSession : string -> Py.exn + inference_session;
  (** [str(input_data)] and [hash] of a string *)
  py_str : Py.pyval -> string;
  py_hash : string -> Z;
  (** [_predict_torch] on each kind of torch model, and [_predict_onnx] *)
  predict_eager : nn_module -> string -> Py.pyval -> Py.exn + Py.pyval;
  predict_script : script_module -> string -> Py.pyval -> Py.exn + Py.pyval;
  predict_quantized : quantized_module -> string -> Py.pyval -> Py.exn + Py.pyval;
  predict_onnx : inference_session -> string -> Py.pyval -> Py.exn + Py.pyval
}.

Module ProductionModelWrapper.
Import Py.
Local Open Scope list_scope.

(** The library invocations, in the order a call makes them. *)
Inductive lib_call : Type :=
| JitScript
| QuantizeDynamic
| OnnxExport
| OnnxLoad.

Section Wrapper.
Context `{Runtime}.

(** [optimized_model] holds a TorchScript module or the eager model. *)
Inductive torch_model : Type :=
| Eager (m : nn_module)
| Scripted (m : script_module).

Record wrapper : Type := Wrapper {
  original_model : nn_module;
  model_type : string;
  optimized_model : option torch_model;
  quantized_model : option quantized_module;
  onnx_session : option inference_session;
  inference_times : list Q;
  prediction_cache : gmap Z pyval
}.

(** [__init__] *)
Definition init (model : nn_module) (model_type : string) : wrapper :=
  Wrapper model model_type None None None [] ∅.

Definition set_optimized (w : wrapper) (m : torch_model) : wrapper :=
  Wrapper (original_model w) (model_type w) (Some m) (quantized_model w)
          (onnx_session w) (inference_times w) (prediction_cache w).

Definition set_quantized (w : wrapper) (q : quantized_module) : wrapper :=
  Wrapper (original_model w) (model_type w) (optimized_model w) (Some q)
          (onnx_session w) (inference_times w) (prediction_cache w).

Definition set_session (w : wrapper) (s : inference_session) : wrapper :=
  Wrapper (original_model w) (model_type w) (optimized_model w)
          (quantized_model w) (Some s) (inference_times w) (prediction_cache w).

(** The result of a method: the object afterwards, the library calls made,
    and whether the method returned or raised. *)
Record effect : Type := Effect {
  after : wrapper;
  calls : list lib_call;
  raised : option exn
}.

Definition known_model_type (t : string) : bool :=
  String.eqb t "text_emotion" || String.eqb t "audio_emotion"
  || String.eqb t "multimodal".

(** [_export_to_onnx]; [available] is the module flag
    [OPTIMIZATION_AVAILABLE]. *)
Definition _export_to_onnx (available : bool) (w : wrapper) : effect :=
  if negb available then Effect w [] None
  else if negb (known_model_type (model_type w)) then Effect w [] None
  else
    let onnx_path := ("models/" ++ model_type w ++ "_optimized.onnx")%string in
    match onnx_export (original_model w) (model_type w) onnx_path with
    | inl e =>
        Effect w [OnnxExport] (if is_Exception e then None else Some e)
    | inr _ =>
        match InferenceSession onnx_path with
        | inl e =>
            Effect w [OnnxExport; OnnxLoad]
                   (if is_Exception e then None else Some e)
        | inr s => Effect (set_session w s) [OnnxExport; OnnxLoad] None
        end
    end.

(** The [try] block of the 'medium' and 'aggressive' branches; [export]
    tells whether the ONNX step is part of it. *)
Definition optimize_try (available export : bool) (w : wrapper) : effect :=
  let model := original_model w in
  match jit_script model with
  | inl e => Effect w [JitScript] (Some e)
  | inr s =>
      let w := set_optimized w (Scripted s) in
      if available then
        match quantize_dynamic model with
        | inl e => Effect w [JitScript; QuantizeDynamic] (Some e)
        | inr q =>
            let w := set_quantized w q in
            if export then
              let r := _export_to_onnx available w in
              Effect (after r) ([JitScript; QuantizeDynamic] ++ calls r) (raised r)
            else Effect w [JitScript; QuantizeDynamic] None
        end
      else Effect w [JitScript] None
  end.

(** [except Exception as e: self.optimized_model = model] *)
Definition optimize_except (r : effect) : effect :=
  match raised r with
  | Some e =>
      if is_Exception e
      then Effect (set_optimized (after r) (Eager (original_model (after r))))
                  (calls r) None
      else r
  | None => r
  end.

Definition optimize_model (available : bool) (w : wrapper)
    (optimization_level : string) : effect :=
  if String.eqb optimization_level "light" then
    match jit_script (original_model w) with
    | inl e => Effect w [JitScript] (Some e)
    | inr s => Effect (set_optimized w (Scripted s)) [JitScript] None
    end
  else if String.eqb optimization_level "medium" then
    optimize_except (optimize_try available false w)
  else if String.eqb optimization_level "aggressive" then
    optimize_except (optimize_try available true w)
  else Effect w [] None.

(** [_predict_torch(model_to_use, input_data)] for
    [quantized_model or optimized_model or original_model]. *)
Definition _predict_torch (w : wrapper) (input_data : pyval) : exn + pyval :=
  match quantized_model w with
  | Some q => predict_quantized q (model_type w) input_data
  | None =>
      match optimized_model w with
      | Some (Scripted s) => predict_script s (model_type w) input_data
      | Some (Eager m) => predict_eager m (model_type w) input_data
      | None => predict_eager (original_model w) (model_type w) input_data
      end
  end.

(** The model call of [predict]: the ONNX session when there is one,
    else [_predict_torch]. *)
Definition run_best_model (w : wrapper) (input_data : pyval) : exn + pyval :=
  match onnx_session w with
  | Some s => predict_onnx s (model_type w) input_data
  | None => _predict_torch w input_data
  end.

(** [predict]; [inference_time] is the difference of the two clock
    readings.  Returns the result and the object afterwards. *)
Definition predict (w : wrapper) (input_data : pyval) (use_cache : bool)
    (inference_time : Q) : (exn + pyval) * wrapper :=
  let cache_key := if use_cache then Some (py_hash (py_str input_data)) else None in
  match (if use_cache
         then cache_key ≫= fun k => prediction_cache w !! k
         else None) with
  | Some cached => (inr cached, w)
  | None =>
      match run_best_model w input_data with
      | inl e => (inl e, w)
      | inr result =>
          let times := inference_times w ++ [inference_time] in
          let cache :=
            match cache_key with
            | Some k =>
                if use_cache && negb (k =? 0)%Z
                then <[k := result]> (prediction_cache w)
                else prediction_cache w
            | None => prediction_cache w
            end in
          (inr result,
           Wrapper (original_model w) (model_type w) (optimized_model w)
                   (quantized_model w) (onnx_session w) times cache)
      end
  end.

(** [get_performance_stats]; the times are the recorded clock differences
    in seconds. *)
Definition get_performance_stats (w : wrapper) : pyval :=
  match inference_times w with
  | [] => PyDict []
  | _ =>
      let times := map Q2R (inference_times w) in
      PyDict [ ("avg_inference_time_ms", PyFloat (Np.mean times * 1000));
               ("min_inference_time_ms", PyFloat (Np.amin times * 1000));
               ("max_inference_time_ms", PyFloat (Np.amax times * 1000));
               ("std_inference_time_ms", PyFloat (Np.std times * 1000));
               ("total_predictions",
                 PyInt (Z.of_nat (length (inference_times w))));
               ("cache_hits", PyInt (Z.of_nat (size (prediction_cache w)))) ]
  end.

(** [model_to_use] of [predict]:
    [onnx_session or quantized_model or optimized_model or original_model]. *)
Inductive chosen_model : Type :=
| UseSession (s : inference_session)
| UseQuantized (q : quantized_module)
| UseOptimized (m : torch_model)
| UseOriginal (m : nn_module).

Definition model_to_use (w : wrapper) : chosen_model :=
  match onnx_session w with
  | Some s => UseSession s
  | None =>
      match quantized_model w with
      | Some q => UseQuantized q
      | None =>
          match optimized_model w with
          | Some m => UseOptimized m
          | None => UseOriginal (original_model w)
          end
      end
  end.

(** The prediction made with the chosen model. *)
Definition predict_with (c : chosen_model) (model_type : string)
    (input_data : pyval) : exn + pyval :=
  match c with
  | UseSession s => predict_onnx s model_type input_data
  | UseQuantized q => predict_quantized q model_type input_data
  | UseOptimized (Scripted s) => predict_script s model_type input_data
  | UseOptimized (Eager m) => predict_eager m model_type input_data
  | UseOriginal m => predict_eager m model_type input_data
  end.

(** A call of [predict], as a client makes it: the input, the [use_cache]
    flag and the time the call took; and a series of calls on the same
    wrapper, where a call that raises leaves the object as it was. *)
Definition call : Type := (pyval * bool * Q)%type.

Definition predictions (w : wrapper) (calls : list call) : wrapper :=
  fold_left (fun w c => snd (predict w (fst (fst c)) (snd (fst c)) (snd c)))
            calls w.

End Wrapper.

(** A runtime to run the wrapper on.  Every library call succeeds, except
    that the ONNX exporter refuses the multimodal model; the result of a
    prediction names the kind of model that made it; a printed dictionary
    is abbreviated, and the hash of a string is its length less five, so
    that the abbreviation of a non-empty dictionary hashes to zero. *)
Definition stub_runtime : Runtime :=
  {| nn_module := unit;
     script_module := unit;
     quantized_module := unit;
     inference_session := string;
     jit_script := fun _ => inr tt;
     quantize_dynamic := fun _ => inr tt;
     onnx_export := fun _ t _ =>
       if String.eqb t "multimodal"
       then inl (RuntimeError "Unsupported ONNX opset operator")
       else inr tt;
     InferenceSession := fun path => inr path;
     py_str := fun v =>
       match v with
       | PyStr s => s
       | PyDict [] => "{}"
       | PyDict _ => "{...}"
       | _ => "?"
       end;
     py_hash := fun s => (Z.of_nat (String.length s) - 5)%Z;
     predict_eager := fun _ _ _ => inr (PyDict [("model", PyStr "eager")]);
     predict_script := fun _ _ _ => inr (PyDict [("model", PyStr "script")]);
     predict_quantized := fun _ _ _ => inr (PyDict [("model", PyStr "quantized")]);
     predict_onnx := fun _ _ _ => inr (PyDict [("model", PyStr "onnx")]) |}.

End ProductionModelWrapper.

(** ** training/model_integrator.py: [ModelIntegrator] *)

Module ModelIntegrator.
Import Py ProductionModelWrapper.
Local Open Scope list_scope.

Section Integrator.
Context `{Runtime}.

(** What [load_and_optimize_models] finds outside the object. *)
Record models_directory : Type := ModelsDirectory {
  (** [(self.models_dir / file).exists()] *)
  file_exists : string -> bool;
  (** the constructor [config['class']] applied to [config['kwargs']],
      followed by [load_state_dict(torch.load(model_file))] and [eval()],
      for the named model *)
  load_model : string -> exn + nn_module;
  (** [MultimodalEmotionModel(text_model, audio_model, ...)] followed by
      [load_state_dict] of the multimodal checkpoint and [eval()] *)
  load_multimodal : nn_module -> nn_module -> exn + nn_module
}.

(** The names and checkpoint files of [model_configs], in order. *)
Definition model_configs : list (string * string) :=
  [ ("text_emotion", "best_text_emotion_model.pth");
    ("audio_emotion", "best_audio_emotion_model.pth");
    ("emotion_tts", "emotion_aware_tts.pth") ].

(** The [try] block that the loop body and the multimodal part share:
    wrap the loaded model, optimise it, register the wrapper; an
    [Exception] anywhere in it is logged and nothing is registered. *)
Definition register (available : bool) (optimization_level model_name : string)
    (loaded : exn + nn_module) (production_models : gmap string wrapper)
  : exn + gmap string wrapper :=
  let attempt :=
    match loaded with
    | inl e => inl e
    | inr model =>
        let r := optimize_model available (init model model_name)
                                optimization_level in
        match raised r with
        | Some e => inl e
        | None => inr (<[model_name := after r]> production_models)
        end
    end in
  match attempt with
  | inl e => if is_Exception e then inr production_models else inl e
  | inr registered => inr registered
  end.

(** [for model_name, config in model_configs.items()] *)
Fixpoint load_each (dir : models_directory) (available : bool)
    (optimization_level : string) (configs : list (string * string))
    (production_models : gmap string wrapper) : exn + gmap string wrapper :=
  match configs with
  | [] => inr production_models
  | (model_name, file) :: rest =>
      if file_exists dir file
      then
        match register available optimization_level model_name
                       (load_model dir model_name) production_models with
        | inl e => inl e
        | inr production_models =>
            load_each dir available optimization_level rest production_models
        end
      else load_each dir available optimization_level rest production_models
  end.

(** [load_and_optimize_models]: the dictionary [production_models]
    afterwards, or the exception that left the method. *)
Definition load_and_optimize_models (dir : models_directory) (available : bool)
    (optimization_level : string) (production_models : gmap string wrapper)
  : exn + gmap string wrapper :=
  match load_each dir available optimization_level model_configs
                  production_models with
  | inl e => inl e
  | inr production_models =>
      match production_models !! "text_emotion",
            production_models !! "audio_emotion" with
      | Some text_wrapper, Some audio_wrapper =>
          if file_exists dir "best_multimodal_emotion_model.pth"
          then
            register available optimization_level "multimodal"
                     (load_multimodal dir (original_model text_wrapper)
                                      (original_model audio_wrapper))
                     production_models
          else inr production_models
      | _, _ => inr production_models
      end
  end.

End Integrator.

(** A models directory for the stub runtime that holds the text and the
    audio checkpoint and nothing else. *)
Definition two_checkpoints : @models_directory stub_runtime :=
  @ModelsDirectory stub_runtime
    (fun file =>
       String.eqb file "best_text_emotion_model.pth"
       || String.eqb file "best_audio_emotion_model.pth")
    (fun _ => inr (tt : @nn_module stub_runtime))
    (fun _ _ => inr (tt : @nn_module stub_runtime)).

End ModelIntegrator.

(** * Properties *)

(** ** numpy helpers *)

Section NpFacts.
Import Py.
Local Open Scope list_scope.
Local Open Scope R_scope.

Lemma sum_app (l1 l2 : list R) : Np.sum (l1 ++ l2) = Np.sum l1 + Np.sum l2.
Proof.
  induction l1 as [|x l1 IH]; simpl.
  - lra.
  - rewrite IH. lra.
Qed.

Lemma sum_pos (l : list R) :
  l <> [] -> Forall (fun x => 0 < x) l -> 0 < Np.sum l.
Proof.
  intros Hne Hall. destruct l as [|x l]; [congruence|].
  clear Hne. revert x Hall. induction l as [|y l IH]; intros x Hall.
  - inversion Hall; subst. simpl. lra.
  - inversion Hall as [|? ? Hx Hrest]; subst.
    specialize (IH y Hrest). simpl in *. lra.
Qed.

Lemma sum_scale (c : R) (l : list R) :
  Np.sum (map (fun x => x / c) l) = Np.sum l / c.
Proof.
  induction l as [|x l IH]; simpl.
  - unfold Rdiv. lra.
  - rewrite IH. unfold Rdiv. lra.
Qed.

Lemma exp_all_pos (l : list R) : Forall (fun x => 0 < x) (map exp l).
Proof.
  induction l as [|x l IH]; simpl; constructor; auto using exp_pos.
Qed.

Lemma softmax_length (l : list R) : length (Np.softmax l) = length l.
Proof. unfold Np.softmax. now rewrite !length_map. Qed.

Lemma softmax_pos (l : list R) : Forall (fun x => 0 < x) (Np.softmax l).
Proof.
  unfold Np.softmax. destruct l as [|x l]; [constructor|].
  assert (Hs : 0 < Np.sum (map exp (x :: l))).
  { apply sum_pos; [discriminate | apply exp_all_pos]. }
  apply List.Forall_forall. intros y Hy. apply in_map_iff in Hy as (z & <- & Hz).
  apply in_map_iff in Hz as (u & <- & _).
  apply Rdiv_lt_0_compat; [apply exp_pos | exact Hs].
Qed.

Lemma softmax_sum (l : list R) : l <> [] -> Np.sum (Np.softmax l) = 1.
Proof.
  intros Hne. unfold Np.softmax. rewrite sum_scale.
  assert (Hs : 0 < Np.sum (map exp l)).
  { apply sum_pos; [destruct l; [congruence | discriminate] | apply exp_all_pos]. }
  field. lra.
Qed.

Lemma lookup_map {A B : Type} (f : A -> B) (l : list A) (i : nat) :
  map f l !! i = f <$> l !! i.
Proof. apply (list_lookup_fmap f l i). Qed.

Lemma softmax_lookup (l : list R) (i : nat) (x : R) :
  l !! i = Some x ->
  Np.softmax l !! i = Some (exp x / Np.sum (map exp l)).
Proof.
  intros Hi. unfold Np.softmax.
  rewrite !lookup_map, Hi. reflexivity.
Qed.

Lemma argmax_from_first_max (l p : list R) (bi : nat) (b : R) :
  Np.first_max p bi b ->
  exists x, Np.first_max (p ++ l) (Np.argmax_from bi b (length p) l) x.
Proof.
  revert p bi b. induction l as [|y l IH]; intros p bi b Hfm.
  - simpl. rewrite app_nil_r. eauto.
  - simpl. destruct Hfm as (Hk & Hall & Hlt).
    replace (p ++ y :: l) with ((p ++ [y]) ++ l) by (now rewrite <- app_assoc).
    replace (S (length p)) with (length (p ++ [y]))
      by (rewrite length_app; simpl; lia).
    destruct (Rlt_dec b y) as [Hby | Hby].
    + apply IH. repeat split.
      * rewrite lookup_app_r by lia. now rewrite Nat.sub_diag.
      * apply Forall_app. split.
        -- eapply Forall_impl; [exact Hall|]. intros z Hz. simpl in Hz. lra.
        -- constructor; [lra | constructor].
      * intros j z Hj Hz. rewrite lookup_app_l in Hz by lia.
        rewrite Forall_forall in Hall.
        assert (z <= b) by (apply Hall; eapply list_elem_of_lookup_2; eauto).
        lra.
    + apply IH. repeat split.
      * rewrite lookup_app_l; [exact Hk|]. now apply lookup_lt_Some in Hk.
      * apply Forall_app. split; [exact Hall|].
        constructor; [lra | constructor].
      * intros j z Hj Hz. apply lookup_lt_Some in Hk.
        rewrite lookup_app_l in Hz by lia. eauto.
Qed.

Lemma argmax_first_max (l : list R) :
  l <> [] -> exists k x, Np.argmax l = inr k /\ Np.first_max l k x.
Proof.
  destruct l as [|a l]; [congruence|]. intros _.
  destruct (argmax_from_first_max l [a] 0 a) as [x Hx].
  - repeat split; [constructor; [lra|constructor] | intros; lia].
  - exists (Np.argmax_from 0 a 1 l), x. split; [reflexivity | exact Hx].
Qed.

Lemma first_max_unique (l : list R) (k1 k2 : nat) (x1 x2 : R) :
  Np.first_max l k1 x1 -> Np.first_max l k2 x2 -> k1 = k2 /\ x1 = x2.
Proof.
  intros (H1 & A1 & L1) (H2 & A2 & L2).
  rewrite Forall_forall in A1, A2.
  assert (x2 <= x1) by (apply A1; eapply list_elem_of_lookup_2; eauto).
  assert (x1 <= x2) by (apply A2; eapply list_elem_of_lookup_2; eauto).
  destruct (lt_eq_lt_dec k1 k2) as [[Hlt | Heq] | Hgt].
  - specialize (L2 _ _ Hlt H1). lra.
  - subst. rewrite H1 in H2. inversion H2. auto.
  - specialize (L1 _ _ Hgt H2). lra.
Qed.

Lemma argmax_is (l : list R) (k : nat) (x : R) :
  Np.first_max l k x -> Np.argmax l = inr k.
Proof.
  intros Hfm. assert (Hne : l <> []).
  { destruct Hfm as (Hk & _). intros ->. discriminate. }
  destruct (argmax_first_max l Hne) as (k' & x' & Heq & Hfm').
  destruct (first_max_unique _ _ _ _ _ Hfm Hfm') as [-> _]. exact Heq.
Qed.

End NpFacts.

(** ** The production emotion service *)

(** Unfolding one layer of the world-threading monad. *)
Ltac run_unfold :=
  unfold mbind, ProductionEmotionService.run_bind, mret,
    ProductionEmotionService.run_ret, ProductionEmotionService.lift,
    ProductionEmotionService.get_self,
    ProductionEmotionService.np_random_random,
    ProductionEmotionService.logger_error,
    ProductionEmotionService.try_except.

Section ServiceFacts.
Import Py ProductionEmotionService.
Local Open Scope list_scope.
Local Open Scope R_scope.

Lemma init_labels dir cfg : emotion_labels (init dir cfg) = configured_labels.
Proof. destruct cfg as [e | [ms |]]; reflexivity. Qed.

Lemma draws_length g n : length (draws g n) = n.
Proof. unfold draws. now rewrite length_map, length_seq. Qed.

Lemma bump_length i d l : length (bump i d l) = length l.
Proof. unfold bump. destruct (l !! i); [apply length_insert | reflexivity]. Qed.

Lemma add_at_bump i d l :
  (i < length l)%nat -> Np.add_at i d l = inr (bump i d l).
Proof.
  intros Hi. unfold Np.add_at, bump.
  destruct (lookup_lt_is_Some_2 l i Hi) as [x ->]. reflexivity.
Qed.

Lemma text_adjust_length s l : length (text_adjust s l) = length l.
Proof.
  unfold text_adjust. destruct (keyword_index (lower s)); auto using bump_length.
Qed.

Lemma audio_adjust_length n l : length (audio_adjust n l) = length l.
Proof.
  unfold audio_adjust. destruct (20 <? n)%nat; [|reflexivity].
  now rewrite !bump_length.
Qed.

(** On a string, and with at least four labels, the text inference is the
    softmax of the draw after the keyword adjustment. *)
Lemma text_inference_str w s :
  (4 <= length (emotion_labels (self w)))%nat ->
  _simulate_text_inference (PyStr s) w
  = (inr (Np.softmax
            (text_adjust s (draws (np_random w) (length (emotion_labels (self w)))))),
     World (self w) (advance (np_random w) (length (emotion_labels (self w))))
           (logged w)).
Proof.
  intros Hn. unfold _simulate_text_inference, text_adjust, keyword_index.
  unfold mbind, run_bind, mret, run_ret, lift, get_self, np_random_random.
  cbn [py_split py_lower self np_random logged].
  fold (draws (np_random w) (length (emotion_labels (self w)))).
  fold (advance (np_random w) (length (emotion_labels (self w)))).
  set (dr := draws _ _).
  assert (Hl : length dr = length (emotion_labels (self w))) by apply draws_length.
  destruct (any_in _ (lower s)).
  { rewrite add_at_bump by lia. reflexivity. }
  destruct (any_in _ (lower s)).
  { rewrite add_at_bump by lia. reflexivity. }
  destruct (any_in _ (lower s)).
  { rewrite add_at_bump by lia. reflexivity. }
  reflexivity.
Qed.

Lemma audio_inference_len w v n :
  py_len v = inr n ->
  (4 <= length (emotion_labels (self w)))%nat ->
  _simulate_audio_inference v w
  = (inr (Np.softmax
            (audio_adjust n (draws (np_random w) (length (emotion_labels (self w)))))),
     World (self w) (advance (np_random w) (length (emotion_labels (self w))))
           (logged w)).
Proof.
  intros Hv Hn. unfold _simulate_audio_inference, audio_adjust.
  run_unfold. cbn [self np_random logged]. rewrite Hv.
  fold (draws (np_random w) (length (emotion_labels (self w)))).
  fold (advance (np_random w) (length (emotion_labels (self w)))).
  set (dr := draws _ _).
  assert (Hl : length dr = length (emotion_labels (self w))) by apply draws_length.
  destruct (20 <? n)%nat; [|reflexivity].
  rewrite add_at_bump by lia.
  rewrite add_at_bump by (rewrite bump_length; lia).
  reflexivity.
Qed.

Lemma multimodal_inference_ok w s v n :
  py_len v = inr n ->
  (4 <= length (emotion_labels (self w)))%nat ->
  let k := length (emotion_labels (self w)) in
  _simulate_multimodal_inference (PyStr s) v w
  = (inr (Np.axpby 0.6 (Np.softmax (text_adjust s (draws (np_random w) k)))
                   0.4 (Np.softmax
                          (audio_adjust n (draws (advance (np_random w) k) k)))),
     World (self w) (advance (advance (np_random w) k) k) (logged w)).
Proof.
  intros Hv Hn k. unfold _simulate_multimodal_inference.
  unfold mbind at 1. unfold run_bind at 1.
  rewrite text_inference_str by exact Hn.
  unfold mbind at 1. unfold run_bind at 1.
  rewrite (audio_inference_len _ v n Hv) by exact Hn.
  reflexivity.
Qed.

(** *** Largest entries survive softmax and fusion *)

Lemma softmax_first_max (l : list R) (k : nat) (x : R) :
  Np.first_max l k x ->
  Np.first_max (Np.softmax l) k (exp x / Np.sum (map exp l)).
Proof.
  intros (Hk & Hall & Hlt).
  assert (Hs : 0 < Np.sum (map exp l)).
  { apply sum_pos; [|apply exp_all_pos]. destruct l; [discriminate Hk | discriminate]. }
  repeat split.
  - now apply softmax_lookup.
  - apply Forall_lookup. intros i y Hy.
    destruct (l !! i) as [z|] eqn:Hz.
    + rewrite (softmax_lookup _ _ _ Hz) in Hy. inversion Hy; subst.
      rewrite Forall_lookup in Hall. specialize (Hall _ _ Hz). simpl in Hall.
      apply Rmult_le_compat_r; [left; now apply Rinv_0_lt_compat|].
      destruct Hall as [Hall | ->]; [left; now apply exp_increasing | right; reflexivity].
    + apply lookup_ge_None in Hz. rewrite <- softmax_length in Hz.
      apply lookup_ge_None in Hz. congruence.
  - intros j y Hj Hy.
    destruct (l !! j) as [z|] eqn:Hz.
    + rewrite (softmax_lookup _ _ _ Hz) in Hy. inversion Hy; subst.
      apply Rmult_lt_compat_r; [now apply Rinv_0_lt_compat|].
      apply exp_increasing. eauto.
    + apply lookup_ge_None in Hz. rewrite <- softmax_length in Hz.
      apply lookup_ge_None in Hz. congruence.
Qed.

Lemma axpby_lookup a x b y i u v :
  x !! i = Some u -> y !! i = Some v ->
  Np.axpby a x b y !! i = Some (a * u + b * v).
Proof.
  intros Hu Hv. unfold Np.axpby. rewrite lookup_zip_with, Hu. simpl.
  rewrite Hv. reflexivity.
Qed.

Lemma axpby_lookup_inv a x b y i z :
  Np.axpby a x b y !! i = Some z ->
  exists u v, x !! i = Some u /\ y !! i = Some v /\ z = a * u + b * v.
Proof.
  unfold Np.axpby. intros Hz. apply lookup_zip_with_Some in Hz.
  destruct Hz as (u & v & -> & Hu & Hv). eauto.
Qed.

Lemma axpby_first_max (x y : list R) (k : nat) (u v : R) :
  Np.first_max x k u -> Np.first_max y k v ->
  Np.first_max (Np.axpby 0.6 x 0.4 y) k (0.6 * u + 0.4 * v).
Proof.
  intros (Hxk & Hxall & Hxlt) (Hyk & Hyall & Hylt).
  rewrite Forall_lookup in Hxall, Hyall.
  repeat split.
  - now apply axpby_lookup.
  - apply Forall_lookup. intros i z Hz.
    apply axpby_lookup_inv in Hz as (a & b & Ha & Hb & ->).
    specialize (Hxall _ _ Ha). specialize (Hyall _ _ Hb). simpl in *. lra.
  - intros j z Hj Hz.
    apply axpby_lookup_inv in Hz as (a & b & Ha & Hb & ->).
    specialize (Hxlt _ _ Hj Ha). specialize (Hylt _ _ Hj Hb). lra.
Qed.

Lemma axpby_length a x b y :
  length x = length y -> length (Np.axpby a x b y) = length x.
Proof. intros Hl. unfold Np.axpby. rewrite length_zip_with. lia. Qed.

Lemma axpby_pos (x y : list R) :
  Forall (fun r => 0 < r) x -> Forall (fun r => 0 < r) y ->
  Forall (fun r => 0 < r) (Np.axpby 0.6 x 0.4 y).
Proof.
  intros Hx Hy. rewrite Forall_lookup in Hx, Hy. apply Forall_lookup.
  intros i z Hz. apply axpby_lookup_inv in Hz as (a & b & Ha & Hb & ->).
  specialize (Hx _ _ Ha). specialize (Hy _ _ Hb). simpl in *. lra.
Qed.

Lemma axpby_sum (a b : R) (x y : list R) :
  length x = length y ->
  Np.sum (Np.axpby a x b y) = a * Np.sum x + b * Np.sum y.
Proof.
  revert y. induction x as [|u x IH]; intros [|v y] Hl; simpl in *; try lia.
  - lra.
  - rewrite IH by lia. lra.
Qed.

(** *** Building the result dictionary *)

Lemma dict_set_fresh k v d :
  ~ In k (map fst d) -> dict_set k v d = d ++ [(k, v)].
Proof.
  induction d as [|[k' v'] d IH]; simpl; intros Hk; [reflexivity|].
  destruct (String.eqb_spec k k') as [-> | Hne]; [tauto|].
  rewrite IH by tauto. reflexivity.
Qed.

Lemma dict_of_pairs_from (kvs acc : list (string * pyval)) :
  List.NoDup (map fst (acc ++ kvs)) ->
  fold_left (fun d kv => dict_set (fst kv) (snd kv) d) kvs acc = acc ++ kvs.
Proof.
  revert acc. induction kvs as [|[k v] kvs IH]; intros acc Hnd; simpl.
  - now rewrite app_nil_r.
  - rewrite dict_set_fresh.
    + rewrite IH; rewrite <- app_assoc; [reflexivity | exact Hnd].
    + rewrite map_app in Hnd. simpl in Hnd.
      apply List.NoDup_remove_2 in Hnd. intros Hin. apply Hnd.
      apply in_or_app. now left.
Qed.

Lemma dict_of_pairs_nodup (kvs : list (string * pyval)) :
  List.NoDup (map fst kvs) -> dict_of_pairs kvs = kvs.
Proof. intros Hnd. unfold dict_of_pairs. now rewrite dict_of_pairs_from. Qed.

Lemma zip_keys (labels : list string) (scores : list R) :
  length scores = length labels ->
  map fst (zip_with (fun e s => (e, PyFloat s)) labels scores) = labels.
Proof.
  revert scores. induction labels as [|e labels IH]; intros [|s scores] Hl;
    simpl in *; try lia; [reflexivity|].
  f_equal. apply IH. lia.
Qed.

Lemma configured_labels_nodup : List.NoDup configured_labels.
Proof.
  unfold configured_labels.
  repeat (constructor; [simpl; intuition discriminate|]). constructor.
Qed.

(** When the scores have a first largest entry whose index names a label,
    the result is built without raising. *)
Lemma scores_to_result_ok w model_used scores k x l :
  Np.first_max scores k x ->
  emotion_labels (self w) !! k = Some l ->
  scores_to_result model_used scores w
  = (inr (PyDict
            [ ("emotion", PyStr l);
              ("confidence", PyFloat x);
              ("all_scores",
                PyDict (dict_of_pairs
                          (zip_with (fun emotion score => (emotion, PyFloat score))
                                    (emotion_labels (self w)) scores)));
              ("model_used", PyStr model_used) ]), w).
Proof.
  intros Hfm Hl. unfold scores_to_result. run_unfold.
  rewrite (argmax_is _ _ _ Hfm). rewrite Hl.
  destruct Hfm as (-> & _). reflexivity.
Qed.

(** A probability vector over the configured labels gives a well-formed
    result. *)
Lemma scores_to_result_well_formed w model_used scores :
  emotion_labels (self w) = configured_labels ->
  length scores = 13%nat ->
  Forall (fun x => 0 < x) scores ->
  Np.sum scores = 1 ->
  exists d, scores_to_result model_used scores w = (inr d, w)
            /\ well_formed_result configured_labels d.
Proof.
  intros Hlab Hlen Hpos Hsum.
  destruct (argmax_first_max scores) as (k & x & _ & Hfm).
  { intros ->. discriminate. }
  assert (Hk : (k < 13)%nat).
  { destruct Hfm as (Hk & _). apply lookup_lt_Some in Hk. lia. }
  destruct (lookup_lt_is_Some_2 configured_labels k) as [l Hl]; [exact Hk|].
  eexists. split.
  - apply scores_to_result_ok with (k := k) (x := x) (l := l); [exact Hfm|].
    now rewrite Hlab.
  - rewrite Hlab. rewrite dict_of_pairs_nodup.
    + exists l, x, scores, model_used, k. repeat split; try assumption.
      * apply Hfm.
      * apply Hfm.
      * apply Hfm.
    + rewrite zip_keys by exact Hlen. apply configured_labels_nodup.
Qed.

Lemma try_except_ok {A : Type} (body : run A) handler w a w' :
  body w = (inr a, w') -> try_except body handler w = (inr a, w').
Proof. intros Hb. unfold try_except. now rewrite Hb. Qed.

Lemma text_body_well_formed dir cfg g lg s :
  let w := World (init dir cfg) g lg in
  exists d w', detect_emotion_from_text_body (PyStr s) w = (inr d, w')
               /\ well_formed_result configured_labels d.
Proof.
  intros w. unfold detect_emotion_from_text_body.
  unfold mbind at 1. unfold run_bind at 1.
  rewrite text_inference_str by (subst w; simpl; rewrite init_labels; simpl; lia).
  set (w1 := World _ _ _).
  destruct (scores_to_result_well_formed w1 "text_emotion_optimized"
              (Np.softmax (text_adjust s (draws (np_random w)
                                            (length (emotion_labels (self w)))))))
    as (d & Hd & Hwf).
  - subst w1 w. simpl. apply init_labels.
  - rewrite softmax_length, text_adjust_length, draws_length.
    subst w. simpl. now rewrite init_labels.
  - apply softmax_pos.
  - apply softmax_sum. intros Heq. apply (f_equal (@length R)) in Heq.
    rewrite text_adjust_length, draws_length in Heq.
    subst w. simpl in Heq. rewrite init_labels in Heq. discriminate.
  - exists d, w1. split; [exact Hd | exact Hwf].
Qed.

Lemma audio_body_well_formed dir cfg g lg v n :
  py_len v = inr n ->
  let w := World (init dir cfg) g lg in
  exists d w', detect_emotion_from_audio_body v w = (inr d, w')
               /\ well_formed_result configured_labels d.
Proof.
  intros Hv w. unfold detect_emotion_from_audio_body.
  unfold mbind at 1. unfold run_bind at 1.
  rewrite (audio_inference_len _ v n Hv)
    by (subst w; simpl; rewrite init_labels; simpl; lia).
  set (w1 := World _ _ _).
  destruct (scores_to_result_well_formed w1 "audio_emotion_optimized"
              (Np.softmax (audio_adjust n (draws (np_random w)
                                             (length (emotion_labels (self w)))))))
    as (d & Hd & Hwf).
  - subst w1 w. simpl. apply init_labels.
  - rewrite softmax_length, audio_adjust_length, draws_length.
    subst w. simpl. now rewrite init_labels.
  - apply softmax_pos.
  - apply softmax_sum. intros Heq. apply (f_equal (@length R)) in Heq.
    rewrite audio_adjust_length, draws_length in Heq.
    subst w. simpl in Heq. rewrite init_labels in Heq. discriminate.
  - exists d, w1. split; [exact Hd | exact Hwf].
Qed.

Lemma multimodal_body_well_formed dir cfg g lg s v n :
  py_len v = inr n ->
  let w := World (init dir cfg) g lg in
  exists d w', detect_emotion_multimodal_body (PyStr s) v w = (inr d, w')
               /\ well_formed_result configured_labels d.
Proof.
  intros Hv w. unfold detect_emotion_multimodal_body.
  unfold mbind at 1. unfold run_bind at 1.
  assert (Hlab : emotion_labels (self w) = configured_labels)
    by (subst w; simpl; apply init_labels).
  assert (H13 : length (emotion_labels (self w)) = 13%nat) by now rewrite Hlab.
  rewrite (multimodal_inference_ok _ s v n Hv) by lia.
  set (w1 := World _ _ _).
  set (t := Np.softmax (text_adjust s _)).
  set (a := Np.softmax (audio_adjust n _)).
  assert (Ht : length t = 13%nat)
    by (subst t; now rewrite softmax_length, text_adjust_length, draws_length).
  assert (Ha : length a = 13%nat)
    by (subst a; now rewrite softmax_length, audio_adjust_length, draws_length).
  destruct (scores_to_result_well_formed w1 "multimodal_optimized"
              (Np.axpby 0.6 t 0.4 a)) as (d & Hd & Hwf).
  - exact Hlab.
  - rewrite axpby_length; lia.
  - apply axpby_pos; apply softmax_pos.
  - rewrite axpby_sum by lia. subst t a.
    rewrite !softmax_sum; [lra | |].
    + intros Heq. apply (f_equal (@length R)) in Heq.
      rewrite audio_adjust_length, draws_length, H13 in Heq. discriminate Heq.
    + intros Heq. apply (f_equal (@length R)) in Heq.
      rewrite text_adjust_length, draws_length, H13 in Heq. discriminate Heq.
  - exists d, w1. split; [exact Hd | exact Hwf].
Qed.

(** Inputs without the method the inference calls make the body raise. *)
Lemma text_body_cases w txt :
  (exists s, txt = PyStr s)
  \/ (exists e, detect_emotion_from_text_body txt w = (inl e, w)).
Proof. destruct txt; try (right; eexists; reflexivity). left. eauto. Qed.

Lemma py_len_cases v :
  (exists n, py_len v = inr n) \/ (exists e, py_len v = inl e).
Proof. destruct v; simpl; eauto. Qed.

Lemma audio_body_no_len w v e :
  py_len v = inl e ->
  exists w', detect_emotion_from_audio_body v w = (inl e, w').
Proof.
  intros Hv. unfold detect_emotion_from_audio_body, _simulate_audio_inference.
  run_unfold. cbn [self np_random logged]. rewrite Hv. eexists. reflexivity.
Qed.

Lemma multimodal_body_cases w txt v :
  (exists s, txt = PyStr s)
  \/ (exists e, detect_emotion_multimodal_body txt v w = (inl e, w)).
Proof. destruct txt; try (right; eexists; reflexivity). left. eauto. Qed.

Lemma multimodal_body_no_len w s v e :
  py_len v = inl e ->
  (4 <= length (emotion_labels (self w)))%nat ->
  exists w', detect_emotion_multimodal_body (PyStr s) v w = (inl e, w').
Proof.
  intros Hv Hn.
  unfold detect_emotion_multimodal_body, _simulate_multimodal_inference.
  unfold mbind at 1. unfold run_bind at 1.
  unfold mbind at 1. unfold run_bind at 1.
  rewrite text_inference_str by exact Hn.
  unfold _simulate_audio_inference.
  run_unfold. cbn [self np_random logged]. rewrite Hv. eexists. reflexivity.
Qed.

(** *** Every step is safe *)

Lemma safe_ret {A : Type} (a : A) : safe (mret a).
Proof. intros w. split; [reflexivity | discriminate]. Qed.

Lemma safe_lift {A : Type} (r : exn + A) :
  (forall e, r = inl e -> is_Exception e = true) -> safe (lift r).
Proof. intros Hr w. split; [reflexivity | exact Hr]. Qed.

Lemma safe_bind {A B : Type} (m : run A) (f : A -> run B) :
  safe m -> (forall a, safe (f a)) -> safe (m ≫= f).
Proof.
  intros Hm Hf w. unfold mbind, run_bind.
  destruct (Hm w) as [Hs He]. destruct (m w) as [[e | a] w1]; simpl in *.
  - split; [exact Hs | intros e' [= <-]; now apply He].
  - destruct (Hf a w1) as [Hs' He']. split; [congruence | exact He'].
Qed.

Lemma safe_get_self : safe get_self.
Proof. intros w. split; [reflexivity | discriminate]. Qed.

Lemma safe_random n : safe (np_random_random n).
Proof. intros w. split; [reflexivity | discriminate]. Qed.

Lemma safe_logger_error msg : safe (logger_error msg).
Proof. intros w. split; [reflexivity | discriminate]. Qed.

Lemma add_at_raises i d l e : Np.add_at i d l = inl e -> is_Exception e = true.
Proof. unfold Np.add_at. destruct (l !! i); intros [= <-]. reflexivity. Qed.

Lemma argmax_raises l e : Np.argmax l = inl e -> is_Exception e = true.
Proof. destruct l; intros [= <-]. reflexivity. Qed.

Lemma py_split_raises v e : py_split v = inl e -> is_Exception e = true.
Proof. destruct v; intros [= <-]; reflexivity. Qed.

Lemma py_lower_raises v e : py_lower v = inl e -> is_Exception e = true.
Proof. destruct v; intros [= <-]; reflexivity. Qed.

Lemma py_len_raises v e : py_len v = inl e -> is_Exception e = true.
Proof. destruct v; intros [= <-]; reflexivity. Qed.

Create HintDb safe_steps.
#[local] Hint Resolve safe_ret safe_get_self safe_random safe_logger_error
  add_at_raises argmax_raises py_split_raises py_lower_raises py_len_raises
  : safe_steps.

Ltac safe_step :=
  first [ solve [eauto with safe_steps]
        | apply safe_bind; [|intros ?]
        | apply safe_lift;
          first [ solve [eauto with safe_steps] | discriminate | idtac ] ].

Lemma safe_text_inference text : safe (_simulate_text_inference text).
Proof.
  unfold _simulate_text_inference. repeat safe_step.
  repeat match goal with |- safe (if ?b then _ else _) => destruct b end;
    repeat safe_step.
Qed.

Lemma safe_audio_inference v : safe (_simulate_audio_inference v).
Proof.
  unfold _simulate_audio_inference. repeat safe_step.
  repeat match goal with |- safe (if ?b then _ else _) => destruct b end;
    repeat safe_step.
Qed.

Lemma safe_multimodal_inference text v :
  safe (_simulate_multimodal_inference text v).
Proof.
  unfold _simulate_multimodal_inference.
  apply safe_bind; [apply safe_text_inference | intros ?].
  apply safe_bind; [apply safe_audio_inference | intros ?]. apply safe_ret.
Qed.

Lemma safe_scores_to_result model_used scores :
  safe (scores_to_result model_used scores).
Proof.
  unfold scores_to_result. repeat safe_step.
  - intros e. destruct (_ !! _); intros [= <-]. reflexivity.
  - intros e. destruct (_ !! _); intros [= <-]. reflexivity.
Qed.

(** [try ... except Exception] around a safe body, with the handler of
    the three methods. *)
Lemma try_except_recovers what (body : run pyval) :
  safe body -> recovers what body (try_except body (on_error what)).
Proof.
  intros Hb w. unfold try_except. destruct (Hb w) as [Hs He].
  destruct (body w) as [[e | d] w1]; simpl in *.
  - rewrite (He e eq_refl). unfold on_error. run_unfold. simpl.
    rewrite Hs. reflexivity.
  - split; [reflexivity | exact Hs].
Qed.

Lemma safe_text_body text : safe (detect_emotion_from_text_body text).
Proof.
  apply safe_bind; [apply safe_text_inference | intros ?].
  apply safe_scores_to_result.
Qed.

Lemma safe_audio_body v : safe (detect_emotion_from_audio_body v).
Proof.
  apply safe_bind; [apply safe_audio_inference | intros ?].
  apply safe_scores_to_result.
Qed.

Lemma safe_multimodal_body text v : safe (detect_emotion_multimodal_body text v).
Proof.
  apply safe_bind; [apply safe_multimodal_inference | intros ?].
  apply safe_scores_to_result.
Qed.

(** C3: none of [detect_emotion_from_text], [detect_emotion_from_audio] and
    [detect_emotion_multimodal] ever raises.  On every input and in every
    state, the method returns what its [try] block returns; when a step of
    the block fails with [e] it logs the error and returns the dictionary
    with 'emotion' = 'neutral', 'confidence' = 0.5 and 'error' = [str(e)];
    in both cases the service object is unchanged. *)
Theorem detect_recovers_from_failure :
  (forall text,
      recovers "text" (detect_emotion_from_text_body text)
               (detect_emotion_from_text text))
  /\ (forall audio_features,
         recovers "audio" (detect_emotion_from_audio_body audio_features)
                  (detect_emotion_from_audio audio_features))
  /\ (forall text audio_features,
         recovers "multimodal"
                  (detect_emotion_multimodal_body text audio_features)
                  (detect_emotion_multimodal text audio_features)).
Proof.
  repeat split; intros.
  - apply try_except_recovers, safe_text_body.
  - apply try_except_recovers, safe_audio_body.
  - apply try_except_recovers, safe_multimodal_body.
Qed.

(** The failure path on a concrete call: an integer has no [split]. *)
Example detect_text_on_int g :
  detect_emotion_from_text (PyInt 5) (World (init "deployment" (inr None)) g [])
  = (inr (PyDict [ ("emotion", PyStr "neutral");
                   ("confidence", PyFloat 0.5);
                   ("error", PyStr "'int' object has no attribute 'split'") ]),
     World (init "deployment" (inr None)) g
           ["Error in text emotion detection: 'int' object has no attribute 'split'"]).
Proof. reflexivity. Qed.

(** C9, as amended.  When no exception occurs inside
    [detect_emotion_from_text] (and likewise the audio and the multimodal
    method) of a service made by [__init__], the returned dictionary has
    one score for each of the 13 configured labels, the scores are
    positive, the confidence is the largest score and the emotion is the
    label at the first index holding it; and with the softmax read over
    the real numbers, as it is throughout this section, the scores add up
    to 1. *)
Theorem detect_result_well_formed :
  forall dir cfg g lg,
    let w := World (init dir cfg) g lg in
    (forall text d,
        fst (detect_emotion_from_text_body text w) = inr d ->
        fst (detect_emotion_from_text text w) = inr d
        /\ well_formed_result configured_labels d)
    /\ (forall audio_features d,
           fst (detect_emotion_from_audio_body audio_features w) = inr d ->
           fst (detect_emotion_from_audio audio_features w) = inr d
           /\ well_formed_result configured_labels d)
    /\ (forall text audio_features d,
           fst (detect_emotion_multimodal_body text audio_features w) = inr d ->
           fst (detect_emotion_multimodal text audio_features w) = inr d
           /\ well_formed_result configured_labels d).
Proof.
  intros dir cfg g lg w.
  assert (H4 : (4 <= length (emotion_labels (self w)))%nat)
    by (subst w; simpl; rewrite init_labels; simpl; lia).
  split; [intros txt d H | split; [intros v d H | intros txt v d H]].
  - destruct (text_body_cases w txt) as [[s ->] | [e He]];
      [|rewrite He in H; discriminate H].
    destruct (text_body_well_formed dir cfg g lg s) as (d' & w' & Hb & Hwf).
    fold w in Hb. unfold detect_emotion_from_text.
    rewrite (try_except_ok _ _ _ _ _ Hb). rewrite Hb in H. simpl in H.
    inversion H; subst. split; [reflexivity | exact Hwf].
  - destruct (py_len_cases v) as [[n Hn] | [e He]].
    + destruct (audio_body_well_formed dir cfg g lg _ n Hn) as (d' & w' & Hb & Hwf).
      fold w in Hb. unfold detect_emotion_from_audio.
      rewrite (try_except_ok _ _ _ _ _ Hb). rewrite Hb in H. simpl in H.
      inversion H; subst. split; [reflexivity | exact Hwf].
    + destruct (audio_body_no_len w _ e He) as [w' Hb].
      rewrite Hb in H. discriminate H.
  - destruct (multimodal_body_cases w txt v) as [[s ->] | [e He]];
      [|rewrite He in H; discriminate H].
    destruct (py_len_cases v) as [[n Hn] | [e He]].
    + destruct (multimodal_body_well_formed dir cfg g lg s _ n Hn)
        as (d' & w' & Hb & Hwf).
      fold w in Hb. unfold detect_emotion_multimodal.
      rewrite (try_except_ok _ _ _ _ _ Hb). rewrite Hb in H. simpl in H.
      inversion H; subst. split; [reflexivity | exact Hwf].
    + destruct (multimodal_body_no_len w s _ e He H4) as [w' Hb].
      rewrite Hb in H. discriminate H.
Qed.

(** A freshly made service, a generator that keeps drawing 0 and ordinary
    inputs: no exception occurs, and the three results are well formed. *)
Lemma detect_result_well_formed_witness :
  let w := World (init "training/deployment" (inr None)) (fun _ => 0) [] in
  (exists d,
      fst (detect_emotion_from_text_body (PyStr "what a great day") w) = inr d
      /\ fst (detect_emotion_from_text (PyStr "what a great day") w) = inr d
      /\ well_formed_result configured_labels d)
  /\ (exists d,
         fst (detect_emotion_from_audio_body (PyList []) w) = inr d
         /\ fst (detect_emotion_from_audio (PyList []) w) = inr d
         /\ well_formed_result configured_labels d)
  /\ (exists d,
         fst (detect_emotion_multimodal_body (PyStr "so sad") (PyList []) w)
         = inr d
         /\ fst (detect_emotion_multimodal (PyStr "so sad") (PyList []) w)
            = inr d
         /\ well_formed_result configured_labels d).
Proof.
  set (w := World _ _ _).
  destruct (detect_result_well_formed "training/deployment" (inr None)
              (fun _ => 0) []) as (Ht & Ha & Hm).
  destruct (text_body_well_formed "training/deployment" (inr None)
              (fun _ => 0) [] "what a great day") as (d1 & w1 & Hb1 & _).
  destruct (audio_body_well_formed "training/deployment" (inr None)
              (fun _ => 0) [] (PyList []) 0 eq_refl) as (d2 & w2 & Hb2 & _).
  destruct (multimodal_body_well_formed "training/deployment" (inr None)
              (fun _ => 0) [] "so sad" (PyList []) 0 eq_refl)
    as (d3 & w3 & Hb3 & _).
  fold w in Hb1, Hb2, Hb3.
  assert (H1 : fst (detect_emotion_from_text_body (PyStr "what a great day") w)
               = inr d1) by (now rewrite Hb1).
  assert (H2 : fst (detect_emotion_from_audio_body (PyList []) w) = inr d2)
    by (now rewrite Hb2).
  assert (H3 : fst (detect_emotion_multimodal_body (PyStr "so sad") (PyList []) w)
               = inr d3) by (now rewrite Hb3).
  split; [|split].
  - exists d1. split; [exact H1|]. exact (Ht (PyStr "what a great day") d1 H1).
  - exists d2. split; [exact H2|]. exact (Ha (PyList []) d2 H2).
  - exists d3. split; [exact H3|]. exact (Hm (PyStr "so sad") (PyList []) d3 H3).
Defined.

(** C9 as stated fails in float64, the arithmetic of the code.  When the
    generator draws thirteen times 0.0 and the text has no keyword, every
    score is the float nearest to 1/13; the thirteen of them add up to
    1 + 2^-54 and not to 1, and added one by one in float64 they give
    the float just below 1. *)
Lemma detect_result_counterexample :
  let draw := repeat (Float64.of_nat 0) 13 in
  let score := PrimFloat.div (Float64.of_nat 1) (Float64.of_nat 13) in
  @ProductionEmotionService64._simulate_text_inference
    ProductionEmotionService64.numpy_at_zero (PyStr "fine") draw
  = inr (repeat score 13)
  /\ length configured_labels = 13%nat
  /\ Float64.to_Q score = Some (5542891849071380 # 72057594037927936)%Q
  /\ Float64.exact_sum (repeat score 13)
     = Some (18014398509481985 # 18014398509481984)%Q
  /\ ~ (18014398509481985 # 18014398509481984 == 1)%Q
  /\ PrimFloat.eqb (Float64.running_sum (repeat score 13)) (Float64.of_nat 1)
     = false
  /\ Float64.to_Q (Float64.running_sum (repeat score 13))
     = Some (9007199254740990 # 9007199254740992)%Q.
Proof.
  cbv zeta. repeat split; try (vm_compute; reflexivity).
  intros Heq. vm_compute in Heq. discriminate Heq.
Qed.

(** *** The loaded models play no part *)

Lemma alike_ret {A : Type} (a : A) : alike (mret a) (mret a).
Proof. intros w1 w2 Hw. split; [reflexivity | exact Hw]. Qed.

Lemma alike_lift {A : Type} (r : exn + A) : alike (lift r) (lift r).
Proof. intros w1 w2 Hw. split; [reflexivity | exact Hw]. Qed.

Lemma alike_bind {A B : Type} (m1 m2 : run A) (f1 f2 : A -> run B) :
  alike m1 m2 -> (forall a, alike (f1 a) (f2 a)) ->
  alike (m1 ≫= f1) (m2 ≫= f2).
Proof.
  intros Hm Hf w1 w2 Hw. unfold mbind, run_bind.
  destruct (Hm w1 w2 Hw) as [Hr Hw'].
  destruct (m1 w1) as [[e1 | a1] w1'], (m2 w2) as [[e2 | a2] w2'];
    simpl in *; try discriminate.
  - inversion Hr; subst. split; [reflexivity | exact Hw'].
  - inversion Hr; subst. apply Hf, Hw'.
Qed.

(** Reading [self] is harmless as long as only the labels are used. *)
Lemma alike_get_self {B : Type} (f1 f2 : service -> run B) :
  (forall s1 s2, emotion_labels s1 = emotion_labels s2 -> alike (f1 s1) (f2 s2)) ->
  alike (get_self ≫= f1) (get_self ≫= f2).
Proof.
  intros Hf w1 w2 Hw. unfold mbind, run_bind, get_self.
  apply Hf; [apply Hw | exact Hw].
Qed.

Lemma alike_random n : alike (np_random_random n) (np_random_random n).
Proof.
  intros w1 w2 [Hl Hg]. unfold np_random_random. simpl. rewrite Hg.
  split; [reflexivity|]. split; [exact Hl | reflexivity].
Qed.

Lemma alike_logger_error msg : alike (logger_error msg) (logger_error msg).
Proof. intros w1 w2 Hw. split; [reflexivity | exact Hw]. Qed.

Lemma alike_try_except (body1 body2 : run pyval) what :
  alike body1 body2 ->
  alike (try_except body1 (on_error what)) (try_except body2 (on_error what)).
Proof.
  intros Hb w1 w2 Hw. unfold try_except.
  destruct (Hb w1 w2 Hw) as [Hr Hw'].
  destruct (body1 w1) as [[e1 | a1] w1'], (body2 w2) as [[e2 | a2] w2'];
    simpl in *; try discriminate.
  - inversion Hr; subst. destruct (is_Exception e2).
    + unfold on_error. run_unfold. simpl. split; [reflexivity | exact Hw'].
    + split; [reflexivity | exact Hw'].
  - split; [exact Hr | exact Hw'].
Qed.

Lemma alike_text_inference txt :
  alike (_simulate_text_inference txt) (_simulate_text_inference txt).
Proof.
  unfold _simulate_text_inference.
  apply alike_bind; [apply alike_lift | intros ws].
  apply alike_get_self. intros s1 s2 Hs. rewrite Hs.
  apply alike_bind; [apply alike_random | intros scores].
  apply alike_bind; [apply alike_lift | intros low].
  apply alike_bind; [|intros ?; apply alike_ret].
  repeat match goal with |- alike (if ?b then _ else _) _ => destruct b end;
    first [apply alike_lift | apply alike_ret].
Qed.

Lemma alike_audio_inference v :
  alike (_simulate_audio_inference v) (_simulate_audio_inference v).
Proof.
  unfold _simulate_audio_inference.
  apply alike_get_self. intros s1 s2 Hs. rewrite Hs.
  apply alike_bind; [apply alike_random | intros scores].
  apply alike_bind; [apply alike_lift | intros n].
  apply alike_bind; [|intros ?; apply alike_ret].
  destruct (20 <? n)%nat; [|apply alike_ret].
  apply alike_bind; [apply alike_lift | intros ?; apply alike_lift].
Qed.

Lemma alike_multimodal_inference txt v :
  alike (_simulate_multimodal_inference txt v)
        (_simulate_multimodal_inference txt v).
Proof.
  unfold _simulate_multimodal_inference.
  apply alike_bind; [apply alike_text_inference | intros ?].
  apply alike_bind; [apply alike_audio_inference | intros ?]. apply alike_ret.
Qed.

Lemma alike_scores_to_result model_used scores :
  alike (scores_to_result model_used scores)
        (scores_to_result model_used scores).
Proof.
  unfold scores_to_result.
  apply alike_get_self. intros s1 s2 Hs. rewrite Hs.
  apply alike_bind; [apply alike_lift | intros ?].
  apply alike_bind; [apply alike_lift | intros ?].
  apply alike_bind; [apply alike_lift | intros ?]. apply alike_ret.
Qed.

Lemma alike_detect_text txt :
  alike (detect_emotion_from_text txt) (detect_emotion_from_text txt).
Proof.
  apply alike_try_except.
  apply alike_bind; [apply alike_text_inference | intros ?].
  apply alike_scores_to_result.
Qed.

Lemma alike_detect_audio v :
  alike (detect_emotion_from_audio v) (detect_emotion_from_audio v).
Proof.
  apply alike_try_except.
  apply alike_bind; [apply alike_audio_inference | intros ?].
  apply alike_scores_to_result.
Qed.

Lemma alike_detect_multimodal txt v :
  alike (detect_emotion_multimodal txt v) (detect_emotion_multimodal txt v).
Proof.
  apply alike_try_except.
  apply alike_bind; [apply alike_multimodal_inference | intros ?].
  apply alike_scores_to_result.
Qed.

Lemma init_agree dir cfg cfg' g lg lg' :
  agree (World (init dir cfg) g lg) (World (init dir cfg') g lg').
Proof. split; simpl; [now rewrite !init_labels | reflexivity]. Qed.

(** *** Two runs on the same input *)

Lemma spike_stream_uniform ks : uniform_stream (spike_stream ks).
Proof. intros i. unfold spike_stream. destruct (existsb _ _); lra. Qed.

Ltac first_max_by_cases :=
  split; [reflexivity|]; split;
  [ repeat (apply List.Forall_cons; [simpl; lra|]); apply List.Forall_nil
  | let j := fresh "j" in
    let y := fresh "y" in
    let Hj := fresh "Hj" in
    let Hy := fresh "Hy" in
    intros j y Hj Hy;
    do 5 (destruct j as [|j];
          [first [lia | inversion Hy; subst; simpl; lra]|]); lia ].

Lemma spike_text_adjust s k :
  k = 2%nat \/ k = 4%nat ->
  Np.first_max (text_adjust s (spike k 13)) k 0.9.
Proof.
  unfold text_adjust, keyword_index.
  intros [-> | ->];
    repeat match goal with |- context [if ?b then _ else _] => destruct b end;
    first_max_by_cases.
Qed.

Lemma spike_audio_adjust n k :
  k = 2%nat \/ k = 4%nat ->
  Np.first_max (audio_adjust n (spike k 13)) k 0.9.
Proof.
  unfold audio_adjust.
  intros [-> | ->]; destruct (20 <? n)%nat; first_max_by_cases.
Qed.

Lemma text_run_spike svc g lg s k l :
  emotion_labels svc = configured_labels ->
  draws g 13 = spike k 13 ->
  k = 2%nat \/ k = 4%nat ->
  configured_labels !! k = Some l ->
  exists x scores,
    detect_emotion_from_text (PyStr s) (World svc g lg)
    = (inr (PyDict [ ("emotion", PyStr l); ("confidence", PyFloat x);
                     ("all_scores", scores);
                     ("model_used", PyStr "text_emotion_optimized") ]),
       World svc (advance g 13) lg).
Proof.
  intros Hlab Hdr Hk Hl. do 2 eexists.
  apply try_except_ok. unfold detect_emotion_from_text_body.
  unfold mbind at 1. unfold run_bind at 1.
  rewrite text_inference_str by (simpl; rewrite Hlab; simpl; lia).
  cbn [self np_random logged]. rewrite Hlab.
  change (length configured_labels) with 13%nat. rewrite Hdr.
  erewrite scores_to_result_ok.
  - reflexivity.
  - apply softmax_first_max, spike_text_adjust, Hk.
  - simpl. rewrite Hlab. exact Hl.
Qed.

Lemma audio_run_spike svc g lg v n k l :
  py_len v = inr n ->
  emotion_labels svc = configured_labels ->
  draws g 13 = spike k 13 ->
  k = 2%nat \/ k = 4%nat ->
  configured_labels !! k = Some l ->
  exists x scores,
    detect_emotion_from_audio v (World svc g lg)
    = (inr (PyDict [ ("emotion", PyStr l); ("confidence", PyFloat x);
                     ("all_scores", scores);
                     ("model_used", PyStr "audio_emotion_optimized") ]),
       World svc (advance g 13) lg).
Proof.
  intros Hv Hlab Hdr Hk Hl. do 2 eexists.
  apply try_except_ok. unfold detect_emotion_from_audio_body.
  unfold mbind at 1. unfold run_bind at 1.
  rewrite (audio_inference_len _ v n Hv) by (simpl; rewrite Hlab; simpl; lia).
  cbn [self np_random logged]. rewrite Hlab.
  change (length configured_labels) with 13%nat. rewrite Hdr.
  erewrite scores_to_result_ok.
  - reflexivity.
  - apply softmax_first_max, spike_audio_adjust, Hk.
  - simpl. rewrite Hlab. exact Hl.
Qed.

Lemma multimodal_run_spike svc g lg s v n k l :
  py_len v = inr n ->
  emotion_labels svc = configured_labels ->
  draws g 13 = spike k 13 ->
  draws (advance g 13) 13 = spike k 13 ->
  k = 2%nat \/ k = 4%nat ->
  configured_labels !! k = Some l ->
  exists x scores,
    detect_emotion_multimodal (PyStr s) v (World svc g lg)
    = (inr (PyDict [ ("emotion", PyStr l); ("confidence", PyFloat x);
                     ("all_scores", scores);
                     ("model_used", PyStr "multimodal_optimized") ]),
       World svc (advance (advance g 13) 13) lg).
Proof.
  intros Hv Hlab Hdr1 Hdr2 Hk Hl. do 2 eexists.
  apply try_except_ok. unfold detect_emotion_multimodal_body.
  unfold mbind at 1. unfold run_bind at 1.
  rewrite (multimodal_inference_ok _ s v n Hv) by (simpl; rewrite Hlab; simpl; lia).
  cbn [self np_random logged]. rewrite Hlab.
  change (length configured_labels) with 13%nat. rewrite Hdr1, Hdr2.
  erewrite scores_to_result_ok.
  - reflexivity.
  - apply axpby_first_max; apply softmax_first_max;
      [apply spike_text_adjust | apply spike_audio_adjust]; exact Hk.
  - simpl. rewrite Hlab. exact Hl.
Qed.

(** C1: the inference of the production service is simulated.  The text
    scores are the softmax of a fresh draw of [np.random.random], adjusted
    by the keyword heuristic (the audio scores likewise, adjusted by the
    number of features, and the multimodal scores their weighted sum);
    the result of a [detect_*] call is the same whatever models were
    loaded; and for every text (for every audio feature list, for every
    pair of both) some state of the generator makes two consecutive calls
    of the [detect_*] method return different results. *)
Theorem simulated_inference_differs_between_runs :
  forall dir cfg lg,
    (forall s features g,
        let w := World (init dir cfg) g lg in
        _simulate_text_inference (PyStr s) w
        = (inr (Np.softmax (text_adjust s (draws g 13))),
           World (init dir cfg) (advance g 13) lg)
        /\ _simulate_audio_inference (PyList features) w
           = (inr (Np.softmax (audio_adjust (length features) (draws g 13))),
              World (init dir cfg) (advance g 13) lg)
        /\ _simulate_multimodal_inference (PyStr s) (PyList features) w
           = (inr (Np.axpby
                     0.6 (Np.softmax (text_adjust s (draws g 13)))
                     0.4 (Np.softmax (audio_adjust (length features)
                                        (draws (advance g 13) 13)))),
              World (init dir cfg) (advance (advance g 13) 13) lg))
    /\ (forall cfg' txt features g,
           let w := World (init dir cfg) g lg in
           let w' := World (init dir cfg') g lg in
           fst (detect_emotion_from_text txt w')
           = fst (detect_emotion_from_text txt w)
           /\ fst (detect_emotion_from_audio features w')
              = fst (detect_emotion_from_audio features w)
           /\ fst (detect_emotion_multimodal txt features w')
              = fst (detect_emotion_multimodal txt features w))
    /\ (forall s, exists g d1 d2,
           uniform_stream g
           /\ twice (detect_emotion_from_text (PyStr s))
                    (World (init dir cfg) g lg) = (inr d1, inr d2)
           /\ d1 <> d2)
    /\ (forall features, exists g d1 d2,
           uniform_stream g
           /\ twice (detect_emotion_from_audio (PyList features))
                    (World (init dir cfg) g lg) = (inr d1, inr d2)
           /\ d1 <> d2)
    /\ (forall s features, exists g d1 d2,
           uniform_stream g
           /\ twice (detect_emotion_multimodal (PyStr s) (PyList features))
                    (World (init dir cfg) g lg) = (inr d1, inr d2)
           /\ d1 <> d2).
Proof.
  intros dir cfg lg.
  assert (Hlab := init_labels dir cfg).
  split; [|split; [|split; [|split]]].
  - intros s features g w.
    assert (H4 : (4 <= length (emotion_labels (self w)))%nat)
      by (subst w; simpl; rewrite Hlab; simpl; lia).
    split; [|split].
    + rewrite text_inference_str by exact H4.
      subst w. simpl. rewrite Hlab. reflexivity.
    + rewrite (audio_inference_len w (PyList features) (length features) eq_refl)
        by exact H4.
      subst w. simpl. rewrite Hlab. reflexivity.
    + rewrite (multimodal_inference_ok w s (PyList features) (length features)
                 eq_refl) by exact H4.
      subst w. simpl. rewrite Hlab. reflexivity.
  - intros cfg' txt features g w w'.
    assert (Hw : agree w' w) by apply init_agree.
    split; [|split].
    + apply (alike_detect_text txt w' w Hw).
    + apply (alike_detect_audio features w' w Hw).
    + apply (alike_detect_multimodal txt features w' w Hw).
  - intros s. set (g := spike_stream [2; 17]%nat).
    destruct (text_run_spike (init dir cfg) g lg s 2 "neutral" Hlab eq_refl
                (or_introl eq_refl) eq_refl) as (x1 & sc1 & H1).
    destruct (text_run_spike (init dir cfg) (advance g 13) lg s 4 "love" Hlab
                eq_refl (or_intror eq_refl) eq_refl) as (x2 & sc2 & H2).
    eexists g, _, _. split; [apply spike_stream_uniform|]. split.
    + unfold twice. rewrite H1. cbn [fst snd]. rewrite H2. reflexivity.
    + intros Heq. discriminate Heq.
  - intros features. set (g := spike_stream [2; 17]%nat).
    destruct (audio_run_spike (init dir cfg) g lg (PyList features) _ 2
                "neutral" eq_refl Hlab eq_refl (or_introl eq_refl) eq_refl)
      as (x1 & sc1 & H1).
    destruct (audio_run_spike (init dir cfg) (advance g 13) lg (PyList features)
                _ 4 "love" eq_refl Hlab eq_refl (or_intror eq_refl) eq_refl)
      as (x2 & sc2 & H2).
    eexists g, _, _. split; [apply spike_stream_uniform|]. split.
    + unfold twice. rewrite H1. cbn [fst snd]. rewrite H2. reflexivity.
    + intros Heq. discriminate Heq.
  - intros s features. set (g := spike_stream [2; 15; 30; 43]%nat).
    destruct (multimodal_run_spike (init dir cfg) g lg s (PyList features) _ 2
                "neutral" eq_refl Hlab eq_refl eq_refl (or_introl eq_refl)
                eq_refl) as (x1 & sc1 & H1).
    destruct (multimodal_run_spike (init dir cfg) (advance (advance g 13) 13) lg
                s (PyList features) _ 4 "love" eq_refl Hlab eq_refl eq_refl
                (or_intror eq_refl) eq_refl) as (x2 & sc2 & H2).
    eexists g, _, _. split; [apply spike_stream_uniform|]. split.
    + unfold twice. rewrite H1. cbn [fst snd]. rewrite H2. reflexivity.
    + intros Heq. discriminate Heq.
Qed.
End ServiceFacts.

(** ** The Node.js bridge *)

Section WrapperFacts.
Import Py EmotionServiceWrapper.
Local Open Scope list_scope.
Local Open Scope R_scope.
Context `{Json}.

Lemma main_wrong_argc g rng argv :
  length argv <> 3%nat ->
  main g rng argv
  = Outcome [PyDict [("error", PyStr "Invalid arguments")]] (inl (SystemExit 1)).
Proof.
  intros Hlen. destruct argv as [|a [|b [|c [|d argv]]]]; try reflexivity.
  simpl in Hlen. congruence.
Qed.

Lemma main_unavailable g rng script mode payload data :
  SERVICE_AVAILABLE g = false ->
  json_loads payload = inr data ->
  main g rng [script; mode; payload] = Outcome [fallback mode] (inr tt).
Proof. intros Hg Hp. unfold main. now rewrite Hp, Hg. Qed.

(** C10: when importing or constructing the production service failed, the
    module flag is off, and then [main] prints, for every mode and every
    payload that [json.loads] accepts, exactly the fixed fallback document
    (five scores that add up to 1, 'model_used' = mode + '_fallback') and
    returns, so the exit status is 0; with valid payloads the status is 1
    exactly when [sys.argv] does not have three entries. *)
Theorem bridge_degrades_to_fallback :
  forall (e : exn) (rng : nat -> R),
    is_Exception e = true ->
    exists g,
      import_block (inl e) = inr g
      /\ SERVICE_AVAILABLE g = false
      /\ (forall script mode payload data,
             json_loads payload = inr data ->
             main g rng [script; mode; payload]
             = Outcome
                 [PyDict [ ("emotion", PyStr "neutral");
                           ("confidence", PyFloat 0.5);
                           ("all_scores",
                             PyDict [ ("neutral", PyFloat 0.5);
                                      ("happiness", PyFloat 0.2);
                                      ("sadness", PyFloat 0.1);
                                      ("anger", PyFloat 0.1);
                                      ("love", PyFloat 0.1) ]);
                           ("model_used", PyStr (mode ++ "_fallback")%string) ]]
                 (inr tt)
             /\ exit_status (ended (main g rng [script; mode; payload])) = 0%Z)
      /\ 0.5 + 0.2 + 0.1 + 0.1 + 0.1 = 1
      /\ (forall argv,
             payload_valid argv ->
             (exit_status (ended (main g rng argv)) = 1%Z
              <-> length argv <> 3%nat)).
Proof.
  intros e rng He.
  assert (Hg : exists g, import_block (inl e) = inr g
                         /\ SERVICE_AVAILABLE g = false).
  { unfold import_block. rewrite He.
    destruct (is_ImportError e); eexists; split; reflexivity. }
  destruct Hg as (g & Himp & Hav). exists g.
  split; [exact Himp|]. split; [exact Hav|]. split; [|split].
  - intros script mode payload data Hp.
    rewrite (main_unavailable g rng script mode payload data Hav Hp).
    split; reflexivity.
  - lra.
  - intros argv Hvalid. split.
    + intros Hst Hlen.
      destruct argv as [|a [|b [|c [|d argv]]]]; simpl in Hlen; try lia.
      destruct (Hvalid a b c eq_refl) as [data Hp].
      rewrite (main_unavailable g rng a b c data Hav Hp) in Hst.
      discriminate Hst.
    + intros Hlen. now rewrite main_wrong_argc.
Qed.
End WrapperFacts.

(** With the service loaded, the 'status' mode prints the fixed status
    document, and a payload that is not an object ends in the error
    document of the [except] branch. *)
Example main_status_mode :
  @EmotionServiceWrapper.main EmotionServiceWrapper.empty_object_json
    (EmotionServiceWrapper.Globals true
       (Some (ProductionEmotionService.init "training/deployment" (inr None))) [])
    (fun _ => 0%R) ["emotion_service_wrapper.py"; "status"; "{}"]
  = EmotionServiceWrapper.Outcome [EmotionServiceWrapper.status_result] (inr tt).
Proof. reflexivity. Qed.

Example main_rejected_payload :
  EmotionServiceWrapper.exit_status
    (EmotionServiceWrapper.ended
       (@EmotionServiceWrapper.main EmotionServiceWrapper.empty_object_json
          (EmotionServiceWrapper.Globals false None []) (fun _ => 0%R)
          ["emotion_service_wrapper.py"; "text"; "{not json"]))
  = 1%Z.
Proof. reflexivity. Qed.

(** A run of the bridge after an [ImportError], with a payload that the
    parser accepts. *)
Lemma bridge_degrades_to_fallback_witness :
  Py.is_Exception (Py.ImportError "No module named 'torch'") = true
  /\ @json_loads EmotionServiceWrapper.empty_object_json "{}" = inr (Py.PyDict [])
  /\ exists g,
      EmotionServiceWrapper.import_block
        (inl (Py.ImportError "No module named 'torch'")) = inr g
      /\ EmotionServiceWrapper.SERVICE_AVAILABLE g = false
      /\ EmotionServiceWrapper.stdout
           (@EmotionServiceWrapper.main EmotionServiceWrapper.empty_object_json
              g (fun _ => 0%R) ["emotion_service_wrapper.py"; "text"; "{}"])
         = [EmotionServiceWrapper.fallback "text"].
Proof.
  split; [reflexivity|]. split; [reflexivity|].
  destruct (@bridge_degrades_to_fallback EmotionServiceWrapper.empty_object_json
              (Py.ImportError "No module named 'torch'") (fun _ => 0%R) eq_refl)
    as (g & Himp & Hav & Hmain & _).
  exists g. split; [exact Himp|]. split; [exact Hav|].
  destruct (Hmain "emotion_service_wrapper.py" "text" "{}" (Py.PyDict []) eq_refl)
    as [-> _].
  reflexivity.
Defined.

(** ** The networks *)

Section NetFacts.
Context `{TensorOps}.

(** C6: the logits of [MultimodalEmotionModel.forward] are the fusion
    network applied to the concatenation of the text model's BERT pooler
    output with the last LSTM hidden state of the audio model, computed by
    the audio model's own conv1, conv2, pool and lstm; replacing the
    dropout and classifier heads of either model changes nothing; and the
    audio model's own forward pass classifies that same hidden state. *)
Theorem multimodal_forward_fuses_submodules :
  forall (tm : TextEmotionModel.t) (am : AudioEmotionModel.t)
         (fusion : Tensor -> Tensor)
         (input_ids attention_mask audio_features : Tensor),
    let m := MultimodalEmotionModel.init tm am fusion in
    let hidden :=
      fst (snd (AudioEmotionModel.lstm am
                  (permute
                     (AudioEmotionModel.pool am
                        (relu (AudioEmotionModel.conv2 am
                                 (relu (AudioEmotionModel.conv1 am
                                          (unsqueeze audio_features 1))))))
                     (0, 2, 1)%nat))) in
    MultimodalEmotionModel.forward m input_ids attention_mask audio_features
    = fusion (cat [ pooler_output
                      (TextEmotionModel.bert tm input_ids attention_mask);
                    last hidden ] 1)
    /\ (forall text_dropout text_classifier audio_dropout audio_classifier,
           MultimodalEmotionModel.forward
             (MultimodalEmotionModel.init
                (TextEmotionModel.Build (TextEmotionModel.bert tm)
                                        text_dropout text_classifier)
                (AudioEmotionModel.Build
                   (AudioEmotionModel.conv1 am) (AudioEmotionModel.conv2 am)
                   (AudioEmotionModel.pool am) (AudioEmotionModel.lstm am)
                   audio_dropout audio_classifier)
                fusion)
             input_ids attention_mask audio_features
           = MultimodalEmotionModel.forward m input_ids attention_mask
                                            audio_features)
    /\ AudioEmotionModel.forward am audio_features
       = AudioEmotionModel.classifier am
           (AudioEmotionModel.dropout am (last hidden)).
Proof.
  intros tm am fusion input_ids attention_mask audio_features m hidden.
  subst m hidden.
  unfold MultimodalEmotionModel.forward, AudioEmotionModel.forward,
    MultimodalEmotionModel.init. simpl.
  destruct (AudioEmotionModel.lstm am _) as [lstm_out [hidden cell]]. simpl.
  repeat split.
Qed.

End NetFacts.

(** ** The training loops *)

Section LoopFacts.
Import Py EmotionTrainer.
Local Open Scope list_scope.
Context `{Learner}.

Lemma initial_inv checkpoint m dir :
  loop_inv checkpoint dir (initial_state m dir).
Proof.
  repeat split; simpl.
  - apply Qle_refl.
  - constructor.
  - exists [], []. auto.
  - intros Hlt. now apply Qlt_irrefl in Hlt.
Qed.

(** The two ways through the body of the loop. *)
Lemma epoch_body_cases checkpoint patience epoch s :
  let m := fst (train_phase epoch (model s)) in
  let loss := snd (train_phase epoch (model s)) in
  ((best_val_acc s < val_accuracy m)%Q
   /\ epoch_body checkpoint patience epoch s
      = (LoopState m (val_accuracy m) 0 (train_losses s ++ [loss])
           (val_accuracies s ++ [val_accuracy m])
           (<[checkpoint := state_dict m]> (models_dir s)), false))
  \/ ((val_accuracy m <= best_val_acc s)%Q
      /\ epoch_body checkpoint patience epoch s
         = (LoopState m (best_val_acc s) (patience_counter s + 1)
              (train_losses s ++ [loss]) (val_accuracies s ++ [val_accuracy m])
              (models_dir s),
            bool_decide (patience <= patience_counter s + 1)%Z)).
Proof.
  intros m loss. subst m loss. unfold epoch_body.
  destruct (train_phase epoch (model s)) as [m loss]. simpl.
  destruct (Qlt_le_dec (best_val_acc s) (val_accuracy m)); [left | right]; auto.
Qed.

Lemma improved_inv checkpoint dir s m loss :
  loop_inv checkpoint dir s ->
  (best_val_acc s < val_accuracy m)%Q ->
  loop_inv checkpoint dir
    (LoopState m (val_accuracy m) 0 (train_losses s ++ [loss])
       (val_accuracies s ++ [val_accuracy m])
       (<[checkpoint := state_dict m]> (models_dir s))).
Proof.
  intros ((H0 & Hall) & _ & _) Hlt.
  assert (Hpos : (0 < val_accuracy m)%Q) by (eapply Qle_lt_trans; eauto).
  repeat split; simpl.
  - now apply Qlt_le_weak.
  - apply Forall_app. split.
    + eapply Forall_impl; [exact Hall|]. intros a Ha. simpl in Ha.
      apply Qlt_le_weak. eapply Qle_lt_trans; eauto.
    + constructor; [apply Qle_refl | constructor].
  - exists (val_accuracies s ++ [val_accuracy m]), [].
    split; [now rewrite app_nil_r|]. split; [reflexivity|].
    right. exists (val_accuracies s). reflexivity.
  - intros _. exists m. split; [apply lookup_insert_eq|]. split; [reflexivity|].
    apply in_or_app. right. now left.
  - intros Hn. contradiction.
Qed.

Lemma waiting_inv checkpoint dir s m loss :
  loop_inv checkpoint dir s ->
  (val_accuracy m <= best_val_acc s)%Q ->
  loop_inv checkpoint dir
    (LoopState m (best_val_acc s) (patience_counter s + 1)
       (train_losses s ++ [loss]) (val_accuracies s ++ [val_accuracy m])
       (models_dir s)).
Proof.
  intros ((H0 & Hall) & (pre & post & Hv & Hc & Hpre) & (Hck & Hdir)) Hle.
  repeat split; simpl.
  - exact H0.
  - apply Forall_app. split; [exact Hall|]. constructor; [exact Hle | constructor].
  - exists pre, (post ++ [val_accuracy m]). split; [|split].
    + rewrite Hv. now rewrite <- app_assoc.
    + rewrite length_app. simpl. lia.
    + exact Hpre.
  - intros Hpos. destruct (Hck Hpos) as (m' & Hm' & Hacc & Hin).
    exists m'. split; [exact Hm' | split; [exact Hacc|]].
    apply in_or_app. now left.
  - exact Hdir.
Qed.

(** The loop as a whole: it follows the early-stopping rules, keeps the
    invariant, and an early exit means the counter reached the patience. *)
Lemma for_epochs_spec checkpoint dir patience epochs :
  forall s,
    loop_inv checkpoint dir s ->
    still_waiting patience s ->
    let s' := for_epochs checkpoint patience epochs s in
    early_stopping checkpoint patience epochs s s'
    /\ loop_inv checkpoint dir s'
    /\ (length (val_accuracies s')
        <= length (val_accuracies s) + length epochs)%nat
    /\ ((length (val_accuracies s')
         < length (val_accuracies s) + length epochs)%nat ->
        (patience <= patience_counter s')%Z
        /\ ((1 <= patience)%Z -> patience_counter s' = patience)).
Proof.
  induction epochs as [|epoch rest IH]; intros s Hinv Hwait; simpl.
  - split; [constructor | split; [exact Hinv | split; [lia | intros; lia]]].
  - destruct (epoch_body_cases checkpoint patience epoch s)
      as [[Hlt Hbody] | [Hle Hbody]]; rewrite Hbody; clear Hbody.
    + set (s1 := LoopState _ _ _ _ _ _).
      destruct (IH s1) as (Hes & Hinv' & Hlen & Hstop).
      { now apply improved_inv. }
      { left. reflexivity. }
      split; [|split; [exact Hinv' | split]].
      * eapply es_improved; [apply surjective_pairing | exact Hlt | exact Hes].
      * subst s1. simpl in Hlen. rewrite length_app in Hlen. simpl in Hlen. lia.
      * intros Hshort. apply Hstop.
        subst s1. simpl. rewrite length_app. simpl. lia.
    + destruct (bool_decide_reflect (patience <= patience_counter s + 1)%Z)
        as [Hstop | Hgo].
      * split; [|split; [|split]].
        -- eapply es_halted; [apply surjective_pairing | exact Hle | exact Hstop].
        -- now apply waiting_inv.
        -- simpl. rewrite length_app. simpl. lia.
        -- intros _. simpl. split; [exact Hstop|].
           intros Hp. destruct Hwait as [Hz | Hc]; lia.
      * set (s1 := LoopState _ _ _ _ _ _).
        destruct (IH s1) as (Hes & Hinv' & Hlen & Hstop).
        { now apply waiting_inv. }
        { right. simpl. lia. }
        split; [|split; [exact Hinv' | split]].
        -- eapply es_waiting;
             [apply surjective_pairing | exact Hle | lia | exact Hes].
        -- subst s1. simpl in Hlen. rewrite length_app in Hlen. simpl in Hlen. lia.
        -- intros Hshort. apply Hstop.
           subst s1. simpl. rewrite length_app. simpl. lia.
Qed.



End LoopFacts.

Section CountingLearner.
Import Py EmotionTrainer.
Local Open Scope list_scope.
#[local] Existing Instance counting_learner.

(** Ten configured epochs with patience 2 on the counting learner: the
    accuracy peaks after the second epoch, the loop stops after the
    fourth, and the second epoch's weights are the ones tested. *)
Example text_training_run :
  train_text_emotion_model (Config 10 10 2) 0%nat ∅
  = inr (2%nat,
         History [1 # 2; 1 # 2; 1 # 2; 1 # 2] [1 # 2; 3 # 4; 1 # 2; 1 # 2]
                 (3 # 4) (7 # 10)).
Proof. vm_compute. reflexivity. Qed.


End CountingLearner.

Section FlatLearner.
Import Py EmotionTrainer.
Local Open Scope list_scope.
#[local] Existing Instance flat_learner.


End FlatLearner.

(** ** Balancing the classes *)

Section UniqueFacts.
Import EmotionDataProcessor.
Local Open Scope list_scope.

Lemma unique_from_spec {A : Type} `{EqDecision A} (seen l : list A) (x : A) :
  In x (unique_from seen l) <-> In x l /\ ~ In x seen.
Proof.
  revert seen. induction l as [|y l IH]; intros seen; simpl.
  - tauto.
  - destruct (existsb (fun z => bool_decide (y = z)) seen) eqn:Hy.
    + apply existsb_exists in Hy as (z & Hz & Heq).
      apply bool_decide_eq_true in Heq. subst z. rewrite IH.
      split; [tauto|]. intros [[-> | Hin] Hns]; tauto.
    + assert (Hny : ~ In y seen).
      { intros Hin. apply Bool.not_true_iff_false in Hy. apply Hy.
        apply existsb_exists. exists y.
        split; [exact Hin | now apply bool_decide_eq_true]. }
      simpl. rewrite IH. simpl.
      destruct (decide (y = x)) as [-> | Hne]; [tauto|]. tauto.
Qed.

Lemma unique_from_nodup {A : Type} `{EqDecision A} (seen l : list A) :
  List.NoDup (unique_from seen l).
Proof.
  revert seen. induction l as [|y l IH]; intros seen; simpl.
  - constructor.
  - destruct (existsb (fun z => bool_decide (y = z)) seen); [apply IH|].
    constructor; [|apply IH].
    rewrite unique_from_spec. simpl. tauto.
Qed.

Lemma unique_in {A : Type} `{EqDecision A} (l : list A) (x : A) :
  In x (unique l) <-> In x l.
Proof. unfold unique. rewrite unique_from_spec. simpl. tauto. Qed.

Lemma unique_nodup {A : Type} `{EqDecision A} (l : list A) :
  List.NoDup (unique l).
Proof. apply unique_from_nodup. Qed.

Lemma emotion_eqb_true a e :
  emotion_eqb a e = true <-> a = e /\ e <> None.
Proof.
  destruct a as [a|], e as [e|]; simpl;
    try (split; [discriminate | intros [Heq Hne]; congruence]).
  rewrite String.eqb_eq. split.
  - intros ->. split; [reflexivity | discriminate].
  - intros [[= ->] _]. reflexivity.
Qed.

Lemma of_class_in e df r :
  In r (of_class e df) <-> In r df /\ emotion r = e /\ e <> None.
Proof.
  unfold of_class. rewrite filter_In. now rewrite emotion_eqb_true.
Qed.

Lemma of_class_missing df : of_class None df = [].
Proof.
  unfold of_class. induction df as [|r df IH]; simpl; [reflexivity|].
  destruct (emotion r); exact IH.
Qed.

Lemma of_class_nonempty e df :
  e <> None -> In e (map emotion df) -> of_class e df <> [].
Proof.
  intros Hsome Hin. apply in_map_iff in Hin as (r & He & Hr).
  intros Hnil. assert (Hr' : In r (of_class e df)) by (apply of_class_in; auto).
  rewrite Hnil in Hr'. contradiction.
Qed.

Lemma of_class_all e b :
  (forall r, In r b -> emotion r = e /\ e <> None) -> of_class e b = b.
Proof.
  intros Hall. unfold of_class. induction b as [|r b IH]; simpl; [reflexivity|].
  rewrite (proj2 (emotion_eqb_true _ _) (Hall r (or_introl eq_refl))).
  f_equal. apply IH. intros r' Hr'. apply Hall. now right.
Qed.

Lemma of_class_none e e' b :
  e <> e' -> (forall r, In r b -> emotion r = e') -> of_class e b = [].
Proof.
  intros Hne Hall. unfold of_class. induction b as [|r b IH]; simpl; [reflexivity|].
  destruct (emotion_eqb (emotion r) e) eqn:Heq.
  - apply emotion_eqb_true in Heq as [Heq _].
    rewrite (Hall r (or_introl eq_refl)) in Heq. congruence.
  - apply IH. intros r' Hr'. apply Hall. now right.
Qed.

Lemma of_class_app e a b : of_class e (a ++ b) = of_class e a ++ of_class e b.
Proof. unfold of_class. apply List.filter_app. Qed.

Lemma of_class_perm e a b :
  Permutation a b -> Permutation (of_class e a) (of_class e b).
Proof.
  unfold of_class. induction 1; simpl.
  - constructor.
  - destruct (emotion_eqb (emotion x) e); [now constructor | assumption].
  - destruct (emotion_eqb (emotion x) e), (emotion_eqb (emotion y) e);
      try reflexivity; constructor.
  - etransitivity; eassumption.
Qed.

End UniqueFacts.

Section BalancingFacts.
Import Py EmotionDataProcessor.
Local Open Scope list_scope.
Context (P : Pandas) (L : PandasLaws P).

Lemma balance_class_ok n cls :
  (0 <= n)%Z -> cls <> [] \/ n = 0%Z ->
  exists b, balance_class n cls = inr b /\ rebalanced n cls b.
Proof using L.
  intros Hn Hne. unfold balance_class.
  destruct (Z.ltb_spec n (Z.of_nat (length cls))) as [Hlt | Hge].
  - destruct (Z.ltb_spec n 0) as [Hneg | _]; [lia|].
    destruct (sample_sub (Z.to_nat n) cls) as (rest & Hperm & Hlen); [lia|].
    eexists. split; [reflexivity|]. split; [exact Hlen|]. split; [|split].
    + intros r Hr. eapply Permutation_in; [symmetry; exact Hperm|].
      apply in_or_app. now left.
    + intros _. exists rest. exact Hperm.
    + intros Hle. lia.
  - destruct (Z.ltb_spec 0 (n - Z.of_nat (length cls))) as [Hpos | Hzero].
    + destruct cls as [|r0 cls0] eqn:Hcls;
        [destruct Hne as [Hne | Hne]; [congruence | simpl in Hpos; lia]|].
      rewrite <- Hcls in *.
      assert (Hne' : cls <> []) by (rewrite Hcls; discriminate).
      replace (match cls with
               | [] => inl (ValueError
                              "a must be greater than 0 unless no samples are taken")
               | _ :: _ =>
                   inr (cls ++ sample_replace
                                 (Z.to_nat (n - Z.of_nat (length cls))) cls)
               end)
        with (inr (cls ++ sample_replace
                            (Z.to_nat (n - Z.of_nat (length cls))) cls)
              : exn + list row)
        by (rewrite Hcls; reflexivity).
      eexists. split; [reflexivity|]. split; [|split; [|split]].
      * rewrite length_app, sample_replace_len by exact Hne'. lia.
      * intros r Hr. apply in_app_or in Hr as [Hr | Hr]; [exact Hr|].
        eapply sample_replace_in; exact Hr.
      * intros Hlt. lia.
      * intros _. eexists. split; [reflexivity|].
        intros r Hr. eapply sample_replace_in; exact Hr.
    + eexists. split; [reflexivity|]. split; [lia|]. split; [|split].
      * auto.
      * intros Hlt. lia.
      * intros _. exists []. rewrite app_nil_r. split; [reflexivity|].
        intros r [].
Qed.

(** Whatever [balance_class] raises is a [ValueError]. *)
Lemma balance_class_raises n cls e :
  balance_class n cls = inl e -> exists msg, e = ValueError msg.
Proof.
  unfold balance_class.
  destruct (n <? Z.of_nat (length cls))%Z.
  - destruct (n <? 0)%Z; [|discriminate]. intros [= <-]. eauto.
  - destruct (0 <? n - Z.of_nat (length cls))%Z; [|discriminate].
    destruct cls; [|discriminate]. intros [= <-]. eauto.
Qed.

Lemma balance_class_negative n cls :
  (n < 0)%Z -> exists msg, balance_class n cls = inl (ValueError msg).
Proof.
  intros Hn. unfold balance_class.
  destruct (Z.ltb_spec n (Z.of_nat (length cls))) as [_ | Hge]; [|lia].
  destruct (Z.ltb_spec n 0) as [_ | Hge]; [eauto | lia].
Qed.

Lemma balance_class_empty n :
  (0 < n)%Z -> exists msg, balance_class n [] = inl (ValueError msg).
Proof.
  intros Hn. unfold balance_class. cbn [length].
  destruct (Z.ltb_spec n (Z.of_nat 0)) as [Hneg | _]; [simpl in Hneg; lia|].
  destruct (Z.ltb_spec 0 (n - Z.of_nat 0)) as [_ | Hle];
    [eauto | simpl in Hle; lia].
Qed.

Lemma balance_classes_raises n df es e :
  balance_classes n df es = inl e -> exists msg, e = ValueError msg.
Proof.
  induction es as [|e0 es IH]; simpl; [discriminate|].
  destruct (balance_class n (of_class e0 df)) as [e1 | b] eqn:Hb.
  - intros [= <-]. eapply balance_class_raises, Hb.
  - destruct (balance_classes n df es) as [e2 | bs]; [|discriminate].
    intros [= <-]. now apply IH.
Qed.

(** With a positive class size, a missing emotion among the classes makes
    the loop raise. *)
Lemma balance_classes_missing n df es :
  (0 < n)%Z -> In None es ->
  exists msg, balance_classes n df es = inl (ValueError msg).
Proof.
  intros Hn. induction es as [|e0 es IH]; simpl; [tauto|]. intros Hin.
  destruct (balance_class n (of_class e0 df)) as [e1 | b] eqn:Hb.
  - destruct (balance_class_raises _ _ _ Hb) as [msg ->]. eauto.
  - destruct Hin as [-> | Hin].
    + rewrite of_class_missing in Hb.
      destruct (balance_class_empty n Hn) as [msg Hmsg]. congruence.
    + destruct (IH Hin) as [msg ->]. eauto.
Qed.

Lemma balance_classes_ok n df es :
  (0 <= n)%Z ->
  (forall e, In e es -> In e (map emotion df) /\ (e <> None \/ n = 0%Z)) ->
  exists blocks,
    balance_classes n df es = inr blocks
    /\ Forall2 (fun e b => rebalanced n (of_class e df) b) es blocks.
Proof using L.
  intros Hn. induction es as [|e es IH]; intros Hes; simpl.
  - exists []. split; [reflexivity | constructor].
  - destruct (balance_class_ok n (of_class e df) Hn) as (b & Hb & Hreb).
    { destruct (Hes e (or_introl eq_refl)) as [Hin [Hsome | Hzero]];
        [left; now apply of_class_nonempty | now right]. }
    destruct IH as (blocks & Hbs & Hall).
    { intros e' He'. apply Hes. now right. }
    rewrite Hb, Hbs. exists (b :: blocks). split; [reflexivity|].
    constructor; assumption.
Qed.

Lemma block_emotion n e df b r :
  rebalanced n (of_class e df) b -> In r b ->
  In r df /\ emotion r = e /\ e <> None.
Proof. intros (_ & Hin & _) Hr. apply of_class_in, Hin, Hr. Qed.

Lemma concat_length_blocks n df es blocks :
  Forall2 (fun e b => rebalanced n (of_class e df) b) es blocks ->
  length (concat blocks) = (Z.to_nat n * length es)%nat.
Proof.
  induction 1 as [|e b es blocks Hb _ IH]; simpl; [lia|].
  rewrite length_app, IH. destruct Hb as (-> & _). lia.
Qed.

Lemma of_class_absent n df es blocks e :
  Forall2 (fun e b => rebalanced n (of_class e df) b) es blocks ->
  ~ In e es -> of_class e (concat blocks) = [].
Proof.
  induction 1 as [|e' b es blocks Hb _ IH]; simpl; intros Hnin; [reflexivity|].
  rewrite of_class_app, IH by tauto. rewrite app_nil_r.
  apply of_class_none with (e' := e'); [intros ->; tauto|].
  intros r Hr. eapply block_emotion; eauto.
Qed.

Lemma of_class_block n df es blocks e :
  Forall2 (fun e b => rebalanced n (of_class e df) b) es blocks ->
  List.NoDup es -> In e es ->
  rebalanced n (of_class e df) (of_class e (concat blocks)).
Proof.
  induction 1 as [|e' b es blocks Hb Hall IH]; simpl; intros Hnd Hin; [tauto|].
  inversion Hnd as [|? ? Hnin Hnd']; subst. rewrite of_class_app.
  destruct (decide (e' = e)) as [-> | Hne].
  - rewrite (of_class_absent _ _ _ _ _ Hall Hnin), app_nil_r.
    rewrite (of_class_all e b); [exact Hb|].
    intros r Hr. eapply block_emotion; eauto.
  - rewrite (of_class_none e e' b); [|congruence|].
    + simpl. apply IH; [exact Hnd' | tauto].
    + intros r Hr. eapply block_emotion; eauto.
Qed.

Lemma concat_in_blocks n df es blocks r :
  Forall2 (fun e b => rebalanced n (of_class e df) b) es blocks ->
  In r (concat blocks) -> In r df.
Proof.
  induction 1 as [|e b es blocks Hb _ IH]; simpl; [tauto|].
  intros Hr. apply in_app_or in Hr as [Hr | Hr]; [|auto].
  eapply block_emotion; eauto.
Qed.

(** C4, as amended.  For a dataframe with at least one row and a
    non-negative [max_samples_per_class] [n], with no emotion missing
    unless [n] is 0, [create_balanced_dataset] returns a dataframe in
    which every class of the input has exactly [n] rows (a class above
    [n] thinned out, a class at or below it kept and padded with copies
    of its own rows); the result has [n] rows times the number of classes,
    and each of its rows is a row of the input, so no class is new.  On
    every other input, that is on the empty dataframe, with a negative
    [n], and with a positive [n] and a row whose emotion is missing, the
    function raises [ValueError]. *)
Theorem balanced_dataset_has_n_rows_per_class :
  forall (df : list row) (n : Z),
    (df <> [] -> (0 <= n)%Z ->
     n = 0%Z \/ Forall (fun r => emotion r <> None) df ->
     exists out,
       create_balanced_dataset df n = inr out
       /\ (forall e, In e (map emotion df) ->
             class_count e out = Z.to_nat n
             /\ exists b, Permutation (of_class e out) b
                          /\ rebalanced n (of_class e df) b)
       /\ length out = (Z.to_nat n * length (unique (map emotion df)))%nat
       /\ (forall r, In r out -> In r df))
    /\ (df = [] \/ (n < 0)%Z
        \/ ((0 < n)%Z /\ Exists (fun r => emotion r = None) df) ->
        exists msg, create_balanced_dataset df n = inl (ValueError msg)).
Proof using L.
  intros df n. split.
  - intros Hne Hn Hok. unfold create_balanced_dataset.
    destruct (balance_classes_ok n df (unique (map emotion df)) Hn)
      as (blocks & Hbs & Hall).
    { intros e He. apply (proj1 (unique_in _ e)) in He. split; [exact He|].
      destruct Hok as [Hzero | Hpresent]; [now right | left].
      apply in_map_iff in He as (r & <- & Hr).
      rewrite List.Forall_forall in Hpresent. now apply Hpresent. }
    rewrite Hbs.
    assert (Hblocks : pd_concat blocks = inr (concat blocks)).
    { destruct blocks as [|b blocks]; [|reflexivity].
      inversion Hall as [Hes|]. destruct df as [|r df]; [congruence|].
      assert (Hin : In (emotion r) (unique (map emotion (r :: df))))
        by (apply unique_in; now left).
      rewrite <- Hes in Hin. contradiction. }
    rewrite Hblocks. eexists. split; [reflexivity|].
    assert (Hperm := sample_frac_1_perm (concat blocks)).
    split; [|split].
    + intros e He.
      assert (Hreb := of_class_block n df _ blocks e Hall
                        (unique_nodup _) (proj2 (unique_in _ e) He)).
      assert (Hpe := of_class_perm e _ _ Hperm).
      split.
      * unfold class_count. rewrite (Permutation_length Hpe). apply Hreb.
      * eexists. split; [exact Hpe | exact Hreb].
    + rewrite (Permutation_length Hperm).
      apply (concat_length_blocks n df _ blocks Hall).
    + intros r Hr. eapply concat_in_blocks; [exact Hall|].
      eapply Permutation_in; [exact Hperm | exact Hr].
  - intros Hbad. unfold create_balanced_dataset.
    destruct Hbad as [-> | [Hneg | [Hpos Hmissing]]].
    + simpl. eauto.
    + destruct (unique (map emotion df)) as [|e es] eqn:Hu.
      * simpl. eauto.
      * simpl. destruct (balance_class_negative n (of_class e df) Hneg)
          as [msg ->]. eauto.
    + destruct (balance_classes_missing n df (unique (map emotion df)) Hpos)
        as [msg ->]; [|eauto].
      apply unique_in. apply List.Exists_exists in Hmissing as (r & Hr & <-).
      now apply in_map.
Qed.

End BalancingFacts.

(** The stand-in for pandas obeys the laws. *)
Section HeadPandas.
Import EmotionDataProcessor.
Local Open Scope list_scope.

Lemma cycle_length n cur df : df <> [] -> length (cycle n cur df) = n.
Proof.
  intros Hne. revert cur. induction n as [|n IH]; intros cur; simpl; [reflexivity|].
  destruct cur as [|r rest]; [destruct df as [|r rest]; [congruence|]|];
    simpl; now rewrite IH.
Qed.

Lemma cycle_in n cur df r :
  (forall x, In x cur -> In x df) -> In r (cycle n cur df) -> In r df.
Proof.
  revert cur. induction n as [|n IH]; intros cur Hcur; simpl; [tauto|].
  destruct cur as [|c rest].
  - destruct df as [|d rest]; simpl; [tauto|].
    intros [<- | Hr]; [now left|].
    apply (IH rest); [|exact Hr]. intros x Hx. now right.
  - simpl. intros [<- | Hr]; [apply Hcur; now left|].
    apply (IH rest); [|exact Hr]. intros x Hx. apply Hcur. now right.
Qed.

Lemma head_pandas_laws : PandasLaws head_pandas.
Proof.
  split; simpl.
  - intros n df Hn. exists (skipn n df). split.
    + now rewrite firstn_skipn.
    + apply firstn_length_le, Hn.
  - intros n df Hne. now apply cycle_length.
  - intros n df r Hr. eapply cycle_in; [|exact Hr]. auto.
  - reflexivity.
Qed.

(** Balancing on the stand-in: the larger class is cut to its first two
    rows, the smaller one is padded with a copy of its only row. *)
Example balanced_dataset_run :
  @create_balanced_dataset head_pandas
    [ Row "this is great" (Some "happiness") None;
      Row "this is awful" (Some "sadness") None;
      Row "what a wonderful day" (Some "happiness") None;
      Row "so happy right now" (Some "happiness") None ] 2
  = inr [ Row "this is great" (Some "happiness") None;
          Row "what a wonderful day" (Some "happiness") None;
          Row "this is awful" (Some "sadness") None;
          Row "this is awful" (Some "sadness") None ].
Proof. reflexivity. Qed.

(** Three rows of two classes, balanced to two rows per class. *)
Lemma balanced_dataset_witness :
  let df := [ Row "this is great" (Some "happiness") None;
              Row "this is awful" (Some "sadness") None;
              Row "what a wonderful day" (Some "happiness") None ] in
  df <> [] /\ (0 <= 2)%Z
  /\ Forall (fun r => emotion r <> None) df
  /\ exists out,
      @create_balanced_dataset head_pandas df 2 = inr out
      /\ length out = 4%nat
      /\ class_count (Some "happiness") out = 2%nat
      /\ class_count (Some "sadness") out = 2%nat.
Proof.
  intros df.
  assert (Hne : df <> []) by discriminate.
  assert (Hn : (0 <= 2)%Z) by lia.
  assert (Hpresent : Forall (fun r => emotion r <> None) df)
    by (repeat constructor; discriminate).
  split; [exact Hne|]. split; [exact Hn|]. split; [exact Hpresent|].
  destruct (balanced_dataset_has_n_rows_per_class head_pandas head_pandas_laws
              df 2) as [Hreturns _].
  destruct (Hreturns Hne Hn (or_intror Hpresent))
    as (out & Hout & Hcls & Hlen & _).
  exists out. split; [exact Hout|]. split; [exact Hlen|]. split.
  - apply Hcls. simpl. auto.
  - apply Hcls. simpl. auto.
Defined.

(** C4 as stated fails: an empty dataframe leaves nothing to concatenate,
    a negative class size is refused by the sampler, and a class of rows
    whose emotion is missing is empty and cannot be sampled from, so in
    the three cases the function raises instead of returning a
    dataframe. *)
Lemma balanced_dataset_counterexample :
  @create_balanced_dataset head_pandas [] 5
  = inl (Py.ValueError "No objects to concatenate")
  /\ @create_balanced_dataset head_pandas
       [Row "not good at all" (Some "sadness") None] (-1)
     = inl (Py.ValueError "A negative number of rows requested")
  /\ @create_balanced_dataset head_pandas
       [ Row "not good at all" (Some "sadness") None;
         Row "no label on this one" None None ] 2
     = inl (Py.ValueError "a must be greater than 0 unless no samples are taken")
  /\ ~ (exists out, @create_balanced_dataset head_pandas [] 5 = inr out
                    /\ length out = (5 * 0)%nat).
Proof.
  split; [reflexivity|]. split; [reflexivity|]. split; [reflexivity|].
  intros (out & Hout & _). discriminate Hout.
Qed.

End HeadPandas.

(** ** Splitting the data *)

Section SplittingFacts.
Import Py EmotionDataProcessor.
Local Open Scope list_scope.
Context (S : Sklearn) (L : SklearnLaws S).

Lemma with_labels_length df : length (with_labels df) = length df.
Proof. unfold with_labels. apply length_map. Qed.

Lemma with_labels_columns df :
  map text (with_labels df) = map text df
  /\ map emotion (with_labels df) = map emotion df.
Proof.
  unfold with_labels. rewrite !map_map. simpl. split; reflexivity.
Qed.

(** C5, as amended.  When [prepare_training_data] returns, the train,
    validation and test frames partition the labelled input rows (each
    row lands in exactly one of them); the test frame has
    [ceil(test_size * N)] rows and the validation frame
    [ceil(val_size / (1 - test_size) * (N - n_test))] rows, where the
    difference, the quotient and the two products are float64 operations,
    as in the code.  A dataframe of fewer than two rows makes it raise
    [ValueError]. *)
Theorem data_splits_partition_with_rounded_sizes :
  forall (df : list row) (test_size val_size : Float64.float),
    (forall splits : data_splits,
        prepare_training_data df test_size val_size = inr splits ->
        Permutation (with_labels df)
                    (train splits ++ val splits ++ test splits)
        /\ (List.NoDup (with_labels df) ->
            forall r, ~ (In r (train splits) /\ In r (val splits))
                      /\ ~ (In r (train splits) /\ In r (test splits))
                      /\ ~ (In r (val splits) /\ In r (test splits)))
        /\ Float64.ceil (PrimFloat.mul test_size (Float64.of_nat (length df)))
           = Some (Z.of_nat (length (test splits)))
        /\ Float64.ceil
             (PrimFloat.mul
                (PrimFloat.div val_size
                               (PrimFloat.sub (Float64.of_nat 1) test_size))
                (Float64.of_nat (length df - length (test splits))))
           = Some (Z.of_nat (length (val splits)))
        /\ (length (train splits) + length (val splits)
            + length (test splits) = length df)%nat)
    /\ ((length df <= 1)%nat ->
        exists msg,
          prepare_training_data df test_size val_size = inl (ValueError msg)).
Proof using L.
  intros df ts vs. split.
  - intros splits Hrun. unfold prepare_training_data in Hrun.
    destruct (train_test_split ts (with_labels df)) as [err | [tv te]] eqn:H1;
      [discriminate|].
    destruct (PrimFloat.eqb _ _); [discriminate|].
    destruct (train_test_split _ tv) as [err | [tr va]] eqn:H2; [discriminate|].
    inversion Hrun; subst splits; clear Hrun. simpl.
    assert (P1 := split_partition _ _ _ _ H1).
    assert (P2 := split_partition _ _ _ _ H2).
    assert (N1 := split_n_test _ _ _ _ H1).
    assert (N2 := split_n_test _ _ _ _ H2).
    rewrite with_labels_length in N1.
    assert (Hlen1 : (length tv + length te = length df)%nat).
    { apply Permutation_length in P1.
      rewrite with_labels_length, length_app in P1. lia. }
    assert (Hlen2 : (length tr + length va = length tv)%nat).
    { apply Permutation_length in P2. rewrite length_app in P2. lia. }
    assert (Hall : Permutation (with_labels df) (tr ++ va ++ te)).
    { rewrite P1, P2. now rewrite <- app_assoc. }
    split; [exact Hall|]. split; [|split; [exact N1 | split]].
    + intros Hnd r.
      assert (Hnd' : List.NoDup (tr ++ va ++ te))
        by (eapply Permutation_NoDup; eauto).
      apply NoDup_ListNoDup in Hnd'.
      apply NoDup_app in Hnd' as (_ & Hd1 & Hnd'').
      apply NoDup_app in Hnd'' as (_ & Hd2 & _).
      rewrite <- !list_elem_of_In.
      repeat split; intros [Ha Hb].
      * apply (Hd1 r Ha). apply elem_of_app. now left.
      * apply (Hd1 r Ha). apply elem_of_app. now right.
      * apply (Hd2 r Ha Hb).
    + replace (length df - length te)%nat with (length tv) by lia. exact N2.
    + lia.
  - intros Hsmall. unfold prepare_training_data.
    destruct (split_too_small ts (with_labels df)) as [msg ->]; [|eauto].
    now rewrite with_labels_length.
Qed.

End SplittingFacts.

(** The stand-in for scikit-learn obeys the laws. *)
Section TailSklearn.
Import EmotionDataProcessor.
Local Open Scope list_scope.

Lemma tail_sklearn_laws : SklearnLaws tail_sklearn.
Proof.
  split; simpl; unfold tail_split.
  - intros t df tr te.
    destruct (Float64.ceil _) as [[|p|p]|]; try discriminate.
    destruct (Nat.ltb_spec (Pos.to_nat p) (length df)); [|discriminate].
    intros [= <- <-]. now rewrite firstn_skipn.
  - intros t df tr te.
    destruct (Float64.ceil _) as [[|p|p]|]; try discriminate.
    destruct (Nat.ltb_spec (Pos.to_nat p) (length df)); [|discriminate].
    intros [= <- <-]. rewrite length_skipn. f_equal. lia.
  - intros t df Hsmall.
    destruct (Float64.ceil _) as [[|p|p]|]; eauto.
    destruct (Nat.ltb_spec (Pos.to_nat p) (length df)); [lia | eauto].
Qed.

(** Seven rows split with the default fractions 0.2 and 0.1. *)
Lemma data_splits_witness :
  exists splits,
    @prepare_training_data tail_sklearn seven_rows
      (Float64.ratio 2 10) (Float64.ratio 1 10) = inr splits
    /\ Permutation (@with_labels tail_sklearn seven_rows)
                   (train splits ++ val splits ++ test splits)
    /\ length (test splits) = 2%nat
    /\ length (val splits) = 1%nat
    /\ length (train splits) = 4%nat.
Proof.
  destruct (@prepare_training_data tail_sklearn seven_rows
              (Float64.ratio 2 10) (Float64.ratio 1 10))
    as [err | splits] eqn:Hrun; [vm_compute in Hrun; discriminate Hrun|].
  exists splits. split; [reflexivity|].
  destruct (data_splits_partition_with_rounded_sizes tail_sklearn
              tail_sklearn_laws seven_rows
              (Float64.ratio 2 10) (Float64.ratio 1 10)) as [Hreturns _].
  destruct (Hreturns splits Hrun) as (Hperm & _ & Hte & Hva & Hsum).
  assert (Hte' : length (test splits) = 2%nat).
  { assert (E : Float64.ceil
                  (PrimFloat.mul (Float64.ratio 2 10)
                                 (Float64.of_nat (length seven_rows)))
                = Some 2%Z) by (vm_compute; reflexivity).
    rewrite E in Hte. injection Hte as Hte. lia. }
  assert (Hva' : length (val splits) = 1%nat).
  { rewrite Hte' in Hva.
    assert (E : Float64.ceil
                  (PrimFloat.mul
                     (PrimFloat.div (Float64.ratio 1 10)
                        (PrimFloat.sub (Float64.of_nat 1) (Float64.ratio 2 10)))
                     (Float64.of_nat (length seven_rows - 2)))
                = Some 1%Z) by (vm_compute; reflexivity).
    rewrite E in Hva. injection Hva as Hva. lia. }
  split; [exact Hperm|]. split; [exact Hte'|]. split; [exact Hva'|].
  rewrite Hte', Hva' in Hsum. change (length seven_rows) with 7%nat in Hsum. lia.
Defined.

(** C5 as stated fails.  Of seven rows, with [test_size = 0.2] and
    [val_size = 0.1], the test frame gets two rows and the validation
    frame one, which are not a fifth and a tenth of seven.  Of ten rows,
    with 0.3 and 0.1, the validation frame gets two rows, not one: the
    float64 product [0.1 / (1 - 0.3) * 7] lies just above 1.  And a single
    row cannot be split: the function raises. *)
Lemma data_splits_counterexample :
  (exists splits,
      @prepare_training_data tail_sklearn seven_rows
        (Float64.ratio 2 10) (Float64.ratio 1 10) = inr splits
      /\ length (test splits) = 2%nat
      /\ length (val splits) = 1%nat
      /\ ~ (inject_Z (Z.of_nat (length (test splits))) / inject_Z 7 == 2 # 10)%Q
      /\ ~ (inject_Z (Z.of_nat (length (val splits))) / inject_Z 7 == 1 # 10)%Q)
  /\ (exists splits,
         @prepare_training_data tail_sklearn (some_rows 10)
           (Float64.ratio 3 10) (Float64.ratio 1 10) = inr splits
         /\ length (test splits) = 3%nat
         /\ length (val splits) = 2%nat
         /\ ~ (inject_Z (Z.of_nat (length (val splits))) / inject_Z 10
               == 1 # 10)%Q)
  /\ @prepare_training_data tail_sklearn (some_rows 1)
       (Float64.ratio 2 10) (Float64.ratio 1 10)
     = inl (Py.ValueError "the resulting train set will be empty").
Proof.
  split; [|split].
  - eexists. split; [vm_compute; reflexivity|].
    simpl. repeat split; intros Heq; vm_compute in Heq; discriminate Heq.
  - eexists. split; [vm_compute; reflexivity|].
    simpl. repeat split; intros Heq; vm_compute in Heq; discriminate Heq.
  - vm_compute. reflexivity.
Qed.

End TailSklearn.

(** ** The production model wrapper *)

Section WrapperOptimisation.
Import Py ProductionModelWrapper.
Local Open Scope list_scope.
Context `{Runtime}.

Lemma export_never_raises_exception available w e :
  raised (_export_to_onnx available w) = Some e -> is_Exception e = false.
Proof.
  unfold _export_to_onnx.
  destruct available; simpl; [|discriminate].
  destruct (known_model_type (model_type w)); simpl; [|discriminate].
  destruct (onnx_export _ _ _) as [e1 | []]; simpl.
  - destruct (is_Exception e1) eqn:He1; intros [= <-]. exact He1.
  - destruct (InferenceSession _) as [e2 | sess]; simpl; [|discriminate].
    destruct (is_Exception e2) eqn:He2; intros [= <-]. exact He2.
Qed.

Lemma export_keeps_optimized available w :
  optimized_model (after (_export_to_onnx available w)) = optimized_model w
  /\ quantized_model (after (_export_to_onnx available w)) = quantized_model w.
Proof.
  unfold _export_to_onnx.
  destruct available; simpl; [|auto].
  destruct (known_model_type (model_type w)); simpl; [|auto].
  destruct (onnx_export _ _ _) as [e1 | []]; simpl; [auto|].
  destruct (InferenceSession _) as [e2 | sess]; simpl; auto.
Qed.

Lemma optimize_except_no_exception r e :
  raised (optimize_except r) = Some e -> is_Exception e = false.
Proof.
  unfold optimize_except. destruct (raised r) as [e'|] eqn:Hr; [|congruence].
  destruct (is_Exception e') eqn:He'; simpl; [discriminate|].
  rewrite Hr. intros [= <-]. exact He'.
Qed.

(** C7, as amended.  [optimize_model] is a fixed sequence of library
    calls.  'light' calls [torch.jit.script] only, and an exception there
    leaves the call.  'medium' calls [torch.jit.script] and then, only
    when the optimisation libraries could be imported, dynamic
    quantization.  'aggressive' does the same and then, under the same
    flag and for the three known model types, exports the original model
    to ONNX and loads an inference session.  At 'medium' and 'aggressive'
    an [Exception] raised by scripting or by quantization is caught and
    [optimized_model] becomes the original model; an [Exception] raised by
    the ONNX export or by loading the session is caught by the exporter
    itself and leaves [optimized_model] the TorchScript module; no
    [Exception] leaves the call. *)
Theorem optimize_model_pipeline :
  forall (available : bool) (w : wrapper),
    let model := original_model w in
    let path := ("models/" ++ model_type w ++ "_optimized.onnx")%string in
    let light := optimize_model available w "light" in
    let medium := optimize_model available w "medium" in
    let aggressive := optimize_model available w "aggressive" in
    (calls light = [JitScript]
     /\ (forall s, jit_script model = inr s ->
                   after light = set_optimized w (Scripted s)
                   /\ raised light = None)
     /\ (forall e, jit_script model = inl e ->
                   after light = w /\ raised light = Some e))
    /\ (forall s, jit_script model = inr s ->
          (available = false ->
           medium = Effect (set_optimized w (Scripted s)) [JitScript] None
           /\ aggressive = Effect (set_optimized w (Scripted s)) [JitScript] None)
          /\ (forall q, available = true -> quantize_dynamic model = inr q ->
                let w2 := set_quantized (set_optimized w (Scripted s)) q in
                medium = Effect w2 [JitScript; QuantizeDynamic] None
                /\ (known_model_type (model_type w) = false ->
                    aggressive = Effect w2 [JitScript; QuantizeDynamic] None)
                /\ (known_model_type (model_type w) = true ->
                    (forall sess,
                        onnx_export model (model_type w) path = inr tt ->
                        InferenceSession path = inr sess ->
                        aggressive
                        = Effect (set_session w2 sess)
                            [JitScript; QuantizeDynamic; OnnxExport; OnnxLoad]
                            None)
                    /\ (forall e, is_Exception e = true ->
                          onnx_export model (model_type w) path = inl e ->
                          aggressive
                          = Effect w2 [JitScript; QuantizeDynamic; OnnxExport]
                                   None)
                    /\ (forall e, is_Exception e = true ->
                          onnx_export model (model_type w) path = inr tt ->
                          InferenceSession path = inl e ->
                          aggressive
                          = Effect w2
                              [JitScript; QuantizeDynamic; OnnxExport; OnnxLoad]
                              None)))
          /\ (forall e, available = true -> is_Exception e = true ->
                quantize_dynamic model = inl e ->
                medium = Effect (set_optimized w (Eager model))
                                [JitScript; QuantizeDynamic] None
                /\ aggressive = Effect (set_optimized w (Eager model))
                                       [JitScript; QuantizeDynamic] None))
    /\ (forall e, is_Exception e = true -> jit_script model = inl e ->
          medium = Effect (set_optimized w (Eager model)) [JitScript] None
          /\ aggressive = Effect (set_optimized w (Eager model)) [JitScript] None)
    /\ (forall e, raised medium = Some e \/ raised aggressive = Some e ->
                  is_Exception e = false).
Proof.
  intros available w model path light medium aggressive.
  subst light medium aggressive. unfold optimize_model. simpl.
  split; [|split; [|split]].
  - fold model. destruct (jit_script model) as [e | s]; simpl.
    + split; [reflexivity|]. split; [discriminate|].
      intros e' [= <-]. auto.
    + split; [reflexivity|]. split; [|discriminate].
      intros s' [= <-]. auto.
  - intros s Hs. unfold optimize_try. fold model. rewrite Hs.
    split; [|split].
    + intros ->. split; reflexivity.
    + intros q -> Hq. rewrite Hq. cbv zeta. split; [reflexivity|].
      unfold _export_to_onnx. simpl. fold model path. split.
      * intros ->. reflexivity.
      * intros Hk. rewrite Hk. simpl. split; [|split].
        -- intros sess Hexp Hsess. now rewrite Hexp, Hsess.
        -- intros e He Hexp. now rewrite Hexp, He.
        -- intros e He Hexp Hsess. now rewrite Hexp, Hsess, He.
    + intros e -> He Hq. rewrite Hq. unfold optimize_except. simpl.
      rewrite He. split; reflexivity.
  - intros e He Hs. unfold optimize_try. fold model. rewrite Hs.
    unfold optimize_except. simpl. rewrite He. split; reflexivity.
  - intros e [He | He]; eapply optimize_except_no_exception; exact He.
Qed.

End WrapperOptimisation.

Section StubRuntime.
Import Py ProductionModelWrapper.
Local Open Scope list_scope.
#[local] Existing Instance stub_runtime.

(** C7 as stated fails twice: with the optimisation libraries missing,
    'medium' only scripts the model and quantizes nothing; and when the
    ONNX export raises, 'aggressive' keeps the TorchScript module as
    [optimized_model] instead of falling back to the original model. *)
Lemma optimize_model_counterexample :
  let w := init tt "text_emotion" in
  let m := init tt "multimodal" in
  calls (optimize_model false w "medium") = [JitScript]
  /\ quantized_model (after (optimize_model false w "medium")) = None
  /\ onnx_export tt "multimodal" "models/multimodal_optimized.onnx"
     = inl (RuntimeError "Unsupported ONNX opset operator")
  /\ optimized_model (after (optimize_model true m "aggressive"))
     = Some (Scripted tt)
  /\ optimized_model (after (optimize_model true m "aggressive"))
     <> Some (Eager tt).
Proof.
  repeat split. discriminate.
Qed.

(** In the stub runtime every step of the 'aggressive' pipeline succeeds
    on the text model. *)
Lemma optimize_model_witness :
  let w := init tt "text_emotion" in
  jit_script (original_model w) = inr tt
  /\ quantize_dynamic (original_model w) = inr tt
  /\ optimize_model true w "aggressive"
     = Effect (set_session (set_quantized (set_optimized w (Scripted tt)) tt)
                           "models/text_emotion_optimized.onnx")
              [JitScript; QuantizeDynamic; OnnxExport; OnnxLoad] None.
Proof.
  intros w. split; [reflexivity|]. split; [reflexivity|].
  destruct (optimize_model_pipeline true w) as (_ & Hok & _).
  destruct (Hok tt eq_refl) as (_ & Hq & _).
  destruct (Hq tt eq_refl eq_refl) as (_ & _ & Hknown).
  destruct (Hknown eq_refl) as (Hsess & _).
  exact (Hsess "models/text_emotion_optimized.onnx" eq_refl eq_refl).
Defined.

End StubRuntime.

Section WrapperCache.
Import Py ProductionModelWrapper.
Local Open Scope list_scope.
Context `{Runtime}.

(** A first call that misses the cache, with a key other than 0: the
    result is stored under the key and the next call with the same input
    returns it without running a model. *)
Lemma predict_twice_hits_cache (w : wrapper) input t1 t2 result :
  py_hash (py_str input) <> 0%Z ->
  prediction_cache w !! py_hash (py_str input) = None ->
  run_best_model w input = inr result ->
  let r1 := predict w input true t1 in
  let r2 := predict (snd r1) input true t2 in
  fst r1 = inr result
  /\ prediction_cache (snd r1)
     = <[py_hash (py_str input) := result]> (prediction_cache w)
  /\ r2 = (inr result, snd r1)
  /\ inference_times (snd r2) = inference_times w ++ [t1].
Proof.
  intros Hkey Hmiss Hrun r1 r2.
  assert (H1 : r1 = (inr result,
                     Wrapper (original_model w) (model_type w)
                       (optimized_model w) (quantized_model w) (onnx_session w)
                       (inference_times w ++ [t1])
                       (<[py_hash (py_str input) := result]> (prediction_cache w)))).
  { subst r1. unfold predict. simpl. rewrite Hmiss, Hrun.
    destruct (Z.eqb_spec (py_hash (py_str input)) 0) as [Heq | _];
      [contradiction | reflexivity]. }
  assert (H2 : r2 = (inr result, snd r1)).
  { subst r2. rewrite H1. unfold predict. simpl.
    now rewrite lookup_insert_eq. }
  rewrite H2. rewrite H1. simpl. repeat split.
Qed.

(** C8, the failing case: when the key [hash(str(input_data))] is 0, the
    first call stores nothing (the guard [if use_cache and cache_key]
    takes 0 for false), and the second call with the same input runs the
    model again: two inference times are recorded and the cache is the
    one before the calls. *)
Theorem predict_zero_key_is_not_cached :
  forall (w : wrapper) (input : pyval) (t1 t2 : Q) (result : pyval),
    py_hash (py_str input) = 0%Z ->
    prediction_cache w !! 0%Z = None ->
    run_best_model w input = inr result ->
    let r1 := predict w input true t1 in
    let r2 := predict (snd r1) input true t2 in
    fst r1 = inr result
    /\ prediction_cache (snd r1) = prediction_cache w
    /\ fst r2 = inr result
    /\ inference_times (snd r2) = inference_times w ++ [t1; t2]
    /\ prediction_cache (snd r2) = prediction_cache w.
Proof.
  intros w input t1 t2 result Hkey Hmiss Hrun r1 r2.
  assert (H1 : r1 = (inr result,
                     Wrapper (original_model w) (model_type w)
                       (optimized_model w) (quantized_model w) (onnx_session w)
                       (inference_times w ++ [t1]) (prediction_cache w))).
  { subst r1. unfold predict. simpl. rewrite Hkey, Hmiss, Hrun. reflexivity. }
  assert (H2 : r2 = (inr result,
                     Wrapper (original_model w) (model_type w)
                       (optimized_model w) (quantized_model w) (onnx_session w)
                       ((inference_times w ++ [t1]) ++ [t2])
                       (prediction_cache w))).
  { subst r2. rewrite H1. unfold predict. simpl. rewrite Hkey, Hmiss.
    change (run_best_model _ input) with (run_best_model w input).
    rewrite Hrun. reflexivity. }
  rewrite H2, H1. simpl. rewrite <- app_assoc. repeat split.
Qed.

End WrapperCache.

Section StubRuntimeCache.
Import Py ProductionModelWrapper.
Local Open Scope list_scope.
#[local] Existing Instance stub_runtime.

(** Two calls in the stub runtime, where the printed form of a non-empty
    dictionary hashes to zero: the model runs twice. *)
Lemma predict_zero_key_witness :
  let w := init tt "audio_emotion" in
  let input := PyDict [("audio_features", PyList [PyInt 0; PyInt 1])] in
  py_hash (py_str input) = 0%Z
  /\ fst (predict w input true (1 # 100)) = inr (PyDict [("model", PyStr "eager")])
  /\ inference_times
       (snd (predict (snd (predict w input true (1 # 100))) input true (1 # 200)))
     = [1 # 100; 1 # 200].
Proof.
  intros w input.
  destruct (predict_zero_key_is_not_cached w input (1 # 100) (1 # 200)
              (PyDict [("model", PyStr "eager")]) eq_refl eq_refl eq_refl)
    as (H1 & _ & _ & H2 & _).
  split; [reflexivity|]. split; [exact H1 | exact H2].
Defined.

(** The same two calls on an input whose key is not zero hit the cache. *)
Example predict_cached_in_stub :
  let w := init tt "audio_emotion" in
  let input := PyDict [] in
  inference_times
    (snd (predict (snd (predict w input true (1 # 100))) input true (1 # 200)))
  = [1 # 100].
Proof.
  intros w input.
  destruct (predict_twice_hits_cache w input (1 # 100) (1 # 200)
              (PyDict [("model", PyStr "eager")]))
    as (_ & _ & _ & H2); [discriminate | reflexivity | reflexivity |].
  exact H2.
Qed.

End StubRuntimeCache.

(** * Further properties of the embedded code *)

(** ** The production emotion service: statistics, effects, keywords *)

Section ServiceMore.
Import Py ProductionEmotionService.
Local Open Scope list_scope.
Local Open Scope R_scope.



(** *** What a call does to the generator and to the log *)

Lemma scores_to_result_total w model_used scores :
  emotion_labels (self w) = configured_labels ->
  length scores = 13%nat ->
  exists d k c,
    scores_to_result model_used scores w = (inr d, w)
    /\ Np.first_max scores k c
    /\ item d "confidence" = Some (PyFloat c).
Proof.
  intros Hlab Hlen.
  destruct (argmax_first_max scores) as (k & x & _ & Hfm).
  { intros ->. discriminate. }
  assert (Hk : (k < 13)%nat).
  { destruct Hfm as (Hk & _). apply lookup_lt_Some in Hk. lia. }
  destruct (lookup_lt_is_Some_2 configured_labels k) as [l Hl]; [exact Hk|].
  eexists _, k, x. split; [|split; [exact Hfm|]].
  - apply scores_to_result_ok with (k := k) (x := x) (l := l); [exact Hfm|].
    now rewrite Hlab.
  - reflexivity.
Qed.

Lemma text_body_raises txt e w :
  py_split txt = inl e -> detect_emotion_from_text_body txt w = (inl e, w).
Proof.
  intros He. unfold detect_emotion_from_text_body, _simulate_text_inference.
  run_unfold. now rewrite He.
Qed.

Lemma multimodal_body_raises txt v e w :
  py_split txt = inl e -> detect_emotion_multimodal_body txt v w = (inl e, w).
Proof.
  intros He.
  unfold detect_emotion_multimodal_body, _simulate_multimodal_inference,
    _simulate_text_inference.
  run_unfold. now rewrite He.
Qed.

Lemma py_split_str txt ws : py_split txt = inr ws -> exists s, txt = PyStr s.
Proof. destruct txt; try discriminate. eauto. Qed.

(** The three bodies on a freshly made service, with the scores and the
    world they end in. *)
Lemma text_body_run dir cfg g lg s :
  exists d k c,
    detect_emotion_from_text_body (PyStr s) (World (init dir cfg) g lg)
    = (inr d, World (init dir cfg) (advance g 13) lg)
    /\ Np.first_max (Np.softmax (text_adjust s (draws g 13))) k c
    /\ item d "confidence" = Some (PyFloat c).
Proof.
  assert (Hlab := init_labels dir cfg).
  unfold detect_emotion_from_text_body.
  unfold mbind at 1. unfold run_bind at 1.
  rewrite text_inference_str by (simpl; rewrite Hlab; simpl; lia).
  cbn [self np_random logged]. rewrite Hlab.
  change (length configured_labels) with 13%nat.
  apply scores_to_result_total; [exact Hlab|].
  now rewrite softmax_length, text_adjust_length, draws_length.
Qed.

Lemma audio_body_run dir cfg g lg v n :
  py_len v = inr n ->
  exists d k c,
    detect_emotion_from_audio_body v (World (init dir cfg) g lg)
    = (inr d, World (init dir cfg) (advance g 13) lg)
    /\ Np.first_max (Np.softmax (audio_adjust n (draws g 13))) k c
    /\ item d "confidence" = Some (PyFloat c).
Proof.
  intros Hv. assert (Hlab := init_labels dir cfg).
  unfold detect_emotion_from_audio_body.
  unfold mbind at 1. unfold run_bind at 1.
  rewrite (audio_inference_len _ v n Hv) by (simpl; rewrite Hlab; simpl; lia).
  cbn [self np_random logged]. rewrite Hlab.
  change (length configured_labels) with 13%nat.
  apply scores_to_result_total; [exact Hlab|].
  now rewrite softmax_length, audio_adjust_length, draws_length.
Qed.

Lemma multimodal_body_run dir cfg g lg s v n :
  py_len v = inr n ->
  exists d k c,
    detect_emotion_multimodal_body (PyStr s) v (World (init dir cfg) g lg)
    = (inr d, World (init dir cfg) (advance (advance g 13) 13) lg)
    /\ Np.first_max
         (Np.axpby 0.6 (Np.softmax (text_adjust s (draws g 13)))
                   0.4 (Np.softmax (audio_adjust n (draws (advance g 13) 13))))
         k c
    /\ item d "confidence" = Some (PyFloat c).
Proof.
  intros Hv. assert (Hlab := init_labels dir cfg).
  unfold detect_emotion_multimodal_body.
  unfold mbind at 1. unfold run_bind at 1.
  rewrite (multimodal_inference_ok _ s v n Hv) by (simpl; rewrite Hlab; simpl; lia).
  cbn [self np_random logged]. rewrite Hlab.
  change (length configured_labels) with 13%nat.
  apply scores_to_result_total; [exact Hlab|].
  rewrite axpby_length;
    now rewrite !softmax_length, ?text_adjust_length, ?audio_adjust_length,
      !draws_length.
Qed.

Lemma audio_body_raises dir cfg g lg v e :
  py_len v = inl e ->
  detect_emotion_from_audio_body v (World (init dir cfg) g lg)
  = (inl e, World (init dir cfg) (advance g 13) lg).
Proof.
  intros Hv. unfold detect_emotion_from_audio_body, _simulate_audio_inference.
  run_unfold. cbn [self np_random logged]. rewrite Hv.
  rewrite init_labels. reflexivity.
Qed.

Lemma multimodal_body_audio_raises dir cfg g lg s v e :
  py_len v = inl e ->
  detect_emotion_multimodal_body (PyStr s) v (World (init dir cfg) g lg)
  = (inl e, World (init dir cfg) (advance (advance g 13) 13) lg).
Proof.
  intros Hv. assert (Hlab := init_labels dir cfg).
  unfold detect_emotion_multimodal_body, _simulate_multimodal_inference.
  unfold mbind at 1. unfold run_bind at 1.
  unfold mbind at 1. unfold run_bind at 1.
  rewrite text_inference_str by (simpl; rewrite Hlab; simpl; lia).
  unfold _simulate_audio_inference.
  run_unfold. cbn [self np_random logged]. rewrite Hv, Hlab. reflexivity.
Qed.

Lemma try_except_raised what (body : run pyval) w e w1 :
  is_Exception e = true ->
  body w = (inl e, w1) ->
  snd (try_except body (on_error what) w)
  = World (self w1) (np_random w1)
          (logged w1 ++ ["Error in " ++ what ++ " emotion detection: "
                           ++ str_exn e]%string).
Proof.
  intros He Hb. unfold try_except. rewrite Hb, He. reflexivity.
Qed.

(** A successful call draws 13 numbers (26 for the multimodal method) and
    logs nothing.  A text without [split] fails before anything is drawn;
    audio features without [len] fail after the draw, so the generator
    has advanced all the same; each failure adds one record to the log. *)
Theorem detect_effects_on_generator_and_log :
  forall dir cfg g lg txt features,
    let w := World (init dir cfg) g lg in
    let failed what e :=
      ("Error in " ++ what ++ " emotion detection: " ++ str_exn e)%string in
    snd (detect_emotion_from_text txt w)
    = match py_split txt with
      | inr _ => World (init dir cfg) (advance g 13) lg
      | inl e => World (init dir cfg) g (lg ++ [failed "text" e])
      end
    /\ snd (detect_emotion_from_audio features w)
       = match py_len features with
         | inr _ => World (init dir cfg) (advance g 13) lg
         | inl e => World (init dir cfg) (advance g 13) (lg ++ [failed "audio" e])
         end
    /\ snd (detect_emotion_multimodal txt features w)
       = match py_split txt with
         | inl e => World (init dir cfg) g (lg ++ [failed "multimodal" e])
         | inr _ =>
             match py_len features with
             | inr _ => World (init dir cfg) (advance (advance g 13) 13) lg
             | inl e => World (init dir cfg) (advance (advance g 13) 13)
                              (lg ++ [failed "multimodal" e])
             end
         end.
Proof.
  intros dir cfg g lg txt features w failed. subst w failed.
  unfold detect_emotion_from_text, detect_emotion_from_audio,
    detect_emotion_multimodal.
  split; [|split].
  - destruct (py_split txt) as [e | ws] eqn:Hs.
    + rewrite (try_except_raised "text" _ _ e _ (py_split_raises _ _ Hs)
                 (text_body_raises _ _ _ Hs)). reflexivity.
    + destruct (py_split_str _ _ Hs) as [s ->].
      destruct (text_body_run dir cfg g lg s) as (d & k & c & Hb & _).
      now rewrite (try_except_ok _ _ _ _ _ Hb).
  - destruct (py_len features) as [e | n] eqn:Hl.
    + rewrite (try_except_raised "audio" _ _ e _ (py_len_raises _ _ Hl)
                 (audio_body_raises dir cfg g lg _ _ Hl)). reflexivity.
    + destruct (audio_body_run dir cfg g lg _ n Hl) as (d & k & c & Hb & _).
      now rewrite (try_except_ok _ _ _ _ _ Hb).
  - destruct (py_split txt) as [e | ws] eqn:Hs.
    + rewrite (try_except_raised "multimodal" _ _ e _ (py_split_raises _ _ Hs)
                 (multimodal_body_raises _ features _ _ Hs)). reflexivity.
    + destruct (py_split_str _ _ Hs) as [s ->].
      destruct (py_len features) as [e | n] eqn:Hl.
      * rewrite (try_except_raised "multimodal" _ _ e _ (py_len_raises _ _ Hl)
                   (multimodal_body_audio_raises dir cfg g lg s _ _ Hl)).
        reflexivity.
      * destruct (multimodal_body_run dir cfg g lg s _ n Hl)
          as (d & k & c & Hb & _).
        now rewrite (try_except_ok _ _ _ _ _ Hb).
Qed.

(** *** The keyword heuristic *)

Lemma lower_app (a b : string) : lower (a ++ b) = (lower a ++ lower b)%string.
Proof. induction a as [|c a IH]; simpl; [reflexivity | now rewrite IH]. Qed.

Lemma prefix_app (w b : string) : String.prefix w (w ++ b) = true.
Proof.
  induction w as [|c w IH]; simpl; [now destruct b|].
  destruct (ascii_dec c c) as [_ | Hne]; [exact IH | congruence].
Qed.

Lemma contains_unfold (w hay : string) :
  contains w hay
  = String.prefix w hay
    || match hay with
       | EmptyString => false
       | String _ hay' => contains w hay'
       end.
Proof. destruct hay; reflexivity. Qed.

Lemma contains_app (w a b : string) : contains w (a ++ w ++ b) = true.
Proof.
  induction a as [|c a IH].
  - change (contains w (String.append w b) = true).
    rewrite contains_unfold, prefix_app. reflexivity.
  - change (contains w (String c (String.append a (String.append w b))) = true).
    rewrite contains_unfold, IH. apply orb_true_r.
Qed.

Lemma any_in_app (words : list string) (word a b : string) :
  In word words -> any_in words (a ++ word ++ b) = true.
Proof.
  intros Hin. unfold any_in. apply existsb_exists.
  exists word. split; [exact Hin | apply contains_app].
Qed.

Lemma any_in_lower (words : list string) (a W b : string) :
  In (lower W) words -> any_in words (lower (a ++ W ++ b)) = true.
Proof. intros Hin. rewrite !lower_app. now apply any_in_app. Qed.

(** The keywords are looked for as substrings of the lower-cased text, so
    a keyword counts in any letter case and inside a longer word; the
    three lists are tried in order and only the first that matches raises
    a score (happiness, else sadness, else anger, by 0.3); a text without
    any keyword gets the softmax of the plain draw. *)
Theorem keyword_heuristic_is_substring_first_match :
  forall dir cfg g lg (a W b : string),
    let scores txt :=
      fst (_simulate_text_inference (PyStr txt) (World (init dir cfg) g lg)) in
    let txt := (a ++ W ++ b)%string in
    (In (lower W) happy_words ->
     scores txt = inr (Np.softmax (bump 0 0.3 (draws g 13))))
    /\ (any_in happy_words (lower txt) = false -> In (lower W) sad_words ->
        scores txt = inr (Np.softmax (bump 1 0.3 (draws g 13))))
    /\ (any_in happy_words (lower txt) = false ->
        any_in sad_words (lower txt) = false -> In (lower W) angry_words ->
        scores txt = inr (Np.softmax (bump 3 0.3 (draws g 13))))
    /\ (any_in happy_words (lower txt) = false ->
        any_in sad_words (lower txt) = false ->
        any_in angry_words (lower txt) = false ->
        scores txt = inr (Np.softmax (draws g 13))).
Proof.
  intros dir cfg g lg a W b scores txt. subst scores. cbv beta.
  assert (Hlab := init_labels dir cfg).
  rewrite text_inference_str by (simpl; rewrite Hlab; simpl; lia).
  cbn [fst self np_random]. rewrite Hlab.
  change (length configured_labels) with 13%nat.
  unfold text_adjust, keyword_index.
  change ["happy"; "great"; "excellent"; "wonderful"] with happy_words.
  change ["sad"; "terrible"; "awful"; "bad"] with sad_words.
  change ["angry"; "frustrated"; "mad"] with angry_words.
  split; [|split; [|split]].
  - intros Hin. subst txt. now rewrite (any_in_lower _ a W b Hin).
  - intros Hh Hin. rewrite Hh. subst txt. now rewrite (any_in_lower _ a W b Hin).
  - intros Hh Hs Hin. rewrite Hh, Hs. subst txt.
    now rewrite (any_in_lower _ a W b Hin).
  - intros Hh Hs Ha. now rewrite Hh, Hs, Ha.
Qed.

(** 'UNHAPPY' counts as a happiness keyword, and wins over 'sad'. *)
Lemma keyword_heuristic_witness :
  In (lower "HAPPY") happy_words
  /\ fst (_simulate_text_inference (PyStr "I am UNHAPPY and sad")
            (World (init "training/deployment" (inr None)) (fun _ => 0) []))
     = inr (Np.softmax (bump 0 0.3 (draws (fun _ => 0) 13))).
Proof.
  assert (Hin : In (lower "HAPPY") happy_words) by (simpl; auto).
  split; [exact Hin|].
  exact (proj1 (keyword_heuristic_is_substring_first_match
                  "training/deployment" (inr None) (fun _ => 0) []
                  "I am UN" "HAPPY" " and sad") Hin).
Defined.

(** *** How confident the simulation can be *)

Lemma exp_below_1_3 (x : R) : x < 1.3 -> exp x < 30 / 7.
Proof.
  intros Hx.
  assert (H1 : exp x < exp 1.3) by (now apply exp_increasing).
  assert (H2 : exp 1.3 = exp 1 * exp 0.3)
    by (rewrite <- exp_plus; f_equal; lra).
  assert (H3 : 0.7 <= exp (- 0.3)).
  { pose proof (exp_ineq1_le (- 0.3)). lra. }
  assert (H4 : exp 0.3 * exp (- 0.3) = 1).
  { rewrite <- exp_plus. replace (0.3 + - 0.3) with 0 by lra. apply exp_0. }
  pose proof exp_le_3 as H5.
  pose proof (exp_pos 0.3) as H6. pose proof (exp_pos 1) as H7.
  assert (H8 : exp 0.3 <= 10 / 7) by nra.
  assert (H9 : exp 1 * exp 0.3 <= 3 * (10 / 7)) by nra.
  lra.
Qed.

Lemma sum_exp_ge_length (l : list R) :
  Forall (fun x => 0 <= x) l -> INR (length l) <= Np.sum (map exp l).
Proof.
  induction 1 as [|x l Hx _ IH].
  - simpl. lra.
  - change (length (x :: l)) with (S (length l)). rewrite S_INR. simpl.
    pose proof (exp_ineq1_le x). lra.
Qed.

Lemma sum_exp_ge_entry (l : list R) (i : nat) (x : R) :
  Forall (fun x => 0 <= x) l -> l !! i = Some x ->
  exp x + INR (length l) - 1 <= Np.sum (map exp l).
Proof.
  intros Hall. revert i. induction Hall as [|y l Hy Hall IH]; intros i Hi.
  - discriminate Hi.
  - change (length (y :: l)) with (S (length l)). rewrite S_INR. simpl.
    destruct i as [|i]; simpl in Hi.
    + inversion Hi; subst. pose proof (sum_exp_ge_length l Hall). lra.
    + specialize (IH i Hi). pose proof (exp_ineq1_le y). lra.
Qed.

(** Thirteen raw scores in [[0, 1.3)] give softmax values below 0.3. *)
Lemma softmax_below (l : list R) :
  length l = 13%nat -> Forall (fun x => 0 <= x < 1.3) l ->
  Forall (fun p => p < 3 / 10) (Np.softmax l).
Proof.
  intros Hlen Hall. apply Forall_lookup. intros i p Hp.
  destruct (l !! i) as [x|] eqn:Hx.
  - rewrite (softmax_lookup _ _ _ Hx) in Hp. inversion Hp; subst p.
    assert (Hx' : 0 <= x < 1.3) by (rewrite Forall_lookup in Hall; eauto).
    assert (Hnn : Forall (fun x => 0 <= x) l)
      by (eapply Forall_impl; [exact Hall | simpl; intros; lra]).
    pose proof (sum_exp_ge_entry l i x Hnn Hx) as Hs.
    rewrite Hlen in Hs. simpl in Hs.
    pose proof (exp_below_1_3 x (proj2 Hx')) as He.
    pose proof (exp_pos x) as Hpos.
    set (S := Np.sum (map exp l)) in *.
    replace (3 / 10) with ((3 / 10 * S) / S) by (field; lra).
    unfold Rdiv. apply Rmult_lt_compat_r; [apply Rinv_0_lt_compat; lra | lra].
  - apply lookup_ge_None in Hx. rewrite <- softmax_length in Hx.
    apply lookup_ge_None in Hx. congruence.
Qed.

Lemma bump_bounds (P Q : R -> Prop) i d l :
  (forall x, P x -> Q x) -> (forall x, P x -> Q (x + d)) ->
  Forall P l -> Forall Q (bump i d l).
Proof.
  intros HPQ Hd Hall. unfold bump. destruct (l !! i) as [x|] eqn:Hx.
  - apply Forall_insert.
    + eapply Forall_impl; [exact Hall | exact HPQ].
    + apply Hd. rewrite Forall_lookup in Hall. eauto.
  - eapply Forall_impl; [exact Hall | exact HPQ].
Qed.

Lemma draws_uniform g n :
  uniform_stream g -> Forall (fun x => 0 <= x < 1) (draws g n).
Proof.
  intros Hg. unfold draws. apply List.Forall_forall. intros x Hx.
  apply in_map_iff in Hx as (i & <- & _). apply Hg.
Qed.

Lemma advance_uniform g n : uniform_stream g -> uniform_stream (advance g n).
Proof. intros Hg i. apply Hg. Qed.

Lemma text_adjust_bounds s l :
  Forall (fun x => 0 <= x < 1) l -> Forall (fun x => 0 <= x < 1.3) (text_adjust s l).
Proof.
  intros Hall. unfold text_adjust. destruct (keyword_index (lower s)).
  - eapply bump_bounds; [| |exact Hall]; simpl; intros; lra.
  - eapply Forall_impl; [exact Hall | simpl; intros; lra].
Qed.

Lemma audio_adjust_bounds n l :
  Forall (fun x => 0 <= x < 1) l -> Forall (fun x => 0 <= x < 1.3) (audio_adjust n l).
Proof.
  intros Hall. unfold audio_adjust. destruct (20 <? n)%nat.
  - eapply (bump_bounds (fun x => 0 <= x < 1.2)); [| |]; simpl.
    + intros; lra.
    + intros; lra.
    + eapply bump_bounds; [| |exact Hall]; simpl; intros; lra.
  - eapply Forall_impl; [exact Hall | simpl; intros; lra].
Qed.

Lemma sum_le_max (l : list R) (c : R) :
  Forall (fun y => y <= c) l -> Np.sum l <= INR (length l) * c.
Proof.
  induction 1 as [|x l Hx _ IH].
  - simpl. lra.
  - change (length (x :: l)) with (S (length l)). rewrite S_INR. simpl. lra.
Qed.

(** The largest of thirteen scores that add up to 1 is at least 1/13, and
    it is below any bound that holds for all of them. *)
Lemma first_max_confidence (scores : list R) (k : nat) (c b : R) :
  length scores = 13%nat -> Np.sum scores = 1 ->
  Forall (fun p => p < b) scores ->
  Np.first_max scores k c -> 1 / 13 <= c < b.
Proof.
  intros Hlen Hsum Hb (Hk & Hall & _). split.
  - pose proof (sum_le_max scores c Hall) as Hs.
    rewrite Hlen, Hsum in Hs. simpl in Hs. lra.
  - rewrite Forall_lookup in Hb. exact (Hb k c Hk).
Qed.

(** With draws in [[0, 1)], the confidence of a successful result lies
    between 1/13 and 0.3 for each of the three methods: the simulated
    service is never as confident as the 0.5 its error fallback reports. *)
Theorem successful_confidence_is_low :
  forall dir cfg g lg txt features d,
    uniform_stream g ->
    let w := World (init dir cfg) g lg in
    fst (detect_emotion_from_text_body txt w) = inr d
    \/ fst (detect_emotion_from_audio_body features w) = inr d
    \/ fst (detect_emotion_multimodal_body txt features w) = inr d ->
    exists c, item d "confidence" = Some (PyFloat c) /\ 1 / 13 <= c < 3 / 10.
Proof.
  intros dir cfg g lg txt features d Hg w Hrun. subst w.
  assert (Hd1 := draws_uniform g 13 Hg).
  assert (Hd2 := draws_uniform (advance g 13) 13 (advance_uniform g 13 Hg)).
  destruct Hrun as [Hrun | [Hrun | Hrun]].
  - destruct (py_split txt) as [e | ws] eqn:Hs.
    { rewrite (text_body_raises _ _ _ Hs) in Hrun. discriminate Hrun. }
    destruct (py_split_str _ _ Hs) as [s ->].
    destruct (text_body_run dir cfg g lg s) as (d' & k & c & Hb & Hfm & Hc).
    rewrite Hb in Hrun. simpl in Hrun. inversion Hrun; subst d'.
    exists c. split; [exact Hc|].
    eapply first_max_confidence; [| | |exact Hfm].
    + now rewrite softmax_length, text_adjust_length, draws_length.
    + apply softmax_sum. intros Heq. apply (f_equal (@length R)) in Heq.
      rewrite text_adjust_length, draws_length in Heq. discriminate Heq.
    + apply softmax_below; [|now apply text_adjust_bounds].
      now rewrite text_adjust_length, draws_length.
  - destruct (py_len features) as [e | n] eqn:Hl.
    { rewrite (audio_body_raises dir cfg g lg _ _ Hl) in Hrun.
      discriminate Hrun. }
    destruct (audio_body_run dir cfg g lg _ n Hl) as (d' & k & c & Hb & Hfm & Hc).
    rewrite Hb in Hrun. simpl in Hrun. inversion Hrun; subst d'.
    exists c. split; [exact Hc|].
    eapply first_max_confidence; [| | |exact Hfm].
    + now rewrite softmax_length, audio_adjust_length, draws_length.
    + apply softmax_sum. intros Heq. apply (f_equal (@length R)) in Heq.
      rewrite audio_adjust_length, draws_length in Heq. discriminate Heq.
    + apply softmax_below; [|now apply audio_adjust_bounds].
      now rewrite audio_adjust_length, draws_length.
  - destruct (py_split txt) as [e | ws] eqn:Hs.
    { rewrite (multimodal_body_raises _ features _ _ Hs) in Hrun.
      discriminate Hrun. }
    destruct (py_split_str _ _ Hs) as [s ->].
    destruct (py_len features) as [e | n] eqn:Hl.
    { rewrite (multimodal_body_audio_raises dir cfg g lg s _ _ Hl) in Hrun.
      discriminate Hrun. }
    destruct (multimodal_body_run dir cfg g lg s _ n Hl)
      as (d' & k & c & Hb & Hfm & Hc).
    rewrite Hb in Hrun. simpl in Hrun. inversion Hrun; subst d'.
    exists c. split; [exact Hc|].
    set (t := Np.softmax (text_adjust s (draws g 13))) in *.
    set (a := Np.softmax (audio_adjust n (draws (advance g 13) 13))) in *.
    assert (Ht : length t = 13%nat)
      by (subst t; now rewrite softmax_length, text_adjust_length, draws_length).
    assert (Ha : length a = 13%nat)
      by (subst a; now rewrite softmax_length, audio_adjust_length, draws_length).
    assert (Htb : Forall (fun p => p < 3 / 10) t).
    { subst t. apply softmax_below; [|now apply text_adjust_bounds].
      now rewrite text_adjust_length, draws_length. }
    assert (Hab : Forall (fun p => p < 3 / 10) a).
    { subst a. apply softmax_below; [|now apply audio_adjust_bounds].
      now rewrite audio_adjust_length, draws_length. }
    eapply first_max_confidence; [| | |exact Hfm].
    + rewrite axpby_length; lia.
    + rewrite axpby_sum by lia. subst t a.
      rewrite !softmax_sum; [lra | |]; intros Heq;
        apply (f_equal (@length R)) in Heq;
        rewrite ?text_adjust_length, ?audio_adjust_length, draws_length in Heq;
        discriminate Heq.
    + rewrite Forall_lookup in Htb, Hab. apply Forall_lookup.
      intros i z Hz. apply axpby_lookup_inv in Hz as (u & v & Hu & Hv & ->).
      specialize (Htb _ _ Hu). specialize (Hab _ _ Hv). simpl in *. lra.
Qed.

(** A generator that keeps drawing 0 is uniform, and the text body runs
    on a string. *)
Lemma successful_confidence_witness :
  let w := World (init "training/deployment" (inr None)) (fun _ => 0) [] in
  uniform_stream (fun _ => 0)
  /\ exists d c,
      fst (detect_emotion_from_text_body (PyStr "good morning") w) = inr d
      /\ item d "confidence" = Some (PyFloat c)
      /\ 1 / 13 <= c < 3 / 10.
Proof.
  intros w.
  assert (Hg : uniform_stream (fun _ => 0)) by (intros i; lra).
  split; [exact Hg|].
  destruct (text_body_run "training/deployment" (inr None) (fun _ => 0) []
              "good morning") as (d & k & c & Hb & _ & _).
  assert (Hrun : fst (detect_emotion_from_text_body (PyStr "good morning") w)
                 = inr d) by (subst w; now rewrite Hb).
  destruct (successful_confidence_is_low "training/deployment" (inr None)
              (fun _ => 0) [] (PyStr "good morning") PyNone d Hg
              (or_introl Hrun)) as (c' & Hc & Hbound).
  exists d, c'. split; [exact Hrun | split; [exact Hc | exact Hbound]].
Defined.

End ServiceMore.

(** ** The bridge with the service loaded *)

Section WrapperMore.
Import Py EmotionServiceWrapper.
Local Open Scope list_scope.
Local Open Scope R_scope.
Context `{Json}.

Lemma scores_to_result_keys model_used scores w d w' :
  ProductionEmotionService.scores_to_result model_used scores w = (inr d, w') ->
  exists e c, item d "emotion" = Some (PyStr e)
              /\ item d "confidence" = Some (PyFloat c).
Proof.
  unfold ProductionEmotionService.scores_to_result. run_unfold.
  cbn [ProductionEmotionService.self].
  destruct (Np.argmax scores) as [e | k]; [discriminate|].
  destruct (ProductionEmotionService.emotion_labels _ !! k); [|discriminate].
  destruct (scores !! k); [|discriminate].
  intros Hd. inversion Hd; subst. eexists _, _. split; reflexivity.
Qed.

Lemma bind_result_keys (m : ProductionEmotionService.run (list R)) model_used
    w d w' :
  (scores ← m; ProductionEmotionService.scores_to_result model_used scores) w
  = (inr d, w') ->
  exists e c, item d "emotion" = Some (PyStr e)
              /\ item d "confidence" = Some (PyFloat c).
Proof.
  unfold mbind at 1. unfold ProductionEmotionService.run_bind at 1.
  destruct (m w) as [[e | scores] w1]; [discriminate|].
  apply scores_to_result_keys.
Qed.

(** A [detect_*] method always returns a dictionary with an emotion and a
    confidence, whatever the service object holds. *)
Lemma method_result_keys what (body : ProductionEmotionService.run pyval) w :
  ProductionEmotionService.safe body ->
  (forall d w', body w = (inr d, w') ->
      exists e c, item d "emotion" = Some (PyStr e)
                  /\ item d "confidence" = Some (PyFloat c)) ->
  exists d e c,
    fst (ProductionEmotionService.try_except body
           (ProductionEmotionService.on_error what) w) = inr d
    /\ item d "emotion" = Some (PyStr e)
    /\ item d "confidence" = Some (PyFloat c).
Proof.
  intros Hsafe Hkeys. unfold ProductionEmotionService.try_except.
  destruct (Hsafe w) as [_ He].
  destruct (body w) as [[e | d] w1] eqn:Hb.
  - simpl in He. rewrite (He e eq_refl).
    eexists _, _, _. split; [reflexivity|]. split; reflexivity.
  - destruct (Hkeys d w1 eq_refl) as (e & c & Hk1 & Hk2).
    exists d, e, c. split; [reflexivity|]. split; assumption.
Qed.

Lemma detect_text_keys txt w :
  exists d e c,
    fst (ProductionEmotionService.detect_emotion_from_text txt w) = inr d
    /\ item d "emotion" = Some (PyStr e)
    /\ item d "confidence" = Some (PyFloat c).
Proof.
  apply method_result_keys; [apply safe_text_body|].
  intros d w'. apply bind_result_keys.
Qed.

Lemma detect_audio_keys v w :
  exists d e c,
    fst (ProductionEmotionService.detect_emotion_from_audio v w) = inr d
    /\ item d "emotion" = Some (PyStr e)
    /\ item d "confidence" = Some (PyFloat c).
Proof.
  apply method_result_keys; [apply safe_audio_body|].
  intros d w'. apply bind_result_keys.
Qed.

Lemma detect_multimodal_keys txt v w :
  exists d e c,
    fst (ProductionEmotionService.detect_emotion_multimodal txt v w) = inr d
    /\ item d "emotion" = Some (PyStr e)
    /\ item d "confidence" = Some (PyFloat c).
Proof.
  apply method_result_keys; [apply safe_multimodal_body|].
  intros d w'. apply bind_result_keys.
Qed.

Lemma import_block_loaded s g :
  import_block (inr s) = inr g ->
  SERVICE_AVAILABLE g = true /\ service g = Some s.
Proof. intros Hg. inversion Hg; subst. split; reflexivity. Qed.

Lemma py_get_not_dict data k default :
  (forall d, data <> PyDict d) ->
  py_get data k default
  = inl (AttributeError ("'" ++ type_name data
                           ++ "' object has no attribute 'get'")%string).
Proof. intros Hd. destruct data; try reflexivity. now destruct (Hd d). Qed.

Lemma py_get_dict d k default :
  py_get (PyDict d) k default
  = inr (match dict_get k d with Some v => v | None => default end).
Proof. reflexivity. Qed.

(** With the service loaded and a payload that [json.loads] accepts,
    [main] prints exactly one document and returns, for every mode: the
    status document, the unknown-mode document, or in the three detection
    modes a document that has an emotion and a confidence; there a payload
    that is not an object gives the error document of the [except]
    branch. *)
Theorem bridge_with_service_prints_one_document :
  forall (s : ProductionEmotionService.service) g rng script mode payload data,
    import_block (inr s) = inr g ->
    json_loads payload = inr data ->
    exists doc,
      main g rng [script; mode; payload] = Outcome [doc] (inr tt)
      /\ (mode = "status" -> doc = status_result)
      /\ (mode <> "text" -> mode <> "audio" -> mode <> "multimodal" ->
          mode <> "status" ->
          doc = PyDict [("error", PyStr ("Unknown mode: " ++ mode)%string)])
      /\ (mode = "text" \/ mode = "audio" \/ mode = "multimodal" ->
          (exists e c, item doc "emotion" = Some (PyStr e)
                       /\ item doc "confidence" = Some (PyFloat c))
          /\ ((forall d, data <> PyDict d) ->
              doc = error_result mode
                      (AttributeError
                         ("'" ++ type_name data
                            ++ "' object has no attribute 'get'")%string))).
Proof.
  intros s g rng script mode payload data Hg Hp.
  destruct (import_block_loaded s g Hg) as [Hav Hs].
  unfold main. rewrite Hp, Hav. cbn [negb].
  unfold dispatch, call_service. rewrite Hs.
  destruct (String.eqb_spec mode "text") as [-> | Ht].
  { destruct data as [| ? | ? | ? | ? | ? | d] eqn:Hdata;
      try (eexists; split; [reflexivity|]; split; [discriminate|];
           split; [congruence|]; intros _; split;
           [eexists _, _; split; reflexivity | intros _; reflexivity]).
    rewrite py_get_dict.
    destruct (detect_text_keys
                (match dict_get "text" d with Some v => v | None => PyStr "" end)
                (ProductionEmotionService.World s rng []))
      as (doc & e & c & -> & He & Hc).
    exists doc. split; [reflexivity|]. split; [discriminate|].
    split; [congruence|]. intros _. split; [eauto|].
    intros Hd. now destruct (Hd d). }
  destruct (String.eqb_spec mode "audio") as [-> | Ha].
  { destruct data as [| ? | ? | ? | ? | ? | d] eqn:Hdata;
      try (eexists; split; [reflexivity|]; split; [discriminate|];
           split; [congruence|]; intros _; split;
           [eexists _, _; split; reflexivity | intros _; reflexivity]).
    rewrite py_get_dict.
    destruct (detect_audio_keys
                (match dict_get "audio_features" d with
                 | Some v => v | None => PyDict [] end)
                (ProductionEmotionService.World s rng []))
      as (doc & e & c & -> & He & Hc).
    exists doc. split; [reflexivity|]. split; [discriminate|].
    split; [congruence|]. intros _. split; [eauto|].
    intros Hd. now destruct (Hd d). }
  destruct (String.eqb_spec mode "multimodal") as [-> | Hm].
  { destruct data as [| ? | ? | ? | ? | ? | d] eqn:Hdata;
      try (eexists; split; [reflexivity|]; split; [discriminate|];
           split; [congruence|]; intros _; split;
           [eexists _, _; split; reflexivity | intros _; reflexivity]).
    rewrite !py_get_dict.
    destruct (detect_multimodal_keys
                (match dict_get "text" d with Some v => v | None => PyStr "" end)
                (match dict_get "audio_features" d with
                 | Some v => v | None => PyDict [] end)
                (ProductionEmotionService.World s rng []))
      as (doc & e & c & -> & He & Hc).
    exists doc. split; [reflexivity|]. split; [discriminate|].
    split; [congruence|]. intros _. split; [eauto|].
    intros Hd. now destruct (Hd d). }
  destruct (String.eqb_spec mode "status") as [-> | Hst].
  { eexists. split; [reflexivity|]. split; [reflexivity|].
    split; [congruence|]. intros [Hx | [Hx | Hx]]; discriminate Hx. }
  eexists. split; [reflexivity|]. split; [congruence|].
  split; [reflexivity|]. intros [Hx | [Hx | Hx]]; congruence.
Qed.

(** X6.  A payload with no 'text' and no 'audio_features' entry is
    served with the defaults [""] and [{}], which the service accepts: in
    the three detection modes, an object payload whose 'text' entry, if
    present, is a string and whose 'audio_features' entry, if present,
    has a length gives a result over the 13 configured labels, the
    confidence the largest score and the emotion its label; over real
    arithmetic (the softmax read over the real numbers, not rounded to
    float64) the scores are positive and add up to 1. *)
Theorem bridge_defaults_give_well_formed_result :
  forall dir cfg g rng script mode payload d,
    import_block (inr (ProductionEmotionService.init dir cfg)) = inr g ->
    json_loads payload = inr (PyDict d) ->
    mode = "text" \/ mode = "audio" \/ mode = "multimodal" ->
    (forall v, dict_get "text" d = Some v -> exists s, v = PyStr s) ->
    (forall v, dict_get "audio_features" d = Some v ->
               exists n, py_len v = inr n) ->
    exists doc,
      main g rng [script; mode; payload] = Outcome [doc] (inr tt)
      /\ ProductionEmotionService.well_formed_result
           ProductionEmotionService.configured_labels doc.
Proof.
  intros dir cfg g rng script mode payload d Hg Hp Hmode Htext Haudio.
  destruct (import_block_loaded _ g Hg) as [Hav Hs].
  assert (Ht : exists s,
             match dict_get "text" d with Some v => v | None => PyStr "" end
             = PyStr s).
  { destruct (dict_get "text" d) as [v|]; [now apply Htext | eauto]. }
  assert (Ha : exists n,
             py_len (match dict_get "audio_features" d with
                     | Some v => v | None => PyDict [] end) = inr n).
  { destruct (dict_get "audio_features" d) as [v|]; [now apply Haudio|].
    exists 0%nat. reflexivity. }
  destruct Ht as [s Ht]. destruct Ha as [n Ha].
  unfold main. rewrite Hp, Hav. cbn [negb].
  unfold dispatch, call_service. rewrite Hs, !py_get_dict, Ht.
  destruct Hmode as [-> | [-> | ->]]; cbn [String.eqb Ascii.eqb Bool.eqb].
  - destruct (text_body_well_formed dir cfg rng [] s) as (doc & w' & Hb & Hwf).
    unfold ProductionEmotionService.detect_emotion_from_text.
    rewrite (try_except_ok _ _ _ _ _ Hb). exists doc. split; [reflexivity | exact Hwf].
  - destruct (audio_body_well_formed dir cfg rng [] _ n Ha)
      as (doc & w' & Hb & Hwf).
    unfold ProductionEmotionService.detect_emotion_from_audio.
    rewrite (try_except_ok _ _ _ _ _ Hb). exists doc. split; [reflexivity | exact Hwf].
  - destruct (multimodal_body_well_formed dir cfg rng [] s _ n Ha)
      as (doc & w' & Hb & Hwf).
    unfold ProductionEmotionService.detect_emotion_multimodal.
    rewrite (try_except_ok _ _ _ _ _ Hb). exists doc. split; [reflexivity | exact Hwf].
Qed.
End WrapperMore.

(** The bridge with a freshly made service, on the empty object and a
    mode it does not know. *)
Lemma bridge_with_service_witness :
  let s := ProductionEmotionService.init "training/deployment" (inr None) in
  let g := EmotionServiceWrapper.Globals true (Some s)
             ["Successfully loaded ProductionEmotionService"] in
  EmotionServiceWrapper.import_block (inr s) = inr g
  /\ @json_loads EmotionServiceWrapper.empty_object_json "{}" = inr (Py.PyDict [])
  /\ @EmotionServiceWrapper.main EmotionServiceWrapper.empty_object_json
       g (fun _ => 0%R) ["emotion_service_wrapper.py"; "voice"; "{}"]
     = EmotionServiceWrapper.Outcome
         [Py.PyDict [("error", Py.PyStr "Unknown mode: voice")]] (inr tt).
Proof.
  intros s g. split; [reflexivity|]. split; [reflexivity|].
  destruct (@bridge_with_service_prints_one_document
              EmotionServiceWrapper.empty_object_json s g (fun _ => 0%R)
              "emotion_service_wrapper.py" "voice" "{}" (Py.PyDict [])
              eq_refl eq_refl)
    as (doc & Hmain & _ & Hunknown & _).
  rewrite Hmain. f_equal. f_equal.
  apply Hunknown; discriminate.
Defined.

(** The empty object in the audio mode: the default [{}] has length 0. *)
Lemma bridge_defaults_witness :
  let s := ProductionEmotionService.init "training/deployment" (inr None) in
  let g := EmotionServiceWrapper.Globals true (Some s)
             ["Successfully loaded ProductionEmotionService"] in
  EmotionServiceWrapper.import_block (inr s) = inr g
  /\ @json_loads EmotionServiceWrapper.empty_object_json "{}" = inr (Py.PyDict [])
  /\ exists doc,
      @EmotionServiceWrapper.main EmotionServiceWrapper.empty_object_json
        g (fun _ => 0%R) ["emotion_service_wrapper.py"; "audio"; "{}"]
      = EmotionServiceWrapper.Outcome [doc] (inr tt)
      /\ ProductionEmotionService.well_formed_result
           ProductionEmotionService.configured_labels doc.
Proof.
  intros s g. split; [reflexivity|]. split; [reflexivity|].
  apply (@bridge_defaults_give_well_formed_result
           EmotionServiceWrapper.empty_object_json "training/deployment"
           (inr None) g (fun _ => 0%R) "emotion_service_wrapper.py" "audio"
           "{}" [] eq_refl eq_refl).
  - right. left. reflexivity.
  - intros v Hv. discriminate Hv.
  - intros v Hv. discriminate Hv.
Defined.

(** ** The production wrapper after optimisation and over many calls *)

Section PredictMore.
Import Py ProductionModelWrapper.
Local Open Scope list_scope.
Context `{Runtime}.

Lemma run_best_model_chosen w input :
  run_best_model w input = predict_with (model_to_use w) (model_type w) input.
Proof.
  unfold run_best_model, _predict_torch, model_to_use, predict_with.
  destruct (onnx_session w); [reflexivity|].
  destruct (quantized_model w); [reflexivity|].
  destruct (optimized_model w) as [[m | s]|]; reflexivity.
Qed.

(** What one call of [predict] does to the object: nothing (a cache hit
    or a model that raised), one more inference time, or one more
    inference time and one more cache entry under a fresh non-zero key. *)
Lemma predict_cases w input use_cache t :
  let w' := snd (predict w input use_cache t) in
  w' = w
  \/ (exists result,
         run_best_model w input = inr result
         /\ w' = Wrapper (original_model w) (model_type w) (optimized_model w)
                         (quantized_model w) (onnx_session w)
                         (inference_times w ++ [t]) (prediction_cache w))
  \/ (exists result,
         py_hash (py_str input) <> 0%Z
         /\ prediction_cache w !! py_hash (py_str input) = None
         /\ run_best_model w input = inr result
         /\ w' = Wrapper (original_model w) (model_type w) (optimized_model w)
                         (quantized_model w) (onnx_session w)
                         (inference_times w ++ [t])
                         (<[py_hash (py_str input) := result]>
                            (prediction_cache w))).
Proof.
  unfold predict. destruct use_cache; simpl.
  - destruct (prediction_cache w !! py_hash (py_str input)) as [cached|] eqn:Hc;
      [left; reflexivity|].
    destruct (run_best_model w input) as [e | result] eqn:Hrun;
      [left; reflexivity|].
    destruct (Z.eqb_spec (py_hash (py_str input)) 0) as [Hz | Hnz]; simpl.
    + right. left. exists result. split; reflexivity.
    + right. right. exists result. repeat split; assumption.
  - destruct (run_best_model w input) as [e | result] eqn:Hrun;
      [left; reflexivity|].
    right. left. exists result. split; reflexivity.
Qed.

Lemma predictions_snoc w calls c :
  predictions w (calls ++ [c])
  = snd (predict (predictions w calls) (fst (fst c)) (snd (fst c)) (snd c)).
Proof. unfold predictions. now rewrite fold_left_app. Qed.

Lemma predictions_invariant w0 calls :
  inference_times w0 = [] ->
  prediction_cache w0 = ∅ ->
  let w := predictions w0 calls in
  (model_to_use w = model_to_use w0 /\ model_type w = model_type w0)
  /\ (size (prediction_cache w) <= length (inference_times w))%nat
  /\ (length (inference_times w) <= length calls)%nat
  /\ prediction_cache w !! 0%Z = None
  /\ (forall k result,
         prediction_cache w !! k = Some result ->
         exists c, In c calls
                   /\ py_hash (py_str (fst (fst c))) = k
                   /\ predict_with (model_to_use w0) (model_type w0)
                                   (fst (fst c)) = inr result).
Proof.
  intros Ht Hc. induction calls as [|c calls IH] using rev_ind.
  - cbv zeta. change (predictions w0 []) with w0. rewrite Ht, Hc.
    split; [split; reflexivity|]. split; [rewrite map_size_empty; simpl; lia|].
    split; [simpl; lia|]. split; [apply lookup_empty|].
    intros k result Hk. rewrite lookup_empty in Hk. discriminate Hk.
  - cbv zeta in IH |- *. rewrite predictions_snoc.
    set (w := predictions w0 calls) in *.
    destruct IH as ((Hm & Hty) & Hsize & Hlen & Hzero & Hin).
    rewrite length_app. simpl.
    destruct (predict_cases w (fst (fst c)) (snd (fst c)) (snd c))
      as [Hsame | [(result & Hrun & Hw') | (result & Hnz & Hmiss & Hrun & Hw')]];
      cbv zeta in *.
    + rewrite Hsame. repeat split; try assumption; try lia.
      intros k result Hk. destruct (Hin k result Hk) as (c' & Hc' & Hrest).
      exists c'. split; [apply in_or_app; now left | exact Hrest].
    + rewrite Hw'. unfold model_to_use in *. simpl.
      rewrite length_app. simpl.
      repeat split; try assumption; try lia.
      intros k result' Hk. destruct (Hin k result' Hk) as (c' & Hc' & Hrest).
      exists c'. split; [apply in_or_app; now left | exact Hrest].
    + rewrite Hw'. unfold model_to_use in *. simpl.
      rewrite length_app. simpl.
      rewrite (map_size_insert_None _ _ _ Hmiss).
      repeat split; try assumption; try lia.
      * rewrite lookup_insert_ne by exact Hnz. exact Hzero.
      * intros k result' Hk.
        destruct (decide (py_hash (py_str (fst (fst c))) = k)) as [<- | Hne].
        -- rewrite lookup_insert_eq in Hk. inversion Hk; subst result'.
           exists c. split; [apply in_or_app; right; now left|].
           split; [reflexivity|].
           rewrite run_best_model_chosen in Hrun.
           unfold model_to_use in Hrun |- *. rewrite <- Hm, <- Hty. exact Hrun.
        -- rewrite lookup_insert_ne in Hk by exact Hne.
           destruct (Hin k result' Hk) as (c' & Hc' & Hrest).
           exists c'. split; [apply in_or_app; now left | exact Hrest].
Qed.

(** Over any series of [predict] calls on a wrapper that has not
    predicted before: the model that serves the calls never changes; the
    statistics are empty until a model has run, and then
    'total_predictions' counts the runs of the model, not the calls, and
    'cache_hits', the size of the cache, is at most that count; the key 0
    is never cached; and every cached value is what the serving model
    returned for one of the inputs with that key. *)
Theorem predictions_keep_statistics_consistent :
  forall (w0 : wrapper) (calls : list call),
    inference_times w0 = [] ->
    prediction_cache w0 = ∅ ->
    let w := predictions w0 calls in
    model_to_use w = model_to_use w0
    /\ match inference_times w with
       | [] => get_performance_stats w = PyDict [] /\ prediction_cache w = ∅
       | _ =>
           exists total hits : Z,
             item (get_performance_stats w) "total_predictions" = Some (PyInt total)
             /\ item (get_performance_stats w) "cache_hits" = Some (PyInt hits)
             /\ total = Z.of_nat (length (inference_times w))
             /\ (0 <= hits <= total)%Z
             /\ (total <= Z.of_nat (length calls))%Z
       end
    /\ prediction_cache w !! 0%Z = None
    /\ (forall k result,
           prediction_cache w !! k = Some result ->
           exists c, In c calls
                     /\ py_hash (py_str (fst (fst c))) = k
                     /\ predict_with (model_to_use w0) (model_type w0)
                                     (fst (fst c)) = inr result).
Proof.
  intros w0 calls Ht Hc w.
  destruct (predictions_invariant w0 calls Ht Hc)
    as ((Hm & _) & Hsize & Hlen & Hzero & Hin).
  fold w in Hm, Hsize, Hlen, Hzero, Hin.
  split; [exact Hm|]. split; [|split; [exact Hzero | exact Hin]].
  unfold get_performance_stats.
  destruct (inference_times w) as [|t ts] eqn:Htimes.
  - split; [reflexivity|]. simpl in Hsize.
    apply map_size_empty_iff. lia.
  - eexists _, _. split; [reflexivity|]. split; [reflexivity|].
    split; [reflexivity|]. split; lia.
Qed.

Lemma export_fields available w :
  let w' := after (_export_to_onnx available w) in
  original_model w' = original_model w
  /\ model_type w' = model_type w
  /\ optimized_model w' = optimized_model w
  /\ quantized_model w' = quantized_model w
  /\ inference_times w' = inference_times w
  /\ prediction_cache w' = prediction_cache w
  /\ (onnx_session w' = onnx_session w
      \/ (available = true /\ known_model_type (model_type w) = true)).
Proof.
  unfold _export_to_onnx.
  destruct available; simpl; [|repeat split; now left].
  destruct (known_model_type (model_type w)); simpl; [|repeat split; now left].
  destruct (onnx_export _ _ _) as [e1 | []]; simpl; [repeat split; now left|].
  destruct (InferenceSession _) as [e2 | sess]; simpl;
    repeat split; (now left) || (now right).
Qed.

(** The model that serves [predict] once [optimize_model] has returned on
    a fresh wrapper.  The ONNX session serves only at 'aggressive', the
    quantized model at 'medium' and 'aggressive', both only with the
    optimisation libraries; the TorchScript module serves at 'light', and
    at the other two levels only without those libraries; the original
    model serves after a caught failure of scripting or quantization, and
    at a level that is none of the three. *)
Theorem optimized_wrapper_serves_best_model :
  forall (available : bool) (m : nn_module) (t level : string),
    let r := optimize_model available (init m t) level in
    raised r = None ->
    match model_to_use (after r) with
    | UseSession _ =>
        level = "aggressive" /\ available = true /\ known_model_type t = true
    | UseQuantized _ =>
        (level = "medium" \/ level = "aggressive") /\ available = true
    | UseOptimized (Scripted _) =>
        level = "light"
        \/ ((level = "medium" \/ level = "aggressive") /\ available = false)
    | UseOptimized (Eager m') =>
        m' = m
        /\ (level = "medium" \/ level = "aggressive")
        /\ exists e, is_Exception e = true
                     /\ (jit_script m = inl e
                         \/ (available = true /\ quantize_dynamic m = inl e))
    | UseOriginal m' =>
        m' = m /\ level <> "light" /\ level <> "medium" /\ level <> "aggressive"
    end.
Proof.
  intros available m t level r. subst r. unfold optimize_model.
  destruct (String.eqb_spec level "light") as [-> | Hl].
  { simpl. destruct (jit_script m) as [e | s]; simpl; [discriminate|].
    intros _. now left. }
  destruct (String.eqb_spec level "medium") as [-> | Hm].
  { unfold optimize_try, optimize_except. simpl.
    destruct (jit_script m) as [e | s] eqn:Hjit; simpl.
    - destruct (is_Exception e) eqn:He; simpl; [|discriminate].
      intros _. split; [reflexivity|]. split; [now left|].
      exists e. split; [exact He | now left].
    - destruct available; simpl.
      + destruct (quantize_dynamic m) as [e | q] eqn:Hq; simpl.
        * destruct (is_Exception e) eqn:He; simpl; [|discriminate].
          intros _. split; [reflexivity|]. split; [now left|].
          exists e. split; [exact He | right; now split].
        * intros _. split; [now left | reflexivity].
      + intros _. right. split; [now left | reflexivity]. }
  destruct (String.eqb_spec level "aggressive") as [-> | Ha].
  { unfold optimize_try, optimize_except. simpl.
    destruct (jit_script m) as [e | s] eqn:Hjit; simpl.
    - destruct (is_Exception e) eqn:He; simpl; [|discriminate].
      intros _. split; [reflexivity|]. split; [now right|].
      exists e. split; [exact He | now left].
    - destruct available; simpl.
      + destruct (quantize_dynamic m) as [e | q] eqn:Hq; simpl.
        * destruct (is_Exception e) eqn:He; simpl; [|discriminate].
          intros _. split; [reflexivity|]. split; [now right|].
          exists e. split; [exact He | right; now split].
        * set (w2 := set_quantized _ q).
          destruct (export_fields true w2)
            as (_ & _ & Hopt & Hqu & _ & _ & Hsess).
          cbv zeta in Hopt, Hqu, Hsess.
          destruct (raised (_export_to_onnx true w2)) as [e|] eqn:Hraised.
          { rewrite (export_never_raises_exception true w2 e Hraised). simpl.
            discriminate. }
          simpl. intros _. unfold model_to_use.
          destruct (onnx_session (after (_export_to_onnx true w2))) eqn:Hs.
          -- destruct Hsess as [Hsame | [_ Hknown]];
               [subst w2; simpl in Hsame; discriminate Hsame|].
             split; [reflexivity|]. split; [reflexivity | exact Hknown].
          -- rewrite Hqu. subst w2. simpl. split; [now right | reflexivity].
      + intros _. right. split; [now right | reflexivity]. }
  simpl. intros _. repeat split; assumption.
Qed.

End PredictMore.

Section StubRuntimeMore.
Import Py ProductionModelWrapper.
Local Open Scope list_scope.
#[local] Existing Instance stub_runtime.

(** Four calls on a scripted audio wrapper in the stub runtime: the empty
    dictionary twice (the second call is served from the cache), a
    non-empty one whose key is 0, and one call without the cache.  Three
    of them run the model and one result is cached. *)
Lemma predictions_witness :
  let w0 := after (optimize_model false (init tt "audio_emotion") "light") in
  let calls :=
    [ (PyDict [], true, 1 # 100); (PyDict [], true, 1 # 200);
      (PyDict [("audio_features", PyList [])], true, 1 # 100);
      (PyDict [], false, 1 # 50) ] in
  inference_times w0 = []
  /\ prediction_cache w0 = ∅
  /\ model_to_use (predictions w0 calls) = UseOptimized (Scripted tt)
  /\ item (get_performance_stats (predictions w0 calls)) "total_predictions"
     = Some (PyInt 3)
  /\ item (get_performance_stats (predictions w0 calls)) "cache_hits"
     = Some (PyInt 1).
Proof.
  intros w0 calls.
  destruct (predictions_keep_statistics_consistent w0 calls eq_refl eq_refl)
    as (Hmodel & _ & _ & _).
  split; [reflexivity|]. split; [reflexivity|].
  split; [exact Hmodel|]. split; reflexivity.
Defined.

(** The 'medium' level in the stub runtime, where every library call
    succeeds: the call returns and the quantized model serves. *)
Lemma optimized_wrapper_witness :
  let r := optimize_model true (init tt "text_emotion") "medium" in
  raised r = None
  /\ model_to_use (after r) = UseQuantized tt.
Proof.
  intros r. split; [reflexivity|].
  pose proof (optimized_wrapper_serves_best_model true tt "text_emotion"
                "medium" eq_refl) as Hserve.
  cbv zeta in Hserve. fold r in Hserve.
  destruct (model_to_use (after r)) as [s | [] | [m | s] | m] eqn:Hchosen;
    try reflexivity; exfalso.
  - destruct Hserve as (Hlevel & _). discriminate Hlevel.
  - vm_compute in Hchosen. discriminate Hchosen.
  - vm_compute in Hchosen. discriminate Hchosen.
  - destruct Hserve as (_ & _ & Hlevel & _). now apply Hlevel.
Defined.

End StubRuntimeMore.

(** ** Loading the trained models for production *)

(** The multimodal part registered nothing. *)
Ltac nothing_registered Hbase Hall Hno :=
  split; [exact Hbase|]; split; [exact Hall|];
  let w := fresh "w" in
  let Hw := fresh "Hw" in
  intros w Hw; rewrite Hno in Hw; discriminate Hw.

Section IntegratorFacts.
Import Py ProductionModelWrapper ModelIntegrator.
Local Open Scope list_scope.
Context `{Runtime}.

(** [optimize_model] touches the three optimised models only. *)
Lemma optimize_fields available w level :
  let w' := after (optimize_model available w level) in
  original_model w' = original_model w
  /\ model_type w' = model_type w
  /\ inference_times w' = inference_times w
  /\ prediction_cache w' = prediction_cache w.
Proof.
  assert (Htry : forall export,
             let w' := after (optimize_except (optimize_try available export w)) in
             original_model w' = original_model w
             /\ model_type w' = model_type w
             /\ inference_times w' = inference_times w
             /\ prediction_cache w' = prediction_cache w).
  { intros export. unfold optimize_try, optimize_except.
    destruct (jit_script (original_model w)) as [e | s]; simpl.
    { destruct (is_Exception e); simpl; repeat split. }
    destruct available; simpl; [|repeat split].
    destruct (quantize_dynamic (original_model w)) as [e | q]; simpl.
    { destruct (is_Exception e); simpl; repeat split. }
    destruct export; simpl; [|repeat split].
    set (w2 := set_quantized _ q).
    destruct (export_fields true w2) as (Ho & Hty & _ & _ & Hti & Hca & _).
    cbv zeta in Ho, Hty, Hti, Hca.
    destruct (raised (_export_to_onnx true w2)) as [e|]; simpl.
    - destruct (is_Exception e); simpl; rewrite ?Ho, ?Hty, ?Hti, ?Hca;
        repeat split.
    - rewrite Ho, Hty, Hti, Hca. repeat split. }
  unfold optimize_model.
  destruct (String.eqb level "light").
  { destruct (jit_script (original_model w)); simpl; repeat split. }
  destruct (String.eqb level "medium"); [apply Htry|].
  destruct (String.eqb level "aggressive"); [apply Htry|].
  simpl. repeat split.
Qed.

(** At one of the three levels, a call that returns leaves an optimised
    model behind. *)
Lemma optimize_sets_optimized available w level :
  level = "light" \/ level = "medium" \/ level = "aggressive" ->
  raised (optimize_model available w level) = None ->
  is_Some (optimized_model (after (optimize_model available w level))).
Proof.
  assert (Htry : forall export,
             raised (optimize_except (optimize_try available export w)) = None ->
             is_Some (optimized_model
                        (after (optimize_except
                                  (optimize_try available export w))))).
  { intros export. unfold optimize_try, optimize_except.
    destruct (jit_script (original_model w)) as [e | s]; simpl.
    { destruct (is_Exception e); simpl; [eauto | discriminate]. }
    destruct available; simpl; [|eauto].
    destruct (quantize_dynamic (original_model w)) as [e | q]; simpl.
    { destruct (is_Exception e); simpl; [eauto | discriminate]. }
    destruct export; simpl; [|eauto].
    set (w2 := set_quantized _ q).
    destruct (export_fields true w2) as (_ & _ & Hopt & _).
    cbv zeta in Hopt.
    destruct (raised (_export_to_onnx true w2)) as [e|]; simpl.
    - destruct (is_Exception e); simpl; [eauto | discriminate].
    - intros _. rewrite Hopt. subst w2. simpl. eauto. }
  intros [-> | [-> | ->]]; unfold optimize_model; simpl.
  - destruct (jit_script (original_model w)); simpl; [discriminate | eauto].
  - apply Htry.
  - apply Htry.
Qed.

Lemma optimize_raises_no_exception available w level e :
  level = "medium" \/ level = "aggressive" ->
  raised (optimize_model available w level) = Some e ->
  is_Exception e = false.
Proof.
  intros [-> | ->]; unfold optimize_model; simpl;
    apply optimize_except_no_exception.
Qed.

Lemma register_spec available level name loaded pm :
  match register available level name loaded pm with
  | inl e => is_Exception e = false
  | inr pm' =>
      pm' = pm
      \/ exists model,
          loaded = inr model
          /\ raised (optimize_model available (init model name) level) = None
          /\ pm' = <[name := after (optimize_model available (init model name)
                                                   level)]> pm
  end.
Proof.
  unfold register. destruct loaded as [e | model].
  - destruct (is_Exception e) eqn:He; [now left | exact He].
  - destruct (raised (optimize_model available (init model name) level))
      as [e|] eqn:Hr.
    + destruct (is_Exception e) eqn:He; [now left | exact He].
    + right. exists model. repeat split. exact Hr.
Qed.

Lemma register_complete available level name model pm pm' :
  level = "medium" \/ level = "aggressive" ->
  register available level name (inr model) pm = inr pm' ->
  pm' = <[name := after (optimize_model available (init model name) level)]> pm.
Proof.
  intros Hlevel. unfold register.
  destruct (raised (optimize_model available (init model name) level))
    as [e|] eqn:Hr.
  - rewrite (optimize_raises_no_exception _ _ _ _ Hlevel Hr). discriminate.
  - now intros [= <-].
Qed.

(** A wrapper that [register] has just made for [model]. *)
Lemma registered_wrapper available level name model :
  let w := after (optimize_model available (init model name) level) in
  raised (optimize_model available (init model name) level) = None ->
  original_model w = model
  /\ model_type w = name
  /\ inference_times w = []
  /\ prediction_cache w = ∅
  /\ (level = "light" \/ level = "medium" \/ level = "aggressive" ->
      is_Some (optimized_model w)).
Proof.
  intros w Hr. subst w.
  destruct (optimize_fields available (init model name) level)
    as (Ho & Hty & Hti & Hca).
  cbv zeta in Ho, Hty, Hti, Hca.
  split; [exact Ho|]. split; [exact Hty|]. split; [exact Hti|].
  split; [exact Hca|]. intros Hlevel. now apply optimize_sets_optimized.
Qed.

Lemma load_each_spec dir available level cs :
  forall pm,
    match load_each dir available level cs pm with
    | inl e => is_Exception e = false
    | inr pm' =>
        (forall name w,
            pm' !! name = Some w ->
            pm !! name = Some w
            \/ ((exists file, In (name, file) cs /\ file_exists dir file = true)
                /\ load_model dir name = inr (original_model w)
                /\ model_type w = name
                /\ inference_times w = []
                /\ prediction_cache w = ∅
                /\ (level = "light" \/ level = "medium" \/ level = "aggressive" ->
                    is_Some (optimized_model w))))
        /\ (forall name, (forall file, ~ In (name, file) cs) ->
                         pm' !! name = pm !! name)
        /\ (List.NoDup (map fst cs) ->
            forall name file model,
              In (name, file) cs -> file_exists dir file = true ->
              load_model dir name = inr model ->
              level = "medium" \/ level = "aggressive" ->
              exists w, pm' !! name = Some w /\ original_model w = model)
    end.
Proof.
  induction cs as [|[name0 file0] cs IH]; intros pm.
  - simpl. split; [now left|]. split; [reflexivity|].
    intros _ name file model [].
  - cbn [load_each].
    destruct (file_exists dir file0) eqn:Hfile.
    + pose proof (register_spec available level name0 (load_model dir name0) pm)
        as Hreg.
      destruct (register available level name0 (load_model dir name0) pm)
        as [e | pm1] eqn:Hregister; [exact Hreg|].
      specialize (IH pm1).
      destruct (load_each dir available level cs pm1) as [e | pm']; [exact IH|].
      destruct IH as (Hin & Hout & Hall).
      split; [|split].
      * intros name w Hw. destruct (Hin name w Hw) as [Hold | Hnew].
        -- destruct Hreg as [-> | (model & Hload & Hr & ->)]; [now left|].
           destruct (decide (name0 = name)) as [-> | Hne].
           ++ rewrite lookup_insert_eq in Hold. inversion Hold; subst w.
              right.
              destruct (registered_wrapper available level name model Hr)
                as (Ho & Hrest).
              split; [exists file0; split; [now left | exact Hfile]|].
              split; [rewrite Ho; exact Hload | exact Hrest].
           ++ rewrite lookup_insert_ne in Hold by exact Hne. now left.
        -- right. destruct Hnew as ((file & Hf & Hex) & Hrest).
           split; [exists file; split; [now right | exact Hex] | exact Hrest].
      * intros name Hname. rewrite Hout.
        -- destruct Hreg as [-> | (model & _ & _ & ->)]; [reflexivity|].
           apply lookup_insert_ne. intros ->. apply (Hname file0). now left.
        -- intros file Hf. apply (Hname file). now right.
      * intros Hnd name file model Hf Hex Hload Hlevel.
        simpl in Hnd. apply List.NoDup_cons_iff in Hnd as [Hfresh Hnd].
        destruct Hf as [[= -> ->] | Hf].
        -- rewrite Hload in Hregister.
           rewrite (register_complete _ _ _ _ _ _ Hlevel Hregister) in Hout.
           rewrite Hout.
           ++ rewrite lookup_insert_eq. eexists. split; [reflexivity|].
              apply optimize_fields.
           ++ intros file' Hf'. apply Hfresh.
              apply in_map_iff. exists (name, file'). now split.
        -- now apply (Hall Hnd name file model).
    + specialize (IH pm).
      destruct (load_each dir available level cs pm) as [e | pm']; [exact IH|].
      destruct IH as (Hin & Hout & Hall).
      split; [|split].
      * intros name w Hw. destruct (Hin name w Hw) as [Hold | Hnew];
          [now left|].
        right. destruct Hnew as ((file & Hf & Hex) & Hrest).
        split; [exists file; split; [now right | exact Hex] | exact Hrest].
      * intros name Hname. apply Hout. intros file Hf.
        apply (Hname file). now right.
      * intros Hnd name file model Hf Hex Hload Hlevel.
        simpl in Hnd. apply List.NoDup_cons_iff in Hnd as [Hfresh Hnd].
        destruct Hf as [[= -> ->] | Hf]; [congruence|].
        now apply (Hall Hnd name file model).
Qed.

(** [load_and_optimize_models] on an integrator that holds no model yet.
    No [Exception] leaves the call.  Every wrapper it registers is named
    after its model type, belongs to a checkpoint file that exists, has
    made no prediction (so its performance statistics are empty) and, at
    one of the three optimisation levels, has an optimised model.  At
    'medium' and 'aggressive' every model of [model_configs] whose file
    exists and loads is registered.  The multimodal model is registered
    only together with the text and the audio model, and it was built
    from their original models. *)
Theorem load_and_optimize_models_registers_consistently :
  forall (dir : models_directory) (available : bool) (level : string),
    match load_and_optimize_models dir available level ∅ with
    | inl e => is_Exception e = false
    | inr pm =>
        (forall name w,
            pm !! name = Some w ->
            model_type w = name
            /\ get_performance_stats w = PyDict []
            /\ prediction_cache w = ∅
            /\ (exists file,
                   (In (name, file) model_configs
                    \/ (name, file)
                       = ("multimodal", "best_multimodal_emotion_model.pth"))
                   /\ file_exists dir file = true)
            /\ (level = "light" \/ level = "medium" \/ level = "aggressive" ->
                is_Some (optimized_model w)))
        /\ (forall name file model,
               In (name, file) model_configs ->
               file_exists dir file = true ->
               load_model dir name = inr model ->
               level = "medium" \/ level = "aggressive" ->
               exists w, pm !! name = Some w /\ original_model w = model)
        /\ (forall w,
               pm !! "multimodal" = Some w ->
               exists text_wrapper audio_wrapper,
                 pm !! "text_emotion" = Some text_wrapper
                 /\ pm !! "audio_emotion" = Some audio_wrapper
                 /\ load_model dir "text_emotion"
                    = inr (original_model text_wrapper)
                 /\ load_model dir "audio_emotion"
                    = inr (original_model audio_wrapper)
                 /\ load_multimodal dir (original_model text_wrapper)
                                    (original_model audio_wrapper)
                    = inr (original_model w))
    end.
Proof.
  intros dir available level. unfold load_and_optimize_models.
  pose proof (load_each_spec dir available level model_configs ∅) as Hloop.
  destruct (load_each dir available level model_configs ∅) as [e | pm];
    [exact Hloop|].
  destruct Hloop as (Hin & Hout & Hall).
  assert (Hnd : List.NoDup (map fst model_configs)).
  { simpl. repeat constructor; simpl; intuition discriminate. }
  specialize (Hall Hnd).
  assert (Hentry : forall name w,
             pm !! name = Some w ->
             (exists file, In (name, file) model_configs
                           /\ file_exists dir file = true)
             /\ load_model dir name = inr (original_model w)
             /\ model_type w = name
             /\ inference_times w = []
             /\ prediction_cache w = ∅
             /\ (level = "light" \/ level = "medium" \/ level = "aggressive" ->
                 is_Some (optimized_model w))).
  { intros name w Hw. destruct (Hin name w Hw) as [Hold | Hnew];
      [rewrite lookup_empty in Hold; discriminate Hold | exact Hnew]. }
  assert (Hno : pm !! "multimodal" = None).
  { rewrite Hout; [apply lookup_empty|].
    intros file Hf. simpl in Hf. intuition discriminate. }
  assert (Hbase : forall name w,
             pm !! name = Some w ->
             model_type w = name
             /\ get_performance_stats w = PyDict []
             /\ prediction_cache w = ∅
             /\ (exists file,
                    (In (name, file) model_configs
                     \/ (name, file)
                        = ("multimodal", "best_multimodal_emotion_model.pth"))
                    /\ file_exists dir file = true)
             /\ (level = "light" \/ level = "medium" \/ level = "aggressive" ->
                 is_Some (optimized_model w))).
  { intros name w Hw.
    destruct (Hentry name w Hw) as ((file & Hf & Hex) & _ & Hty & Hti & Hca & Ho).
    split; [exact Hty|].
    split; [unfold get_performance_stats; now rewrite Hti|].
    split; [exact Hca|].
    split; [exists file; split; [now left | exact Hex] | exact Ho]. }
  match goal with
  | |- match ?result with _ => _ end =>
      remember result as r eqn:Hresult; symmetry in Hresult
  end.
  destruct (pm !! "text_emotion") as [tw|] eqn:Htw;
    [|subst r; nothing_registered Hbase Hall Hno].
  destruct (pm !! "audio_emotion") as [aw|] eqn:Haw;
    [|subst r; nothing_registered Hbase Hall Hno].
  destruct (file_exists dir "best_multimodal_emotion_model.pth") eqn:Hfile;
    [|subst r; nothing_registered Hbase Hall Hno].
  pose proof (register_spec available level "multimodal"
                (load_multimodal dir (original_model tw) (original_model aw)) pm)
    as Hreg.
  rewrite Hresult in Hreg. clear Hresult.
  destruct r as [e | pm']; [exact Hreg|].
  destruct Hreg as [-> | (mm & Hload & Hr & ->)];
    [nothing_registered Hbase Hall Hno|].
  destruct (registered_wrapper available level "multimodal" mm Hr)
    as (Ho & Hty & Hti & Hca & Hopt).
  split; [|split].
  - intros name w Hw.
    destruct (decide ("multimodal" = name)) as [<- | Hne].
    + rewrite lookup_insert_eq in Hw. inversion Hw; subst w.
      split; [exact Hty|].
      split; [unfold get_performance_stats; now rewrite Hti|].
      split; [exact Hca|].
      split; [eexists; split; [right; reflexivity | exact Hfile] | exact Hopt].
    + rewrite lookup_insert_ne in Hw by exact Hne. now apply Hbase.
  - intros name file model Hf Hex Hlm Hlevel.
    destruct (Hall name file model Hf Hex Hlm Hlevel) as (w & Hw & Hwo).
    exists w. split; [|exact Hwo].
    rewrite lookup_insert_ne; [exact Hw|].
    intros <-. rewrite Hno in Hw. discriminate Hw.
  - intros w Hw. rewrite lookup_insert_eq in Hw. inversion Hw; subst w.
    exists tw, aw.
    rewrite !lookup_insert_ne by discriminate.
    split; [exact Htw|]. split; [exact Haw|].
    destruct (Hentry _ _ Htw) as (_ & Hlt & _).
    destruct (Hentry _ _ Haw) as (_ & Hla & _).
    split; [exact Hlt|]. split; [exact Hla|].
    rewrite Ho. exact Hload.
Qed.

End IntegratorFacts.

(** With the text and the audio checkpoint in the models directory and
    no multimodal one, the two models are registered, quantized, and
    nothing else is. *)
Example load_two_checkpoints :
  exists pm,
    @ModelIntegrator.load_and_optimize_models ProductionModelWrapper.stub_runtime
      ModelIntegrator.two_checkpoints true "medium" ∅ = inr pm
    /\ ProductionModelWrapper.model_to_use <$> pm !! "text_emotion"
       = Some (ProductionModelWrapper.UseQuantized (tt : @quantized_module ProductionModelWrapper.stub_runtime))
    /\ is_Some (pm !! "audio_emotion")
    /\ pm !! "emotion_tts" = None
    /\ pm !! "multimodal" = None.
Proof.
  eexists. split; [reflexivity|].
  split; [reflexivity|]. split; [eexists; reflexivity|].
  split; reflexivity.
Qed.

(** ** Cleaning the texts *)

Section CleaningFacts.
Import Py.
Local Open Scope list_scope.

Lemma split_ws_cur_nonempty (s cur : string) :
  cur <> EmptyString -> split_ws cur s <> [].
Proof.
  revert cur. induction s as [|c s IH]; intros cur Hcur; simpl.
  - destruct cur; [contradiction | discriminate].
  - destruct (is_space c).
    + destruct cur; [contradiction | discriminate].
    + apply IH. destruct cur; discriminate.
Qed.

Lemma rstrip_tail (c : ascii) (t : string) :
  rstrip (String c t) = String c t ->
  rstrip t = t /\ (is_space c = true -> t <> EmptyString).
Proof.
  simpl. destruct (rstrip t) as [|c' r] eqn:Hr.
  - destruct (is_space c); [discriminate|].
    intros [= <-]. split; [reflexivity | discriminate].
  - intros [= <-]. split; [reflexivity | discriminate].
Qed.

Lemma rstrip_idem (s : string) : rstrip (rstrip s) = rstrip s.
Proof.
  induction s as [|c s IH]; [reflexivity|]. simpl.
  destruct (rstrip s) as [|c' r] eqn:Hr.
  - destruct (is_space c) eqn:Hc; [reflexivity|]. simpl. now rewrite Hc.
  - change (rstrip (String c (String c' r)))
      with (match rstrip (String c' r) with
            | EmptyString =>
                if is_space c then EmptyString else String c EmptyString
            | r' => String c r'
            end).
    now rewrite IH.
Qed.

Lemma rstrip_lstrip (t : string) : rstrip t = t -> rstrip (lstrip t) = lstrip t.
Proof.
  induction t as [|c t IH]; intros Ht; [reflexivity|].
  destruct (rstrip_tail c t Ht) as [Ht' _].
  cbn [lstrip]. destruct (is_space c); [now apply IH | exact Ht].
Qed.

Lemma lstrip_head (s : string) :
  match lstrip s with
  | EmptyString => True
  | String c _ => is_space c = false
  end.
Proof.
  induction s as [|c s IH]; simpl; [exact I|].
  destruct (is_space c) eqn:Hc; [exact IH | exact Hc].
Qed.

Lemma split_ws_lstrip (s : string) :
  split_ws EmptyString (lstrip s) = split_ws EmptyString s.
Proof.
  induction s as [|c s IH]; [reflexivity|]. simpl.
  destruct (is_space c) eqn:Hc; [exact IH|]. simpl. now rewrite Hc.
Qed.

Lemma split_ws_rstrip (s cur : string) :
  split_ws cur (rstrip s) = split_ws cur s.
Proof.
  revert cur. induction s as [|c s IH]; intros cur; [reflexivity|].
  cbn [rstrip]. destruct (rstrip s) as [|c' r] eqn:Hr.
  - destruct (is_space c) eqn:Hc; cbn [split_ws]; rewrite Hc.
    + rewrite <- (IH EmptyString). simpl. now destruct cur.
    + rewrite <- IH. reflexivity.
  - cbn [split_ws]. destruct (is_space c).
    + now rewrite <- (IH EmptyString).
    + now rewrite <- IH.
Qed.

Lemma split_ws_collapse (s cur : string) (in_run : bool) :
  (in_run = true -> cur = EmptyString) ->
  split_ws cur (collapse_ws is_space in_run s) = split_ws cur s.
Proof.
  revert cur in_run. induction s as [|c s IH]; intros cur in_run Hrun;
    [reflexivity|].
  cbn [collapse_ws split_ws]. destruct (is_space c) eqn:Hc.
  - destruct in_run.
    + rewrite (Hrun eq_refl). now apply IH.
    + cbn [split_ws].
      change (is_space " ") with true. cbv iota.
      now rewrite (IH EmptyString true).
  - cbn [split_ws]. rewrite Hc. apply IH. discriminate.
Qed.

Lemma concat_cons_nonempty (sep x : string) (l : list string) :
  l <> [] ->
  String.concat sep (x :: l)
  = String.append x (String.append sep (String.concat sep l)).
Proof. destruct l; [contradiction | reflexivity]. Qed.

Lemma append_assoc (a b c : string) :
  String.append (String.append a b) c = String.append a (String.append b c).
Proof.
  induction a as [|x a IH]; [reflexivity|].
  change (String x (String.append (String.append a b) c)
          = String x (String.append a (String.append b c))).
  now f_equal.
Qed.

Lemma append_nil_r (a : string) : String.append a EmptyString = a.
Proof.
  induction a as [|x a IH]; [reflexivity|].
  change (String x (String.append a EmptyString) = String x a).
  now f_equal.
Qed.

(** On a string without trailing blanks, joining the words with single
    spaces is what collapsing the runs of blanks gives. *)
Lemma join_split_collapse (t : string) :
  rstrip t = t ->
  (forall cur, cur <> EmptyString ->
     String.concat " " (split_ws cur t)
     = String.append cur (collapse_ws is_space false t))
  /\ String.concat " " (split_ws EmptyString t) = collapse_ws is_space true t
  /\ (t <> EmptyString -> split_ws EmptyString t <> []).
Proof.
  induction t as [|c t IH]; intros Ht.
  - split; [|split; [reflexivity | congruence]].
    intros cur Hcur. simpl.
    destruct cur as [|x cur]; [contradiction|].
    change (String x cur = String.append (String x cur) EmptyString).
    now rewrite append_nil_r.
  - destruct (rstrip_tail c t Ht) as [Ht' Hne].
    destruct (IH Ht') as (IHword & IHrun & IHne).
    assert (Hword : is_space c = false ->
              forall cur,
                String.concat " " (split_ws cur (String c t))
                = String.append cur (collapse_ws is_space false (String c t))).
    { intros Hc cur. cbn [split_ws collapse_ws]. rewrite Hc.
      rewrite IHword by (destruct cur; discriminate).
      rewrite append_assoc. reflexivity. }
    split; [|split].
    + intros cur Hcur. destruct (is_space c) eqn:Hc; [|now apply Hword].
      cbn [split_ws collapse_ws]. rewrite Hc.
      destruct cur as [|x cur]; [contradiction|].
      rewrite concat_cons_nonempty by (apply IHne, Hne; reflexivity).
      rewrite IHrun. reflexivity.
    + destruct (is_space c) eqn:Hc.
      * cbn [split_ws collapse_ws]. rewrite Hc. exact IHrun.
      * rewrite (Hword eq_refl). cbn [collapse_ws]. now rewrite Hc.
    + intros _. cbn [split_ws]. destruct (is_space c) eqn:Hc.
      * apply IHne, Hne. reflexivity.
      * apply split_ws_cur_nonempty. discriminate.
Qed.

(** With [str.isspace] for the class of blanks,
    [re.sub(r'\s+', ' ', s.strip())] is [' '.join(s.split())], and it has
    the words of [s]. *)
Lemma clean_is_join (s : string) :
  collapse_ws is_space false (strip s)
  = String.concat " " (split_ws EmptyString s).
Proof.
  unfold strip.
  rewrite <- (split_ws_rstrip s), <- (split_ws_lstrip (rstrip s)).
  pose proof (rstrip_lstrip (rstrip s) (rstrip_idem s)) as Hfix.
  pose proof (lstrip_head (rstrip s)) as Hhead.
  destruct (lstrip (rstrip s)) as [|c u] eqn:Hu; [reflexivity|].
  destruct (rstrip_tail c u Hfix) as [Hu' _].
  destruct (join_split_collapse u Hu') as (Hword & _).
  cbn [split_ws collapse_ws]. rewrite Hhead.
  now rewrite Hword by discriminate.
Qed.

Lemma clean_words (s : string) :
  split_ws EmptyString (collapse_ws is_space false (strip s))
  = split_ws EmptyString s.
Proof.
  unfold strip.
  rewrite split_ws_collapse by discriminate.
  now rewrite split_ws_lstrip, split_ws_rstrip.
Qed.

(** Stripping a plain string leaves a plain string. *)
Lemma plain_lstrip (s : string) : plain s = true -> plain (lstrip s) = true.
Proof.
  induction s as [|c s IH]; [reflexivity|]. intros Hs.
  cbn [lstrip]. destruct (is_space c); [|exact Hs].
  apply IH. cbn [plain] in Hs. now apply andb_prop in Hs as [_ Hs].
Qed.

Lemma plain_rstrip (s : string) : plain s = true -> plain (rstrip s) = true.
Proof.
  induction s as [|c s IH]; [reflexivity|]. intros Hs.
  cbn [plain] in Hs. apply andb_prop in Hs as [Hc Hs].
  cbn [rstrip]. destruct (rstrip s) as [|c' r] eqn:Hr.
  - destruct (is_space c); [reflexivity|]. cbn [plain]. now rewrite Hc.
  - cbn [plain]. rewrite Hc. cbn [andb]. now apply IH.
Qed.

Lemma plain_strip (s : string) : plain s = true -> plain (strip s) = true.
Proof. intros Hs. now apply plain_lstrip, plain_rstrip. Qed.

(** On plain strings every engine's [\s] is [str.isspace]. *)
Lemma collapse_ws_plain (E : Regex) (L : RegexLaws E) (s : string) (b : bool) :
  plain s = true -> collapse_ws re_space b s = collapse_ws is_space b s.
Proof.
  revert b. induction s as [|c s IH]; intros b Hs; [reflexivity|].
  cbn [plain] in Hs. apply andb_prop in Hs as [Hc Hs].
  assert (Hsame : re_space c = is_space c).
  { unfold plain_char in Hc. apply andb_prop in Hc as [_ Hc].
    destruct (is_space c) eqn:Hsp.
    - apply re_space_common. exact Hc.
    - destruct (re_space c) eqn:Hre; [|reflexivity].
      apply re_space_blank in Hre. congruence. }
  cbn [collapse_ws]. rewrite Hsame.
  destruct (is_space c); [destruct b|]; now rewrite IH.
Qed.

Lemma python_re_laws : RegexLaws python_re.
Proof.
  split; simpl; [|auto].
  intros c Hc. unfold common_blank in Hc. unfold is_space.
  cbn [existsb] in Hc.
  repeat (apply orb_prop in Hc as [Hc | Hc];
          [apply Nat.eqb_eq in Hc; rewrite Hc; reflexivity|]).
  discriminate Hc.
Qed.

Lemma re2_laws : RegexLaws re2.
Proof.
  split; simpl; [auto|].
  intros c Hc. unfold common_blank in Hc. unfold is_space.
  cbn [existsb] in Hc.
  repeat (apply orb_prop in Hc as [Hc | Hc];
          [apply Nat.eqb_eq in Hc; rewrite Hc; reflexivity|]).
  discriminate Hc.
Qed.

End CleaningFacts.

(** ** Preprocessing the text data *)

Section PreprocessFacts.
Import Py EmotionDataProcessor.
Local Open Scope list_scope.
Context (E : Regex) (L : RegexLaws E).

Lemma drop_duplicates_texts seen df :
  map fst (drop_duplicates seen df) = unique_from seen (map fst df).
Proof.
  revert seen. induction df as [|[t e] df IH]; intros seen; [reflexivity|].
  cbn [drop_duplicates unique_from map fst].
  assert (Hsame : existsb (String.eqb t) seen
                  = existsb (fun y => bool_decide (t = y)) seen).
  { clear. induction seen as [|y seen IH]; [reflexivity|]. simpl.
    rewrite IH. f_equal.
    destruct (String.eqb_spec t y) as [-> | Hne].
    - now rewrite bool_decide_eq_true_2.
    - now rewrite bool_decide_eq_false_2. }
  rewrite Hsame. clear Hsame.
  destruct (existsb _ seen); cbn [map fst]; now rewrite IH.
Qed.

Lemma drop_duplicates_in seen df r :
  In r (drop_duplicates seen df) -> In r df.
Proof.
  revert seen. induction df as [|[t e] df IH]; intros seen; [auto|].
  simpl. destruct (existsb (String.eqb t) seen); simpl.
  - intros Hr. right. eapply IH, Hr.
  - intros [<- | Hr]; [now left | right; eapply IH, Hr].
Qed.

Lemma map_value_some mapping k :
  is_Some (map_value mapping k) <-> In k (map fst mapping).
Proof.
  induction mapping as [|[k' v] mapping IH]; simpl.
  - split; [intros [x Hx]; discriminate Hx | contradiction].
  - destruct (String.eqb_spec k k') as [-> | Hne].
    + split; [now left | eauto].
    + rewrite IH. split; [now right | intros [Heq | Hin]; congruence].
Qed.

Lemma sub_ws_plain s :
  plain s = true -> sub_ws (strip s) = collapse_ws is_space false (strip s).
Proof using L.
  intros Hs. unfold sub_ws. apply collapse_ws_plain; [exact L|].
  now apply plain_strip.
Qed.

Lemma count_words_clean s :
  plain s = true -> count_words (sub_ws (strip s)) = count_words s.
Proof using L.
  intros Hs. unfold count_words. now rewrite sub_ws_plain, clean_words.
Qed.

(** X10.  On a train split whose sentences and labels are plain strings
    (ASCII characters, no blank other than space, tab, newline, carriage
    return and form feed), every row that [preprocess_text_data] returns
    stems from a row of the split: its text is the sentence's words
    joined by single spaces, there are at least three of them and
    'word_count' is their number, 'text_length' is the length of the
    cleaned text, the emotion is the label in lower case, and
    'sales_emotion' is present exactly for the thirteen emotions of the
    mapping. *)
Theorem preprocess_text_data_normalises :
  forall (train : list (string * string)) (r : text_row),
    plain_rows train ->
    In r (preprocess_text_data train) ->
    exists sentence label,
      In (sentence, label) train
      /\ t_text r = String.concat " " (split_ws EmptyString sentence)
      /\ split_ws EmptyString (t_text r) = split_ws EmptyString sentence
      /\ word_count r = length (split_ws EmptyString sentence)
      /\ (3 <= word_count r)%nat
      /\ text_length r = String.length (t_text r)
      /\ t_emotion r = lower label
      /\ sales_emotion r = map_value sales_emotion_mapping (lower label)
      /\ (is_Some (sales_emotion r)
          <-> In (lower label) (map fst sales_emotion_mapping)).
Proof using L.
  intros train r Hplain Hr. unfold preprocess_text_data in Hr.
  apply in_map_iff in Hr as ([t3 e3] & <- & Hr).
  apply List.filter_In in Hr as [Hr Hwords].
  apply in_map_iff in Hr as ([t2 e2] & [= <- <-] & Hr).
  apply in_map_iff in Hr as ([t1 e1] & [= <- <-] & Hr).
  apply drop_duplicates_in in Hr.
  apply in_map_iff in Hr as ([sentence label] & [= <- <-] & Hr).
  cbn [fst snd] in *.
  destruct (Hplain sentence label Hr) as [Hs _].
  exists sentence, label. cbn [t_text t_emotion sales_emotion text_length word_count].
  rewrite (count_words_clean _ Hs) in *.
  rewrite (sub_ws_plain _ Hs).
  split; [exact Hr|]. split; [apply clean_is_join|].
  split; [apply clean_words|]. split; [reflexivity|].
  split; [now apply Nat.leb_le|]. split; [reflexivity|].
  split; [reflexivity|]. split; [reflexivity | apply map_value_some].
Qed.

Lemma filter_map_texts (q : string -> bool) (f : string -> string)
    (p : string * string -> bool) (D : list (string * string)) :
  (forall r, In r D -> p (f (fst r), snd r) = q (fst r)) ->
  map fst (List.filter p (map (fun r => (f (fst r), snd r)) D))
  = map f (List.filter q (map fst D)).
Proof.
  intros Hp. induction D as [|r D IH]; [reflexivity|].
  simpl. rewrite Hp by now left.
  destruct (q (fst r)); simpl; rewrite IH; auto;
    intros r' Hr'; apply Hp; now right.
Qed.

(** The column of cleaned texts, from the distinct sentences. *)
Lemma preprocess_texts train :
  plain_rows train ->
  map t_text (preprocess_text_data train)
  = map (fun s => sub_ws (strip s))
        (List.filter (fun s => (3 <=? count_words s)%nat)
                     (unique (map fst train))).
Proof using L.
  intros Hplain. unfold preprocess_text_data.
  rewrite (map_map _ t_text). cbn [t_text].
  change (map (fun x : string * string => fst x)) with (@map (string * string) string fst).
  rewrite (map_map (fun r => (strip (fst r), snd r))
                   (fun r => (sub_ws (fst r), snd r))).
  cbn [fst snd].
  rewrite (filter_map_texts (fun s => (3 <=? count_words s)%nat)
             (fun s => sub_ws (strip s))).
  - rewrite drop_duplicates_texts, map_map. reflexivity.
  - intros [t e] Hr. cbn [fst]. apply drop_duplicates_in in Hr.
    apply in_map_iff in Hr as ([s l] & [= <- <-] & Hr).
    cbn [fst]. rewrite count_words_clean; [reflexivity|].
    now destruct (Hplain s l Hr).
Qed.

Lemma nodup_map_eq {A B : Type} (f : A -> B) (l : list A) (x y : A) :
  List.NoDup (map f l) -> In x l -> In y l -> f x = f y -> x = y.
Proof.
  induction l as [|a l IH]; intros Hnd Hx Hy Hf; [contradiction|].
  simpl in Hnd. apply List.NoDup_cons_iff in Hnd as [Hfresh Hnd].
  destruct Hx as [-> | Hx], Hy as [-> | Hy]; auto.
  - exfalso. apply Hfresh. rewrite Hf. now apply in_map.
  - exfalso. apply Hfresh. rewrite <- Hf. now apply in_map.
Qed.

Lemma nodup_map_inj {A B : Type} (f : A -> B) (l : list A) :
  List.NoDup l ->
  (forall x y, In x l -> In y l -> f x = f y -> x = y) ->
  List.NoDup (map f l).
Proof.
  induction 1 as [|a l Hfresh Hnd IH]; intros Hinj; simpl; constructor.
  - intros Hin. apply in_map_iff in Hin as (y & Hf & Hy).
    apply Hfresh. rewrite <- (Hinj y a); auto; [now right | now left].
  - apply IH. intros x y Hx Hy. apply Hinj; now right.
Qed.

(** X11.  On a train split whose sentences and labels are plain strings,
    duplicates are dropped by the raw sentence, before the cleaning: the
    cleaned texts are pairwise distinct exactly when no two different
    sentences of at least three words have the same words, that is,
    differ in their blanks only. *)
Theorem preprocess_duplicates_up_to_blanks :
  forall train : list (string * string),
    plain_rows train ->
    (List.NoDup (map t_text (preprocess_text_data train))
     <-> (forall s1 s2 l1 l2,
             In (s1, l1) train -> In (s2, l2) train ->
             (3 <= count_words s1)%nat ->
             split_ws EmptyString s1 = split_ws EmptyString s2 ->
             s1 = s2)).
Proof using L.
  intros train Hplain. rewrite (preprocess_texts _ Hplain).
  set (kept := List.filter (fun s => (3 <=? count_words s)%nat)
                           (unique (map fst train))).
  assert (Hkept : forall s, In s kept
                            <-> (exists l, In (s, l) train)
                                /\ (3 <= count_words s)%nat).
  { intros s. subst kept. rewrite List.filter_In, unique_in, Nat.leb_le.
    rewrite in_map_iff. split.
    - intros [([s' l] & <- & Hin) Hw]. split; [exists l; exact Hin | exact Hw].
    - intros [(l & Hin) Hw]. split; [exists (s, l); now split | exact Hw]. }
  assert (Hclean : forall s l, In (s, l) train ->
                     sub_ws (strip s) = collapse_ws is_space false (strip s)).
  { intros s l Hin. apply sub_ws_plain. now destruct (Hplain s l Hin). }
  split.
  - intros Hnd s1 s2 l1 l2 H1 H2 Hw Hsame.
    apply (nodup_map_eq _ kept s1 s2 Hnd).
    + apply Hkept. split; [now exists l1 | exact Hw].
    + apply Hkept. split; [now exists l2|].
      unfold count_words in *. now rewrite <- Hsame.
    + rewrite (Hclean _ _ H1), (Hclean _ _ H2).
      now rewrite !clean_is_join, Hsame.
  - intros Hdistinct. apply nodup_map_inj.
    + subst kept. apply List.NoDup_filter, unique_nodup.
    + intros s1 s2 H1 H2 Hsame.
      apply Hkept in H1 as [(l1 & H1) Hw]. apply Hkept in H2 as [(l2 & H2) _].
      apply (Hdistinct s1 s2 l1 l2 H1 H2 Hw).
      rewrite (Hclean _ _ H1), (Hclean _ _ H2) in Hsame.
      now rewrite <- (clean_words s1), <- (clean_words s2), Hsame.
Qed.

End PreprocessFacts.

(** Two sentences that differ in one blank both survive, with the same
    cleaned text; a sentence of two words is dropped; a label outside the
    mapping has no sales emotion. *)
Example preprocess_run :
  @EmotionDataProcessor.preprocess_text_data Py.re2
    [ ("I am  so happy", "Happiness"); ("I am so happy", "happiness");
      ("too short", "neutral"); (" what a day ", "Relief") ]
  = [ EmotionDataProcessor.TextRow "I am so happy" "happiness" (Some "positive") 13 4;
      EmotionDataProcessor.TextRow "I am so happy" "happiness" (Some "positive") 13 4;
      EmotionDataProcessor.TextRow "what a day" "relief" None 10 3 ].
Proof. reflexivity. Qed.

(** The engines part on a vertical tab: Python's [re] replaces it, RE2
    leaves it in the text. *)
Example preprocess_vertical_tab :
  let sentence := String "a" (String (ascii_of_nat 11) "b c d") in
  map EmotionDataProcessor.t_text
      (@EmotionDataProcessor.preprocess_text_data Py.python_re
         [ (sentence, "joy") ])
  = [ "a b c d" ]
  /\ map EmotionDataProcessor.t_text
         (@EmotionDataProcessor.preprocess_text_data Py.re2
            [ (sentence, "joy") ])
     = [ String "a" (String (ascii_of_nat 11) "b c d") ].
Proof. split; reflexivity. Qed.

Lemma plain_rows_decide (train : list (string * string)) :
  forallb (fun r => Py.plain (fst r) && Py.plain (snd r)) train = true ->
  EmotionDataProcessor.plain_rows train.
Proof.
  intros Hall s l Hin. rewrite forallb_forall in Hall.
  apply Hall in Hin. cbn [fst snd] in Hin. now apply andb_prop in Hin.
Qed.

(** Each row of that run stems from a sentence of the train split. *)
Lemma preprocess_text_data_witness :
  let train := [ ("I am  so happy", "Happiness"); (" what a day ", "Relief") ] in
  let r := EmotionDataProcessor.TextRow "what a day" "relief" None 10 3 in
  EmotionDataProcessor.plain_rows train
  /\ In r (@EmotionDataProcessor.preprocess_text_data Py.re2 train)
  /\ exists sentence label,
      In (sentence, label) train
      /\ EmotionDataProcessor.t_text r
         = String.concat " " (Py.split_ws EmptyString sentence).
Proof.
  intros train r.
  assert (Hplain : EmotionDataProcessor.plain_rows train) by (apply plain_rows_decide; reflexivity).
  assert (Hin : In r (@EmotionDataProcessor.preprocess_text_data Py.re2 train))
    by (right; left; reflexivity).
  split; [exact Hplain|]. split; [exact Hin|].
  destruct (preprocess_text_data_normalises Py.re2 re2_laws train r Hplain Hin)
    as (sentence & label & Htrain & Htext & _).
  exists sentence, label. split; [exact Htrain | exact Htext].
Defined.

(** Two sentences with the same words give the same text twice. *)
Lemma preprocess_duplicates_witness :
  let train := [ ("I am  so happy", "Happiness"); ("I am so happy", "happiness") ] in
  EmotionDataProcessor.plain_rows train
  /\ ~ List.NoDup (map EmotionDataProcessor.t_text
                       (@EmotionDataProcessor.preprocess_text_data Py.python_re train)).
Proof.
  intros train.
  assert (Hplain : EmotionDataProcessor.plain_rows train) by (apply plain_rows_decide; reflexivity).
  split; [exact Hplain|].
  intros Hnd.
  pose proof (proj1 (preprocess_duplicates_up_to_blanks
                       Py.python_re python_re_laws train Hplain) Hnd
                "I am  so happy" "I am so happy" "Happiness" "happiness")
    as Hsame.
  assert (Heq : "I am  so happy" = "I am so happy").
  { apply Hsame.
    - left; reflexivity.
    - right; left; reflexivity.
    - vm_compute. lia.
    - reflexivity. }
  discriminate Heq.
Defined.

(** ** The synthetic audio features *)

Section AudioFeatureFacts.
Import Py EmotionDataProcessor.
Local Open Scope list_scope.

Lemma draws_ext g g' n :
  (forall i, g i = g' i) ->
  ProductionEmotionService.draws g n = ProductionEmotionService.draws g' n.
Proof. intros Hg. unfold ProductionEmotionService.draws. now apply map_ext. Qed.

Lemma row_features_ext e g g' :
  (forall i, g i = g' i) -> row_features e g = row_features e g'.
Proof.
  intros Hg. unfold row_features. cbv zeta.
  rewrite (draws_ext g g' 13 Hg).
  rewrite (draws_ext (ProductionEmotionService.advance g 13)
                     (ProductionEmotionService.advance g' 13) 5)
    by (intros i; apply Hg).
  rewrite (draws_ext
             (ProductionEmotionService.advance
                (ProductionEmotionService.advance g 13) 5)
             (ProductionEmotionService.advance
                (ProductionEmotionService.advance g' 13) 5) 3)
    by (intros i; apply Hg).
  rewrite (draws_ext
             (ProductionEmotionService.advance
                (ProductionEmotionService.advance
                   (ProductionEmotionService.advance g 13) 5) 3)
             (ProductionEmotionService.advance
                (ProductionEmotionService.advance
                   (ProductionEmotionService.advance g' 13) 5) 3) 4)
    by (intros i; apply Hg).
  reflexivity.
Qed.

(** The vector of one row, entry by entry. *)
Lemma row_features_entries e g :
  row_features e g = map (fun j => expected_feature e j (g j)) (seq 0 25).
Proof.
  cbv [row_features add_to_first_3 ProductionEmotionService.draws
       ProductionEmotionService.advance adjustment_of emotion_adjustments
       seq map firstn skipn zip_with app existsb expected_feature
       Nat.ltb Nat.leb Nat.add].
  destruct (is_emotion e "happiness"), (is_emotion e "sadness"),
    (is_emotion e "anger"), (is_emotion e "fear"), (is_emotion e "neutral");
    reflexivity.
Qed.

Lemma row_features_length e g : length (row_features e g) = 25%nat.
Proof. rewrite row_features_entries. now rewrite length_map, length_seq. Qed.

Lemma generate_ext df :
  forall g g', (forall i, g i = g' i) ->
    fst (generate_synthetic_audio_features df g)
    = fst (generate_synthetic_audio_features df g')
    /\ forall i, snd (generate_synthetic_audio_features df g) i
                 = snd (generate_synthetic_audio_features df g') i.
Proof.
  induction df as [|r df IH]; intros g g' Hg; [split; [reflexivity | exact Hg]|].
  cbn [generate_synthetic_audio_features].
  destruct (IH (ProductionEmotionService.advance g 25)
               (ProductionEmotionService.advance g' 25)) as [Hf Hs].
  { intros i. apply Hg. }
  destruct (generate_synthetic_audio_features df
              (ProductionEmotionService.advance g 25)) as [f1 g1].
  destruct (generate_synthetic_audio_features df
              (ProductionEmotionService.advance g' 25)) as [f2 g2].
  simpl in *. split; [|exact Hs].
  now rewrite Hf, (row_features_ext _ g g' Hg).
Qed.

Lemma generate_spec df :
  forall g,
    length (fst (generate_synthetic_audio_features df g)) = length df
    /\ Forall (fun v => length v = 25%nat)
              (fst (generate_synthetic_audio_features df g))
    /\ (forall i, snd (generate_synthetic_audio_features df g) i
                  = g (i + 25 * length df)%nat)
    /\ (forall i r,
           df !! i = Some r ->
           fst (generate_synthetic_audio_features df g) !! i
           = Some (row_features (emotion r)
                     (ProductionEmotionService.advance g (25 * i)))).
Proof.
  induction df as [|r df IH]; intros g.
  - simpl. split; [reflexivity|]. split; [constructor|].
    split; [intros i; f_equal; lia | intros i r' Hi; discriminate Hi].
  - cbn [generate_synthetic_audio_features].
    destruct (IH (ProductionEmotionService.advance g 25))
      as (Hlen & Hall & Hgen & Hrow).
    destruct (generate_synthetic_audio_features df
                (ProductionEmotionService.advance g 25)) as [f1 g1].
    cbn [fst snd] in *.
    split; [simpl; now rewrite Hlen|].
    split; [constructor; [apply row_features_length | exact Hall]|].
    split.
    + intros i. rewrite Hgen. unfold ProductionEmotionService.advance.
      f_equal. simpl. lia.
    + intros [|i] r' Hi; simpl in Hi.
      * inversion Hi; subst r'.
        change ((row_features (emotion r) g :: f1) !! 0%nat)
          with (Some (row_features (emotion r) g)).
        apply (f_equal Some), row_features_ext. intros j.
        unfold ProductionEmotionService.advance. apply (f_equal g). lia.
      * change ((row_features (emotion r) g :: f1) !! S i) with (f1 !! i).
        rewrite (Hrow i r' Hi).
        apply (f_equal Some), row_features_ext. intros j.
        unfold ProductionEmotionService.advance. apply (f_equal g). lia.
Qed.

Lemma generate_labels df :
  forall df' g,
    map emotion df' = map emotion df ->
    generate_synthetic_audio_features df' g
    = generate_synthetic_audio_features df g.
Proof.
  induction df as [|r df IH]; intros [|r' df'] g Hmap; try discriminate Hmap;
    [reflexivity|].
  simpl in Hmap. injection Hmap as Hr Hmap.
  cbn [generate_synthetic_audio_features].
  now rewrite (IH df' _ Hmap), Hr.
Qed.

Lemma plain_adjustment e :
  ~ In e [Some "happiness"; Some "sadness"; Some "anger"; Some "fear"] ->
  is_emotion e "happiness" = false
  /\ is_emotion e "sadness" = false
  /\ is_emotion e "anger" = false
  /\ is_emotion e "fear" = false.
Proof.
  intros Hnot. simpl in Hnot. unfold is_emotion.
  repeat split;
    (destruct (emotion_eqb e _) eqn:Heq; [|reflexivity];
     apply emotion_eqb_true in Heq as [-> _]; tauto).
Qed.

(** X12.  [generate_synthetic_audio_features] returns one vector per
    row, each with as many entries as the 'input_features' of the training
    configuration, and leaves the generator advanced by 25 draws per row.
    Entry [j] of the vector of row [i] is made from draw [25 i + j] alone
    and from the row's emotion (the arithmetic read over the reals): the
    first three entries are the draw plus the emotion's adjustment, the
    next ten the draw itself, then five draws times 0.5 for happiness and
    anger and 0.3 otherwise, three times 0.8 for anger and 0.5 otherwise,
    four times 0.6 for happiness and 0.4 otherwise.  The text plays no
    part, so two dataframes with the same emotion column get the same
    features; and all emotions other than happiness, sadness, anger and
    fear, a missing one among them, are given features by one and the
    same rule. *)
Theorem synthetic_audio_features_follow_the_labels :
  forall (df : list row) (g : nat -> R),
    let features := fst (generate_synthetic_audio_features df g) in
    length features = length df
    /\ (exists n : nat,
           item create_training_config "audio_model"
             ≫= (fun audio_model => item audio_model "input_features")
           = Some (PyInt (Z.of_nat n))
           /\ Forall (fun v => length v = n) features)
    /\ (forall i, snd (generate_synthetic_audio_features df g) i
                  = g (25 * length df + i)%nat)
    /\ (forall i r,
           df !! i = Some r ->
           exists v,
             features !! i = Some v
             /\ forall j, (j < 25)%nat ->
                  v !! j = Some (expected_feature (emotion r) j
                                   (g (25 * i + j)%nat)))
    /\ (forall df',
           map emotion df' = map emotion df ->
           generate_synthetic_audio_features df' g
           = generate_synthetic_audio_features df g)
    /\ (forall e1 e2 j x,
           ~ In e1 [Some "happiness"; Some "sadness"; Some "anger"; Some "fear"] ->
           ~ In e2 [Some "happiness"; Some "sadness"; Some "anger"; Some "fear"] ->
           expected_feature e1 j x = expected_feature e2 j x).
Proof.
  intros df g features. subst features.
  destruct (generate_spec df g) as (Hlen & Hall & Hgen & Hrow).
  split; [exact Hlen|]. split; [exists 25%nat; split; [reflexivity | exact Hall]|].
  split; [intros i; rewrite Hgen; f_equal; lia|].
  split; [|split; [intros df'; apply generate_labels|]].
  - intros i r Hi. eexists. split; [apply (Hrow i r Hi)|].
    intros j Hj. rewrite row_features_entries.
    rewrite list_lookup_fmap, lookup_seq_lt by exact Hj.
    cbn [fmap option_fmap option_map].
    unfold ProductionEmotionService.advance.
    rewrite Nat.add_0_l, (Nat.add_comm j (25 * i)). reflexivity.
  - intros e1 e2 j x H1 H2. unfold expected_feature. cbv zeta.
    destruct (plain_adjustment e1 H1) as (-> & -> & -> & ->).
    destruct (plain_adjustment e2 H2) as (-> & -> & -> & ->).
    reflexivity.
Qed.

(** Two rows, the second of them angry: its vector starts at draw 25,
    and its pitch values are half the draws 38 to 42. *)
Example synthetic_audio_features_run :
  forall g : nat -> R,
    let df := [ Row "fine" (Some "neutral") None;
                Row "enough" (Some "anger") None ] in
    exists v,
      fst (generate_synthetic_audio_features df g) !! 1%nat = Some v
      /\ v !! 0%nat = Some (g 25%nat + 0.8)%R
      /\ v !! 13%nat = Some (g 38%nat * 0.5)%R
      /\ v !! 24%nat = Some (g 49%nat * 0.4)%R.
Proof.
  intros g df. eexists. split; [reflexivity|].
  repeat split; reflexivity.
Qed.

End AudioFeatureFacts.

(** ** The training script *)

(** Looking a file up in a models directory that later stages wrote
    other files to. *)
Ltac other_file Hother :=
  repeat first
    [ progress (unfold EmotionTrainer.save_model_artifacts;
                cbn [EmotionTrainer.artifact_of])
    | rewrite lookup_insert_ne by discriminate
    | rewrite Hother by discriminate ].

Section TrainerMainFacts.
Import Py EmotionTrainer.
Local Open Scope list_scope.
Context `{Learner}.

(** A training loop writes no file but its checkpoint. *)
Lemma loop_other_files checkpoint patience epochs k :
  k <> checkpoint ->
  forall s,
    models_dir (for_epochs checkpoint patience epochs s) !! k
    = models_dir s !! k.
Proof.
  intros Hk. induction epochs as [|epoch rest IH]; intros s; [reflexivity|].
  cbn [for_epochs].
  destruct (epoch_body_cases checkpoint patience epoch s)
    as [[_ Hbody] | [_ Hbody]]; rewrite Hbody; clear Hbody.
  - rewrite IH. cbn [models_dir]. apply lookup_insert_ne. congruence.
  - destruct (bool_decide _); [reflexivity|]. now rewrite IH.
Qed.

Lemma training_loop_inv md cfg m0 dir :
  loop_inv (checkpoint_of md) dir (training_loop md cfg m0 dir).
Proof.
  pose proof (for_epochs_spec (checkpoint_of md) dir
                (early_stopping_patience cfg) (range (epochs_of md cfg))
                (initial_state m0 dir) (initial_inv _ m0 dir)
                (or_introl eq_refl)) as Hspec.
  cbv zeta in Hspec. apply Hspec.
Qed.

(** Training one model and reloading its checkpoint. *)
Lemma finish_training_spec md cfg m0 dir :
  (forall w m, state_dict (load_state_dict w m) = w) ->
  let s := training_loop md cfg m0 dir in
  match finish (checkpoint_of md) s with
  | inl e =>
      e = FileNotFoundError (checkpoint_of md)
      /\ dir !! checkpoint_of md = None
      /\ Forall (fun a => (a <= 0)%Q) (val_accuracies s)
  | inr (m, _) =>
      exists w,
        models_dir s !! checkpoint_of md = Some w
        /\ state_dict m = w
        /\ ((0 < best_val_acc s)%Q ->
            exists m', w = state_dict m' /\ val_accuracy m' = best_val_acc s)
        /\ (~ (0 < best_val_acc s)%Q -> dir !! checkpoint_of md = Some w)
        /\ ~ (dir !! checkpoint_of md = None
              /\ Forall (fun a => (a <= 0)%Q) (val_accuracies s))
  end
  /\ forall k, k <> checkpoint_of md -> models_dir s !! k = dir !! k.
Proof.
  intros Hlaw s.
  destruct (training_loop_inv md cfg m0 dir) as ((Hb0 & Hbound) & _ & Hck & Hdir).
  fold s in Hb0, Hbound, Hck, Hdir.
  split.
  - unfold finish.
    destruct (models_dir s !! checkpoint_of md) as [w|] eqn:Hw.
    + exists w. split; [reflexivity|]. split; [apply Hlaw|]. split; [|split].
      * intros Hpos. destruct (Hck Hpos) as (m' & Hm' & Hacc & _).
        exists m'. split; [congruence | exact Hacc].
      * intros Hneg. rewrite <- (Hdir Hneg). exact Hw.
      * intros [Hnone Hall].
        destruct (Qlt_le_dec 0 (best_val_acc s)) as [Hpos | Hle].
        -- destruct (Hck Hpos) as (_ & _ & _ & Hin).
           rewrite List.Forall_forall in Hall. specialize (Hall _ Hin).
           apply (Qlt_irrefl 0). eapply Qlt_le_trans; eassumption.
        -- rewrite <- (Hdir (Qle_not_lt _ _ Hle)) in Hnone. congruence.
    + assert (Hneg : ~ (0 < best_val_acc s)%Q).
      { intros Hpos. destruct (Hck Hpos) as (m' & Hm' & _). congruence. }
      split; [reflexivity|]. split; [rewrite <- (Hdir Hneg); exact Hw|].
      eapply Forall_impl; [exact Hbound|].
      intros a Ha. simpl in Ha. eapply Qle_trans; [exact Ha|].
      now apply Qnot_lt_le.
  - intros k Hk. subst s. unfold training_loop.
    now rewrite loop_other_files.
Qed.

(** X13.  [main] with [--mode all].  When it ends normally, the models
    directory holds for each of the three models the checkpoint and the
    saved model, with the same weights; the multimodal model was trained
    from the model assembled from the text and the audio checkpoint; and
    each of the three checkpoints holds weights with the best validation
    accuracy of its loop if an epoch improved, and else the weights that
    were in the directory before.  Nothing but exit status 1 ends it otherwise, which
    is the case when the directory has no text checkpoint and no epoch
    of the text loop reaches a positive validation accuracy.  With
    [--mode multimodal], a missing text or audio checkpoint gives exit
    status 1. *)
Theorem main_saves_the_best_checkpoints :
  forall (cfg : config) (fresh_text fresh_audio : net)
         (assemble : weights -> weights -> net) (dir : gmap string weights),
    (forall w m, state_dict (load_state_dict w m) = w) ->
    let text_loop := training_loop text_emotion cfg fresh_text dir in
    match main All cfg fresh_text fresh_audio assemble dir with
    | inr dir' =>
        exists text_weights audio_weights multimodal_weights,
          dir' !! "best_text_emotion_model.pth" = Some text_weights
          /\ dir' !! "text_emotion_model.pth" = Some text_weights
          /\ dir' !! "best_audio_emotion_model.pth" = Some audio_weights
          /\ dir' !! "audio_emotion_model.pth" = Some audio_weights
          /\ dir' !! "best_multimodal_emotion_model.pth" = Some multimodal_weights
          /\ dir' !! "multimodal_emotion_model.pth" = Some multimodal_weights
          /\ ((0 < best_val_acc text_loop)%Q ->
              exists m, text_weights = state_dict m
                        /\ val_accuracy m = best_val_acc text_loop)
          /\ (~ (0 < best_val_acc text_loop)%Q ->
              dir !! "best_text_emotion_model.pth" = Some text_weights)
          /\ (exists dir1,
                 let audio_loop :=
                   training_loop audio_emotion cfg fresh_audio dir1 in
                 dir1 !! "best_audio_emotion_model.pth"
                 = dir !! "best_audio_emotion_model.pth"
                 /\ ((0 < best_val_acc audio_loop)%Q ->
                     exists m, audio_weights = state_dict m
                               /\ val_accuracy m = best_val_acc audio_loop)
                 /\ (~ (0 < best_val_acc audio_loop)%Q ->
                     dir !! "best_audio_emotion_model.pth"
                     = Some audio_weights))
          /\ exists dir2,
              let multimodal_loop :=
                training_loop multimodal cfg
                  (assemble text_weights audio_weights) dir2 in
              dir2 !! "best_multimodal_emotion_model.pth"
              = dir !! "best_multimodal_emotion_model.pth"
              /\ ((0 < best_val_acc multimodal_loop)%Q ->
                  exists m, multimodal_weights = state_dict m
                            /\ val_accuracy m = best_val_acc multimodal_loop)
              /\ (~ (0 < best_val_acc multimodal_loop)%Q ->
                  dir !! "best_multimodal_emotion_model.pth"
                  = Some multimodal_weights)
    | inl e => e = SystemExit 1
    end
    /\ (dir !! "best_text_emotion_model.pth" = None ->
        Forall (fun a => (a <= 0)%Q) (val_accuracies text_loop) ->
        main All cfg fresh_text fresh_audio assemble dir = inl (SystemExit 1))
    /\ (dir !! "best_text_emotion_model.pth" = None
        \/ dir !! "best_audio_emotion_model.pth" = None ->
        main (Only multimodal) cfg fresh_text fresh_audio assemble dir
        = inl (SystemExit 1)).
Proof.
  intros cfg ft fa assemble dir Hlaw text_loop.
  destruct (finish_training_spec text_emotion cfg ft dir Hlaw) as [Ht Hot].
  cbv zeta in Ht, Hot. fold text_loop in Ht, Hot.
  cbn [checkpoint_of] in Ht, Hot.
  split; [|split].
  - unfold main. cbn [selected].
    unfold text_stage, train_text_emotion_model. fold text_loop.
    cbn [checkpoint_of].
    destruct (finish "best_text_emotion_model.pth" text_loop)
      as [e | [mt ht]]; [destruct Ht as (-> & _); reflexivity|].
    destruct Ht as (wt & Hwt & Hmt & Htpos & Htneg & _).
    set (d1 := save_model_artifacts mt text_emotion (models_dir text_loop)).
    unfold audio_stage, train_audio_emotion_model.
    destruct (finish_training_spec audio_emotion cfg fa d1 Hlaw) as [Ha Hoa].
    cbv zeta in Ha, Hoa.
    set (audio_loop := training_loop audio_emotion cfg fa d1) in *.
    cbn [checkpoint_of] in Ha, Hoa |- *.
    destruct (finish "best_audio_emotion_model.pth" audio_loop)
      as [e | [ma ha]]; [destruct Ha as (-> & _); reflexivity|].
    destruct Ha as (wa & Hwa & Hma & Hapos & Haneg & _).
    assert (Hd1a : d1 !! "best_audio_emotion_model.pth"
                   = dir !! "best_audio_emotion_model.pth").
    { subst d1. unfold save_model_artifacts. cbn [artifact_of].
      other_file Hot. reflexivity. }
    set (d2 := save_model_artifacts ma audio_emotion (models_dir audio_loop)).
    assert (Hd2t : d2 !! "best_text_emotion_model.pth" = Some wt).
    { subst d2 d1. unfold save_model_artifacts. cbn [artifact_of].
      other_file Hoa. other_file Hot. exact Hwt. }
    assert (Hd2a : d2 !! "best_audio_emotion_model.pth" = Some wa).
    { subst d2. unfold save_model_artifacts. cbn [artifact_of].
      other_file Hot. exact Hwa. }
    unfold multimodal_stage, train_multimodal_model.
    cbn [checkpoint_of]. rewrite Hd2t, Hd2a.
    destruct (finish_training_spec multimodal cfg (assemble wt wa) d2 Hlaw)
      as [Hm Hom].
    cbv zeta in Hm, Hom.
    set (multimodal_loop := training_loop multimodal cfg (assemble wt wa) d2) in *.
    cbn [checkpoint_of] in Hm, Hom |- *.
    destruct (finish "best_multimodal_emotion_model.pth" multimodal_loop)
      as [e | [mm hm]]; [destruct Hm as (-> & _); reflexivity|].
    destruct Hm as (wm & Hwm & Hmm & Hmpos & Hmneg & _).
    assert (Hd2m : d2 !! "best_multimodal_emotion_model.pth"
                   = dir !! "best_multimodal_emotion_model.pth").
    { subst d2 d1. unfold save_model_artifacts. cbn [artifact_of].
      other_file Hoa. other_file Hot. reflexivity. }
    exists wt, wa, wm. unfold save_model_artifacts. cbn [artifact_of].
    split; [other_file Hom; exact Hd2t|].
    split.
    { other_file Hom. subst d2 d1. unfold save_model_artifacts.
      cbn [artifact_of]. other_file Hoa.
      rewrite lookup_insert_eq. now rewrite Hmt. }
    split; [other_file Hom; exact Hd2a|].
    split.
    { other_file Hom. subst d2. unfold save_model_artifacts.
      cbn [artifact_of]. rewrite lookup_insert_eq. now rewrite Hma. }
    split; [other_file Hom; exact Hwm|].
    split; [rewrite lookup_insert_eq; now rewrite Hmm|].
    split; [exact Htpos|]. split; [exact Htneg|].
    split.
    { exists d1. cbv zeta. fold audio_loop.
      split; [exact Hd1a|]. split; [exact Hapos|].
      intros Hneg. rewrite <- Hd1a. now apply Haneg. }
    exists d2. cbv zeta. fold multimodal_loop.
    split; [exact Hd2m|]. split; [exact Hmpos|].
    intros Hneg. rewrite <- Hd2m. now apply Hmneg.
  - intros Hnone Hall. unfold main. cbn [selected].
    unfold text_stage, train_text_emotion_model. fold text_loop.
    cbn [checkpoint_of].
    destruct (finish "best_text_emotion_model.pth" text_loop)
      as [e | [mt ht]]; [destruct Ht as (-> & _); reflexivity|].
    destruct Ht as (wt & _ & _ & _ & _ & Hnot).
    exfalso. apply Hnot. now split.
  - intros Hmissing. unfold main. cbn [selected].
    unfold multimodal_stage, train_multimodal_model. cbn [checkpoint_of].
    destruct Hmissing as [-> | Hnone]; [reflexivity|].
    destruct (dir !! "best_text_emotion_model.pth"); [|reflexivity].
    now rewrite Hnone.
Qed.

End TrainerMainFacts.

Section CountingLearnerMain.
Import Py EmotionTrainer.
Local Open Scope list_scope.
#[local] Existing Instance counting_learner.

(** The whole script on the counting learner, from an empty models
    directory: each loop peaks after its second epoch, and the files hold
    the weights of that epoch. *)
Example main_all_run :
  match main (H := counting_learner) All (Config 10 10 2) 0%nat 0%nat
             (fun _ _ => 0%nat) ∅ with
  | inr dir' =>
      (dir' !! "best_text_emotion_model.pth",
       dir' !! "multimodal_emotion_model.pth")
  | inl _ => (None, None)
  end
  = (Some 2%nat, Some 2%nat).
Proof. vm_compute. reflexivity. Qed.

(** The counting learner reloads what it saved, and on it the script
    leaves the multimodal checkpoint and the saved multimodal model with
    the same weights. *)
Lemma main_saves_witness :
  (forall w m : nat,
      state_dict (Learner := counting_learner) (load_state_dict w m) = w)
  /\ match main (H := counting_learner) All (Config 10 10 2) 0%nat 0%nat
                (fun _ _ => 0%nat) ∅ with
     | inr dir' =>
         exists w, dir' !! "best_multimodal_emotion_model.pth" = Some w
                   /\ dir' !! "multimodal_emotion_model.pth" = Some w
     | inl e => e = SystemExit 1
     end.
Proof.
  assert (Hlaw : forall w m : nat,
             state_dict (Learner := counting_learner) (load_state_dict w m) = w)
    by reflexivity.
  split; [exact Hlaw|].
  pose proof (main_saves_the_best_checkpoints (H := counting_learner)
                (Config 10 10 2) 0%nat 0%nat (fun _ _ => 0%nat) ∅ Hlaw)
    as [Hmain _].
  cbv zeta in Hmain.
  destruct (main (H := counting_learner) All (Config 10 10 2) 0%nat 0%nat
                 (fun _ _ => 0%nat) ∅) as [e | dir']; [exact Hmain|].
  destruct Hmain as (wt & wa & wm & _ & _ & _ & _ & Hb & Hm & _).
  exists wm. split; [exact Hb | exact Hm].
Defined.

End CountingLearnerMain.

(** ** The class weights of the training split *)

Section ClassWeightFacts.
Import Py EmotionDataProcessor.
Local Open Scope list_scope.
Context (S : Sklearn) (L : SklearnLaws S).





End ClassWeightFacts.

